(** * Project Tracker Pro: a shallow embedding of [main.py]

Definitions come first, in the order the script needs them: the
Python text primitives, the cells, dates, records and data frame,
the authorization check, the sidebar filters, the delete, the
Excel file as pandas and openpyxl write and read it, the effects
of the script (file, repository, API calls, notices), the calendar
export, data IO, the GitHub commit, and the add and edit/delete
sections.  The properties follow.

Text is modelled by [string] read as a sequence of code points in
the Latin-1 range (0..255); [str.lower], [str.strip] and
[str.split] are written out for that range, in which [str.lower]
works character by character.  What belongs to the libraries and
to the outside (pandas, openpyxl, the regular-expression engine,
the GitHub API, the clock) is modelled as far as the script
depends on it, and taken as a parameter where it is not followed:
the patterns beyond ordinary characters and the dot, the API
calls that fail, the file a refused write leaves. *)

From Stdlib Require Import ZArith NArith Bool Ascii String List Lia.
From stdpp Require Import base option list strings gmap sorting.

Local Open Scope string_scope.

(** ** Python text primitives *)

Module PyStr.

Definition in_range (lo hi n : N) : bool := ((lo <=? n) && (n <=? hi))%N.

(** [str.isspace] on one code point below 256. *)
Definition is_space (c : ascii) : bool :=
  let n := N_of_ascii c in
  in_range 9 13 n || in_range 28 32 n || (n =? 133)%N || (n =? 160)%N.

(** Code points that [str.lower] moves: A-Z, and the Latin-1 capitals
    except the multiplication sign. *)
Definition is_upper (c : ascii) : bool :=
  let n := N_of_ascii c in
  in_range 65 90 n || in_range 192 214 n || in_range 216 222 n.

Definition lower_char (c : ascii) : ascii :=
  if is_upper c then ascii_of_N (N_of_ascii c + 32) else c.

(** [s.lower()] *)
Fixpoint lower (s : string) : string :=
  match s with
  | EmptyString => EmptyString
  | String c s' => String (lower_char c) (lower s')
  end.

(** [s.lstrip()] *)
Fixpoint lstrip (s : string) : string :=
  match s with
  | EmptyString => EmptyString
  | String c s' => if is_space c then lstrip s' else s
  end.

(** [s.rstrip()] *)
Fixpoint rstrip (s : string) : string :=
  match s with
  | EmptyString => EmptyString
  | String c s' =>
      match rstrip s' with
      | EmptyString => if is_space c then EmptyString else String c EmptyString
      | r => String c r
      end
  end.

(** [s.strip()] *)
Definition strip (s : string) : string := rstrip (lstrip s).

(** [s.split(sep)] for a one-character separator: never the empty
    list, [''.split(',')] is [['']]. *)
Fixpoint split (sep : ascii) (s : string) : list string :=
  match s with
  | EmptyString => [EmptyString]
  | String c s' =>
      if Ascii.eqb c sep then EmptyString :: split sep s'
      else match split sep s' with
           | t :: ts => String c t :: ts
           | [] => [String c EmptyString]
           end
  end.

(** Truth value of a [str]: non-empty. *)
Definition truthy (s : string) : bool :=
  match s with EmptyString => false | _ => true end.

(** [x in xs] for a list of [str]. *)
Definition mem (x : string) (xs : list string) : bool :=
  existsb (String.eqb x) xs.

(** [q in s]: plain substring test. *)
Fixpoint contains (q s : string) : bool :=
  String.prefix q s ||
  match s with
  | EmptyString => false
  | String _ s' => contains q s'
  end.

Definition comma : ascii := ","%char.
Definition newline : ascii := ascii_of_N 10.

End PyStr.

(** ** Cells of the data frame

    A text cell read back from the sheet is a [str] or the missing
    value NaN, a float; a year cell is a number or NaN; a date cell is
    a timestamp or NaT. *)

Definition text_cell := option string.

Module Cell.

(** [x or ""]: NaN is a non-zero float, hence truthy and kept. *)
Inductive pyval := VStr (s : string) | VNaN.

Definition of_text (c : text_cell) : pyval :=
  match c with Some s => VStr s | None => VNaN end.

Definition or_empty (v : pyval) : pyval :=
  match v with
  | VStr s => if PyStr.truthy s then VStr s else VStr ""
  | VNaN => VNaN
  end.

(** [str(x)] *)
Definition str (v : pyval) : string :=
  match v with VStr s => s | VNaN => "nan" end.

(** [series.fillna("")] on one cell. *)
Definition fillna (c : text_cell) : string := default "" c.

End Cell.

(** ** Calendar dates *)

Record date := mkDate { d_year : Z; d_month : Z; d_day : Z }.

Module Calendar.

Local Open Scope Z_scope.

Definition is_leap (y : Z) : bool :=
  (y mod 4 =? 0) && (negb (y mod 100 =? 0) || (y mod 400 =? 0)).

Definition days_in_month (y m : Z) : Z :=
  if m =? 2 then (if is_leap y then 29 else 28)
  else if (m =? 4) || (m =? 6) || (m =? 9) || (m =? 11) then 30
  else 31.

Definition valid_date (d : date) : bool :=
  (1 <=? d_month d) && (d_month d <=? 12) && (1 <=? d_day d)
  && (d_day d <=? days_in_month (d_year d) (d_month d)).

(** The day after [d]: what adding [timedelta(days=1)] to a
    timestamp at midnight of [d] denotes. *)
Definition next_day (d : date) : date :=
  if d_day d <? days_in_month (d_year d) (d_month d)
  then mkDate (d_year d) (d_month d) (d_day d + 1)
  else if d_month d <? 12 then mkDate (d_year d) (d_month d + 1) 1
  else mkDate (d_year d + 1) 1 1.

(** Day count in the proleptic Gregorian calendar, as
    [date.toordinal] computes it; used to check [next_day]. *)
Definition days_before_year (y : Z) : Z :=
  let p := y - 1 in p * 365 + p / 4 - p / 100 + p / 400.

Fixpoint days_before_month_nat (y : Z) (m : nat) : Z :=
  match m with
  | O => 0
  | S k => days_before_month_nat y k + days_in_month y (Z.of_nat (S k))
  end.

Definition days_before_month (y m : Z) : Z :=
  days_before_month_nat y (Z.to_nat (m - 1)).

Definition ordinal (d : date) : Z :=
  days_before_year (d_year d) + days_before_month (d_year d) (d_month d) + d_day d.

Definition date_leb (a b : date) : bool :=
  (d_year a <? d_year b)
  || ((d_year a =? d_year b)
      && ((d_month a <? d_month b)
          || ((d_month a =? d_month b) && (d_day a <=? d_day b)))).

(** Midnights a nanosecond [Timestamp] can hold. *)
Definition TS_MIN : date := mkDate 1677 9 22.
Definition TS_MAX : date := mkDate 2262 4 11.

Definition in_bounds (d : date) : bool :=
  valid_date d && date_leb TS_MIN d && date_leb d TS_MAX.

(** Dates well inside those bounds. *)
Definition well_formed_date (d : date) : bool :=
  valid_date d && (1678 <=? d_year d) && (d_year d <=? 2261).

Definition digit (n : Z) : ascii := ascii_of_N (48 + Z.to_N (n mod 10)).

(** [n] in decimal on [width] digits, zero padded. *)
Fixpoint zero_pad (width : nat) (n : Z) : string :=
  match width with
  | O => EmptyString
  | S w => zero_pad w (n / 10) +:+ String (digit n) EmptyString
  end.

(** [strftime("%Y%m%d")] for a four-digit year. *)
Definition yyyymmdd (d : date) : string :=
  zero_pad 4 (d_year d) +:+ zero_pad 2 (d_month d) +:+ zero_pad 2 (d_day d).

End Calendar.

(** ** Project records and the data frame *)

Record record := mkRecord {
  Year : option Z;
  ProjectCode : text_cell;
  ProjectName : text_cell;
  Location : text_cell;
  ProjectStart : option date;
  ProjectEnd : option date;
  ProjectTeam : text_cell
}.

(** A data frame is its rows in order, each under its index label. *)
Definition DataFrame := list (nat * record).

Definition labels (df : DataFrame) : list nat := map fst df.
Definition rows (df : DataFrame) : list record := map snd df.

(** [df.loc[i]] *)
Definition loc (df : DataFrame) (i : nat) : option record :=
  snd <$> List.find (fun p => Nat.eqb (fst p) i) df.

(** The index [read_excel] and [reset_index(drop=True)] produce. *)
Definition range_index (rs : list record) : DataFrame :=
  combine (seq 0 (length rs)) rs.

(** ** Session and authorization *)

Section Auth.

(** [st.session_state], the keys the script uses hold strings. *)
Variable session_state : gmap string string.

Definition is_admin : bool :=
  bool_decide (session_state !! "auth_role" = Some "admin").

Definition current_user : string :=
  default "" (session_state !! "auth_user").

(** The names listed in a team string, as the script computes them
    from the lower-cased cell. *)
Definition team_members (row_team : string) : list string :=
  map (fun u => PyStr.lower (PyStr.strip u))
      (List.filter (fun u => PyStr.truthy (PyStr.strip u))
                   (PyStr.split PyStr.comma row_team)).

Definition row_team_of (r : record) : string :=
  PyStr.lower (Cell.str (Cell.or_empty (Cell.of_text (ProjectTeam r)))).

(** [can_edit], read through [if not can_edit]. *)
Definition can_edit (r : record) : bool :=
  let row_team := row_team_of r in
  let user := PyStr.lower current_user in
  is_admin || (PyStr.truthy user && PyStr.mem user (team_members row_team)).

End Auth.

(** The tokens of a team string as the specification words them:
    split on commas, trim each token, lower-case it. *)
Definition spec_team_tokens (team : string) : list string :=
  map (fun t => PyStr.lower (PyStr.strip t)) (PyStr.split PyStr.comma team).

(** ** Exceptions *)

Inductive exn :=
| Error (kind : string) (what : string)   (* any subclass of Exception *)
| RerunException.                         (* script control, not an Exception *)

Inductive res (A : Type) :=
| Ok (a : A)
| Raise (e : exn).
Arguments Ok {A} a.
Arguments Raise {A} e.

(** ** Sidebar filters *)

(** [Series.str.contains(pat)] compiles the pattern with [re.compile]
    and searches each text with it: the pattern is a regular
    expression.  This module follows the patterns made of ordinary
    characters and the dot, and the patterns that start with a
    repetition mark, which [re] refuses.  What [re.compile] answers on
    any other pattern is left to the engine, a parameter. *)
Module Re.

Inductive item := Lit (c : ascii) | AnyChar.

Definition specials : string := ".^$*+?{}[]\|()".

Definition is_special (c : ascii) : bool :=
  existsb (Ascii.eqb c) (list_ascii_of_string specials).

(** The items of a pattern made of ordinary characters and dots. *)
Fixpoint plain (p : string) : option (list item) :=
  match p with
  | EmptyString => Some []
  | String c p' =>
      if Ascii.eqb c "."%char then cons AnyChar <$> plain p'
      else if is_special c then None
      else cons (Lit c) <$> plain p'
  end.

(** The dot matches every character but the newline. *)
Definition item_match (it : item) (c : ascii) : bool :=
  match it with
  | Lit a => Ascii.eqb a c
  | AnyChar => negb (Ascii.eqb c PyStr.newline)
  end.

Fixpoint match_here (its : list item) (s : string) : bool :=
  match its with
  | [] => true
  | it :: its' =>
      match s with
      | EmptyString => false
      | String c s' => item_match it c && match_here its' s'
      end
  end.

Fixpoint search (its : list item) (s : string) : bool :=
  match_here its s ||
  match s with
  | EmptyString => false
  | String _ s' => search its s'
  end.

(** A pattern without special characters. *)
Definition literal (p : string) : bool :=
  forallb (fun c => negb (is_special c)) (list_ascii_of_string p).

(** What compiling a pattern gives: the test [search(text) is not
    None], or the exception raised. *)
Inductive compiled :=
| Searches (found : string -> bool)
| Refused (kind what : string).

(** A pattern that starts with a star, a plus or a question mark has
    nothing to repeat. *)
Definition repeats_nothing (p : string) : bool :=
  match p with
  | String c _ => Ascii.eqb c "*"%char || Ascii.eqb c "+"%char || Ascii.eqb c "?"%char
  | EmptyString => false
  end.

Definition NOTHING_TO_REPEAT : string := "nothing to repeat at position 0".

(** [re.compile(p)]; [engine] answers for the patterns not followed
    here. *)
Definition compile (engine : string -> compiled) (p : string) : compiled :=
  match plain p with
  | Some its => Searches (search its)
  | None =>
      if repeats_nothing p then Refused "re.error" NOTHING_TO_REPEAT
      else engine p
  end.

End Re.

(** The value of the year select box: the sentinel or one of the
    numbers of the Year column (the [isdigit] conversion of the script
    only concerns years held as text, which [record] has not). *)
Inductive year_choice := YearAll | YearIs (y : Z).

(** [frame[mask]]: the rows whose mask is true, labels kept. *)
Definition select (mask : record -> bool) (df : DataFrame) : DataFrame :=
  List.filter (fun p => mask (snd p)) df.

Definition year_mask (y : Z) (r : record) : bool :=
  match Year r with Some v => Z.eqb v y | None => false end.

Definition location_mask (l : string) (r : record) : bool :=
  match Location r with Some v => String.eqb v l | None => false end.

Definition field_contains (found : string -> bool) (c : text_cell) : bool :=
  found (PyStr.lower (Cell.fillna c)).

Definition query_mask (found : string -> bool) (r : record) : bool :=
  field_contains found (ProjectCode r)
  || field_contains found (ProjectName r)
  || field_contains found (Location r).

(** The [if code_query:] block. *)
Definition query_filter (engine : string -> Re.compiled) (code_query : string)
    (df : DataFrame) : res DataFrame :=
  if PyStr.truthy code_query then
    let q := PyStr.lower code_query in
    match Re.compile engine q with
    | Re.Searches found => Ok (select (query_mask found) df)
    | Re.Refused kind what => Raise (Error kind what)
    end
  else Ok df.

Definition year_filter_step (year_filter : year_choice) (df : DataFrame) : DataFrame :=
  match year_filter with
  | YearAll => df
  | YearIs y => select (year_mask y) df
  end.

Definition location_filter_step (location_filter : string) (df : DataFrame) : DataFrame :=
  if String.eqb location_filter "All" then df
  else select (location_mask location_filter) df.

(** [filtered], as computed from [df.copy()]. *)
Definition filtered (engine : string -> Re.compiled) (year_filter : year_choice)
    (location_filter code_query : string) (df : DataFrame) : res DataFrame :=
  query_filter engine code_query
    (location_filter_step location_filter (year_filter_step year_filter df)).

(** Case-insensitive substring match as the specification words it:
    some contiguous part of the field equals the query up to case. *)
Definition spec_ci_substring (q field : string) : Prop :=
  ∃ pre mid post, field = pre +:+ mid +:+ post ∧ PyStr.lower mid = PyStr.lower q.




(** The predicate of the query box: none when the box is empty, the
    search for the compiled pattern otherwise, unless the pattern is
    refused. *)
Definition query_pred (engine : string -> Re.compiled) (code_query : string)
    : res (record -> bool) :=
  if PyStr.truthy code_query then
    match Re.compile engine (PyStr.lower code_query) with
    | Re.Searches found => Ok (query_mask found)
    | Re.Refused kind what => Raise (Error kind what)
    end
  else Ok (fun _ => true).


(** ** Delete *)

Definition other_label (i : nat) (p : nat * record) : bool :=
  negb (Nat.eqb (fst p) i).

(** [df.drop(index=i)]: KeyError ([None]) when no row carries the label. *)
Definition drop_index (i : nat) (df : DataFrame) : option DataFrame :=
  if existsb (Nat.eqb i) (labels df)
  then Some (List.filter (other_label i) df)
  else None.

(** [df.reset_index(drop=True)] *)
Definition reset_index (df : DataFrame) : DataFrame := range_index (rows df).

(** [df.drop(index=row_idx).reset_index(drop=True)] *)
Definition do_delete (row_idx : nat) (df : DataFrame) : option DataFrame :=
  reset_index <$> drop_index row_idx df.

(** ** The Excel file

    What [DataFrame.to_excel] (through openpyxl) puts in a cell and
    what [pandas.read_excel] makes of it. *)

Inductive xl_cell :=
| XEmpty
| XText (s : string)
| XFormula (s : string)
| XError (s : string)
| XNumber (z : Z)
| XDate (d : date).

Record worksheet := mkSheet {
  ws_header : list string;
  ws_body : list (list xl_cell)
}.

(** A workbook maps sheet names to sheets. *)
Abbreviation workbook := (gmap string worksheet).

Definition EXCEL_FILE : string := "projects.xlsx".
Definition SHEET_NAME : string := "Projects".

Definition COLUMNS : list string :=
  ["Year"; "Project Code"; "Project Name"; "Location";
   "Project Start"; "Project End"; "Project Team"].

(** ** Effects *)

(** Calls made to the GitHub API. *)
Inductive net_call :=
| GetRepo (token repo_name : string)
| GetContents (path branch : string)
| UpdateFile (path message : string) (content : workbook) (branch : string)
| CreateFile (path message : string) (content : workbook) (branch : string).

(** Notices shown through [st.info], [st.success], [st.warning] and
    [st.error]. *)
Inductive notice :=
| InfoGithubSkipped
| SuccessGithubPushed
| ErrorGithubFailed (e : exn)
| SuccessProjectAdded
| InfoAdminOnly
| InfoNoProjects
| WarningNotAuthorized
| SuccessUpdated
| SuccessDeleted.

Record world := mkWorld {
  disk : option workbook;            (* projects.xlsx, when it exists *)
  remote : gmap string workbook;     (* projects.xlsx on each branch of the repository *)
  net_log : list net_call;           (* the API calls made so far, oldest first *)
  shown : list notice                (* the notices shown so far, oldest first *)
}.

(** A computation may change the world and then return or raise. *)
Definition M (A : Type) : Type := world -> res A * world.

Definition ret {A} (a : A) : M A := fun w => (Ok a, w).
Definition raise {A} (e : exn) : M A := fun w => (Raise e, w).

Definition bind {A B} (m : M A) (k : A -> M B) : M B :=
  fun w =>
    match m w with
    | (Ok a, w') => k a w'
    | (Raise e, w') => (Raise e, w')
    end.

(** [try: body except Exception as e: handler(e)] *)
Definition try_except {A} (body : M A) (handler : exn -> M A) : M A :=
  fun w =>
    match body w with
    | (Raise (Error kind what), w') => handler (Error kind what) w'
    | other => other
    end.

Declare Scope eff_scope.
Delimit Scope eff_scope with eff.
Notation "'do' x <- m ; k" := (bind m (fun x => k))
  (at level 10, x name, m at level 100, k at level 200) : eff_scope.
Notation "m ;; k" := (bind m (fun _ => k))
  (at level 100, k at level 200, right associativity) : eff_scope.

Definition show (n : notice) : M unit :=
  fun w => (Ok tt, mkWorld (disk w) (remote w) (net_log w) (shown w ++ [n])).

Definition log_call (c : net_call) : M unit :=
  fun w => (Ok tt, mkWorld (disk w) (remote w) (net_log w ++ [c]) (shown w)).

Definition get_world : M world := fun w => (Ok w, w).

Definition set_disk (wb : workbook) : M unit :=
  fun w => (Ok tt, mkWorld (Some wb) (remote w) (net_log w) (shown w)).

Definition set_remote (branch : string) (wb : workbook) : M unit :=
  fun w => (Ok tt, mkWorld (disk w) (<[branch := wb]> (remote w)) (net_log w) (shown w)).

(** [st.experimental_rerun()] *)
Definition rerun {A} : M A := raise RerunException.

(** ** Writing and reading the sheet *)

Module Excel.

Definition code (c : ascii) : N := N_of_ascii c.

(** openpyxl's [ILLEGAL_CHARACTERS_RE]: the control characters XML
    cannot carry. *)
Definition illegal_char (c : ascii) : bool :=
  PyStr.in_range 0 8 (code c) || PyStr.in_range 11 12 (code c)
  || PyStr.in_range 14 31 (code c).

Definition has_illegal (s : string) : bool :=
  existsb illegal_char (list_ascii_of_string s).

Definition MAX_TEXT : N := 32767.

(** [value[:32767]] *)
Definition truncate (s : string) : string :=
  String.substring 0 (N.to_nat MAX_TEXT) s.

Definition is_formula (s : string) : bool :=
  (1 <? String.length s)%nat && String.prefix "=" s.

(** The texts openpyxl stores as error values. *)
Definition ERROR_CODES : list string :=
  ["#NULL!"; "#DIV/0!"; "#VALUE!"; "#REF!"; "#NAME?"; "#NUM!"; "#N/A"].

(** One text value on its way into the sheet: NaN becomes the empty
    text [na_rep]; openpyxl truncates, refuses control characters,
    writes the empty text as an empty cell, a longer text starting
    with an equals sign as a formula and an error code as an error
    value. *)
Definition write_text (c : text_cell) : res xl_cell :=
  let v := truncate (default "" c) in
  if has_illegal v then Raise (Error "IllegalCharacterError" v)
  else if negb (PyStr.truthy v) then Ok XEmpty
  else if is_formula v then Ok (XFormula v)
  else if PyStr.mem v ERROR_CODES then Ok (XError v)
  else Ok (XText v).

Definition write_year (c : option Z) : xl_cell :=
  match c with Some z => XNumber z | None => XEmpty end.

Definition write_date (c : option date) : xl_cell :=
  match c with Some d => XDate d | None => XEmpty end.

Definition write_row (r : record) : res (list xl_cell) :=
  match write_text (ProjectCode r), write_text (ProjectName r),
        write_text (Location r), write_text (ProjectTeam r) with
  | Ok c, Ok n, Ok l, Ok t =>
      Ok [write_year (Year r); c; n; l;
          write_date (ProjectStart r); write_date (ProjectEnd r); t]
  | Raise e, _, _, _ => Raise e
  | _, Raise e, _, _ => Raise e
  | _, _, Raise e, _ => Raise e
  | _, _, _, Raise e => Raise e
  end.

Fixpoint write_rows (rs : list record) : res (list (list xl_cell)) :=
  match rs with
  | [] => Ok []
  | r :: rs' =>
      match write_row r with
      | Raise e => Raise e
      | Ok cells =>
          match write_rows rs' with
          | Raise e => Raise e
          | Ok body => Ok (cells :: body)
          end
      end
  end.

(** [df.to_excel(file, sheet_name=..., index=False)]: the labels are
    not written. *)
Definition to_excel (df : DataFrame) (sheet_name : string) : res workbook :=
  match write_rows (rows df) with
  | Raise e => Raise e
  | Ok body => Ok {[ sheet_name := mkSheet COLUMNS body ]}
  end.

(** The texts [read_excel] takes for a missing value by default. *)
Definition NA_VALUES : list string :=
  [""; "#N/A"; "#N/A N/A"; "#NA"; "-1.#IND"; "-1.#QNAN"; "-NaN"; "-nan";
   "1.#IND"; "1.#QNAN"; "<NA>"; "N/A"; "NA"; "NULL"; "NaN"; "None";
   "n/a"; "nan"; "null"].

Definition is_na (s : string) : bool := PyStr.mem s NA_VALUES.

(** The words the reader takes for booleans. *)
Definition BOOL_VALUES : list string :=
  ["True"; "TRUE"; "true"; "False"; "FALSE"; "false"].

Definition bool_text (s : string) : bool := PyStr.mem s BOOL_VALUES.

(** *** Texts that read as numbers

    The reader tries every text of a column as a number with
    pandas' [precise_xstrtod] (decimal point, exponent mark E, no
    thousands separator, trailing white space skipped), and after it
    the spellings of infinity. *)

Definition is_digit (c : ascii) : bool := PyStr.in_range 48 57 (code c).

(** [isspace] of the C locale. *)
Definition c_space (c : ascii) : bool :=
  PyStr.in_range 9 13 (code c) || (code c =? 32)%N.

Definition is_sign (c : ascii) : bool :=
  Ascii.eqb c "+"%char || Ascii.eqb c "-"%char.

Definition is_exp_mark (c : ascii) : bool :=
  Ascii.eqb c "e"%char || Ascii.eqb c "E"%char.

(** The text after its leading characters of a class, and their
    number. *)
Fixpoint skip (p : ascii -> bool) (s : string) : string :=
  match s with
  | EmptyString => EmptyString
  | String c s' => if p c then skip p s' else s
  end.

Fixpoint count (p : ascii -> bool) (s : string) : nat :=
  match s with
  | EmptyString => O
  | String c s' => if p c then S (count p s') else O
  end.

Definition skip_sign (s : string) : string :=
  match s with
  | String c s' => if is_sign c then s' else s
  | EmptyString => EmptyString
  end.

(** The fraction of a number: what follows a decimal point. *)
Definition fraction (s : string) : option string :=
  match s with
  | String c r => if Ascii.eqb c "."%char then Some r else None
  | EmptyString => None
  end.

(** The exponent of a number: the text after the mark, its sign and
    its digits; no exponent is read when no digit follows. *)
Definition skip_exponent (s : string) : string :=
  match s with
  | String c r =>
      if is_exp_mark c then
        let r1 := skip_sign r in
        if Nat.eqb (count is_digit r1) 0 then s else skip is_digit r1
      else s
  | EmptyString => EmptyString
  end.

(** White space, a sign, digits with at most one decimal point and at
    least one digit, an exponent, white space, and nothing else. *)
Definition reads_as_decimal (s : string) : bool :=
  let p1 := skip_sign (skip c_space s) in
  let p2 := skip is_digit p1 in
  let digits := (count is_digit p1
                 + match fraction p2 with Some r => count is_digit r | None => 0 end)%nat in
  let p3 := match fraction p2 with Some r => skip is_digit r | None => p2 end in
  negb (Nat.eqb digits 0)
  && negb (PyStr.truthy (skip c_space (skip_exponent p3))).

(** The spellings of infinity, compared without regard to case. *)
Definition INFINITIES : list string :=
  ["inf"; "-inf"; "+inf"; "infinity"; "-infinity"; "+infinity"].

Definition number_text (s : string) : bool :=
  reads_as_decimal s || PyStr.mem (PyStr.lower s) INFINITIES.

(** *** Reading *)

(** Characters a text cell brings back as they are: all but the
    control characters, the tab and the line feed apart. *)
Definition kept_char (c : ascii) : bool :=
  negb (illegal_char c) && negb (code c =? 13)%N.

Definition kept_chars (s : string) : bool :=
  forallb kept_char (list_ascii_of_string s).

(** The escape the reader of the string table removes. *)
Definition ESCAPE : string := "x005F_".

(** Outcome of reading the file. *)
Inductive load_outcome :=
| Loaded (df : DataFrame)
| LoadError (e : exn)
| OutsideSchema.   (* columns or cell types [record] does not describe *)

(** A cell of a text column before type inference: an empty cell is
    the empty text.  Formulas, error values, numbers, dates and the
    texts the sheet does not bring back unchanged ([None]) are not
    followed. *)
Definition read_text (c : xl_cell) : option string :=
  match c with
  | XEmpty => Some ""
  | XText s => if kept_chars s && negb (PyStr.contains ESCAPE s) then Some s else None
  | _ => None
  end.

Definition read_year (c : xl_cell) : option (option Z) :=
  match c with
  | XEmpty => Some None
  | XNumber z => if (Z.abs z <=? 2 ^ 53)%Z then Some (Some z) else None
  | _ => None
  end.

(** Dates both the sheet, whose day count starts with 1900, and a
    nanosecond timestamp hold. *)
Definition SHEET_MIN : date := mkDate 1900 1 1.

Definition sheet_date (d : date) : bool :=
  Calendar.valid_date d && Calendar.date_leb SHEET_MIN d
  && Calendar.date_leb d Calendar.TS_MAX.

Definition read_date (c : xl_cell) : option (option date) :=
  match c with
  | XEmpty => Some None
  | XDate d => if sheet_date d then Some (Some d) else None
  | _ => None
  end.

(** A row of the sheet, cell by cell. *)
Record sheet_row := mkSheetRow {
  sr_year : option Z;
  sr_code : string;
  sr_name : string;
  sr_location : string;
  sr_start : option date;
  sr_end : option date;
  sr_team : string
}.

Definition read_row (cells : list xl_cell) : option sheet_row :=
  match cells with
  | [y; c; n; l; s; e; t] =>
      y' ← read_year y; c' ← read_text c; n' ← read_text n;
      l' ← read_text l; s' ← read_date s; e' ← read_date e;
      t' ← read_text t;
      Some (mkSheetRow y' c' n' l' s' e' t')
  | _ => None
  end.

Definition empty_row (cells : list xl_cell) : bool :=
  forallb (fun c => match c with XEmpty => true | _ => false end) cells.

(** The reader forgets the empty rows that end the sheet. *)
Fixpoint trim_trailing (body : list (list xl_cell)) : list (list xl_cell) :=
  match body with
  | [] => []
  | cells :: body' =>
      match trim_trailing body' with
      | [] => if empty_row cells then [] else [cells]
      | kept => cells :: kept
      end
  end.

(** Type inference on a column of texts.  The missing-value markers
    apart, a column all of whose texts read as numbers becomes a
    column of numbers, and a column all of whose texts are boolean
    words a column of booleans; any other column stays text. *)
Definition stays_text (col : list string) : bool :=
  match List.filter (fun s => negb (is_na s)) col with
  | [] => true
  | vals => negb (forallb number_text vals) && negb (forallb bool_text vals)
  end.

(** A text of a column that stayed text: the markers are missing
    values. *)
Definition na_to_missing (s : string) : text_cell :=
  if is_na s then None else Some s.

Definition to_record (x : sheet_row) : record :=
  mkRecord (sr_year x)
           (na_to_missing (sr_code x)) (na_to_missing (sr_name x))
           (na_to_missing (sr_location x))
           (sr_start x) (sr_end x)
           (na_to_missing (sr_team x)).

(** [pd.read_excel(file, sheet_name=...)] *)
Definition read_excel (wb : workbook) (sheet_name : string) : load_outcome :=
  match wb !! sheet_name with
  | None => LoadError (Error "ValueError" "Worksheet not found")
  | Some ws =>
      if bool_decide (ws_header ws = COLUMNS) then
        match mapM read_row (trim_trailing (ws_body ws)) with
        | Some xs =>
            if stays_text (map sr_code xs) && stays_text (map sr_name xs)
               && stays_text (map sr_location xs) && stays_text (map sr_team xs)
            then Loaded (range_index (map to_record xs))
            else OutsideSchema
        | None => OutsideSchema
        end
      else OutsideSchema
  end.

(** What a text cell is after a save and a load: the empty text has
    become the missing value. *)
Definition blank_to_missing (c : text_cell) : text_cell :=
  match c with
  | Some s => if PyStr.truthy s then Some s else None
  | None => None
  end.

Definition reloaded (r : record) : record :=
  mkRecord (Year r)
           (blank_to_missing (ProjectCode r))
           (blank_to_missing (ProjectName r))
           (blank_to_missing (Location r))
           (ProjectStart r) (ProjectEnd r)
           (blank_to_missing (ProjectTeam r)).

(** *** Frames the sheet gives back *)

(** The text written for a cell: the empty text for a missing
    value. *)
Definition text_of (c : text_cell) : string := default "" c.

(** A text cell the sheet gives back: missing or empty, or a text
    that fits a cell, is made of characters the sheet keeps, free of
    the escape, no formula, no error code and no missing-value
    marker. *)
Definition storable_text (c : text_cell) : bool :=
  let s := text_of c in
  (N.of_nat (String.length s) <=? MAX_TEXT)%N
  && kept_chars s && negb (PyStr.contains ESCAPE s)
  && negb (is_formula s) && negb (PyStr.mem s ERROR_CODES)
  && (negb (PyStr.truthy s) || negb (is_na s)).

(** The row of the sheet a record is written as. *)
Definition as_written (r : record) : sheet_row :=
  mkSheetRow (Year r)
             (text_of (ProjectCode r)) (text_of (ProjectName r))
             (text_of (Location r))
             (ProjectStart r) (ProjectEnd r)
             (text_of (ProjectTeam r)).

(** A year a double holds exactly. *)
Definition storable_year (c : option Z) : bool :=
  match c with None => true | Some z => (Z.abs z <=? 2 ^ 53)%Z end.

Definition storable_date (c : option date) : bool :=
  match c with None => true | Some d => sheet_date d end.

Definition storable_row (r : record) : bool :=
  storable_year (Year r)
  && storable_text (ProjectCode r) && storable_text (ProjectName r)
  && storable_text (Location r) && storable_text (ProjectTeam r)
  && storable_date (ProjectStart r) && storable_date (ProjectEnd r).

(** A row all of whose cells are written empty. *)
Definition blank_row (r : record) : bool :=
  negb (bool_decide (is_Some (Year r)))
  && negb (PyStr.truthy (text_of (ProjectCode r)))
  && negb (PyStr.truthy (text_of (ProjectName r)))
  && negb (PyStr.truthy (text_of (Location r)))
  && negb (bool_decide (is_Some (ProjectStart r)))
  && negb (bool_decide (is_Some (ProjectEnd r)))
  && negb (PyStr.truthy (text_of (ProjectTeam r))).

Definition ends_blank (rs : list record) : bool :=
  match last rs with Some r => blank_row r | None => false end.

(** The texts of a column as they are written. *)
Definition column (f : record -> text_cell) (rs : list record) : list string :=
  map (fun r => text_of (f r)) rs.

(** Rows the sheet gives back: every cell is storable, no text
    column is taken for numbers or booleans, and the last row is not
    blank. *)
Definition storable (rs : list record) : bool :=
  forallb storable_row rs
  && stays_text (column ProjectCode rs) && stays_text (column ProjectName rs)
  && stays_text (column Location rs) && stays_text (column ProjectTeam rs)
  && negb (ends_blank rs).

(** No text cell holds the empty text. *)
Definition no_blank (r : record) : bool :=
  negb (bool_decide (ProjectCode r = Some ""))
  && negb (bool_decide (ProjectName r = Some ""))
  && negb (bool_decide (Location r = Some ""))
  && negb (bool_decide (ProjectTeam r = Some "")).

End Excel.

(** ** ICS (calendar) helpers *)

Module Ics.

Definition nl : string := String PyStr.newline EmptyString.

(** One line of the calendar text. *)
Definition line (s : string) : string := s +:+ nl.

(** [pd.to_datetime(x)]: NaT stays NaT. *)
Definition to_datetime (c : option date) : res (option date) :=
  match c with
  | None => Ok None
  | Some d =>
      if Calendar.in_bounds d then Ok (Some d)
      else Raise (Error "OutOfBoundsDatetime" (Calendar.yyyymmdd d))
  end.

(** [t + timedelta(days=1)] *)
Definition add_one_day (t : option date) : res (option date) :=
  match t with
  | None => Ok None
  | Some d =>
      let d' := Calendar.next_day d in
      if Calendar.in_bounds d' then Ok (Some d')
      else Raise (Error "OutOfBoundsDatetime" (Calendar.yyyymmdd d))
  end.

(** [t.strftime("%Y%m%d")]: NaT has no [strftime]. *)
Definition strftime (t : option date) : res string :=
  match t with
  | None => Raise (Error "ValueError" "NaTType does not support strftime")
  | Some d => Ok (Calendar.yyyymmdd d)
  end.

Definition and_then {A B} (x : res A) (k : A -> res B) : res B :=
  match x with Ok a => k a | Raise e => Raise e end.

(** [date_to_ics] *)
Definition date_to_ics (c : option date) : res string :=
  and_then (to_datetime c) strftime.

(** The day-after end date, formatted. *)
Definition end_to_ics (c : option date) : res string :=
  and_then (to_datetime c) (fun t => and_then (add_one_day t) strftime).

(** A cell inside an f-string, or under [str]. *)
Definition fmt (c : text_cell) : string := Cell.str (Cell.of_text c).

(** [s.encode("utf-8")] for code points below 256. *)
Fixpoint encode_utf8 (s : string) : list Byte.byte :=
  match s with
  | EmptyString => []
  | String c s' =>
      let n := N_of_ascii c in
      if (n <? 128)%N then byte_of_ascii c :: encode_utf8 s'
      else byte_of_ascii (ascii_of_N (192 + n / 64))
           :: byte_of_ascii (ascii_of_N (128 + n mod 64))
           :: encode_utf8 s'
  end.

Definition DTSTART : string := "DTSTART;VALUE=DATE:".
Definition DTEND : string := "DTEND;VALUE=DATE:".

Definition calendar_head : string :=
  line "BEGIN:VCALENDAR" +:+ line "VERSION:2.0"
  +:+ line "PRODID:-//Project Tracker Pro//EN".

(** The lines of an event before its dates, [stamp] being the
    formatted UTC time. *)
Definition event_head (stamp : string) (r : record) : string :=
  line "BEGIN:VEVENT"
  +:+ line ("UID:" +:+ fmt (ProjectCode r) +:+ "@project-tracker")
  +:+ line ("DTSTAMP:" +:+ stamp).

(** The lines of an event after its dates. *)
Definition event_tail (r : record) : string :=
  line ("SUMMARY:" +:+ fmt (ProjectCode r) +:+ " - " +:+ fmt (ProjectName r))
  +:+ line ("LOCATION:" +:+ fmt (Location r))
  +:+ line ("DESCRIPTION:Team: " +:+ fmt (ProjectTeam r))
  +:+ line "END:VEVENT".

Definition event (stamp start end_ : string) (r : record) : string :=
  event_head stamp r
  +:+ line (DTSTART +:+ start) +:+ line (DTEND +:+ end_)
  +:+ event_tail r.

Section Clock.

(** [pd.Timestamp.utcnow().strftime('%Y%m%dT%H%M%SZ')] at the
    k-th reading of the clock. *)
Variable utcnow : nat -> string.

(** The text [make_ics_for_row] encodes. *)
Definition ics_text_for_row (row : record) : res string :=
  and_then (date_to_ics (ProjectStart row)) (fun start =>
  and_then (end_to_ics (ProjectEnd row)) (fun end_ =>
  Ok (calendar_head +:+ event (utcnow 0) start end_ row
      +:+ line "END:VCALENDAR"))).

(** [make_ics_for_row] *)
Definition make_ics_for_row (row : record) : res (list Byte.byte) :=
  and_then (ics_text_for_row row) (fun ics => Ok (encode_utf8 ics)).

(** The loop of [make_ics_for_dataframe], [k] clock readings
    having been made and [ics] being the text so far. *)
Fixpoint ics_events (k : nat) (ics : string) (rs : list record) : res string :=
  match rs with
  | [] => Ok ics
  | r :: rs' =>
      and_then (date_to_ics (ProjectStart r)) (fun start =>
      and_then (end_to_ics (ProjectEnd r)) (fun end_ =>
      ics_events (S k) (ics +:+ event (utcnow k) start end_ r) rs'))
  end.

Definition ics_text_for_dataframe (df : DataFrame) : res string :=
  and_then (ics_events 0 calendar_head (rows df)) (fun ics =>
  Ok (ics +:+ line "END:VCALENDAR")).

(** [make_ics_for_dataframe] *)
Definition make_ics_for_dataframe (df : DataFrame) : res (list Byte.byte) :=
  and_then (ics_text_for_dataframe df) (fun ics => Ok (encode_utf8 ics)).

End Clock.

(** The lines of a calendar text. *)
Definition lines (ics : string) : list string := PyStr.split PyStr.newline ics.

Definition one_line (s : string) : bool :=
  forallb (fun c => negb (Ascii.eqb c PyStr.newline)) (list_ascii_of_string s).

(** Both dates present and well inside the timestamp bounds. *)
Definition well_formed_dates (r : record) : bool :=
  match ProjectStart r, ProjectEnd r with
  | Some s, Some e => Calendar.well_formed_date s && Calendar.well_formed_date e
  | _, _ => false
  end.

(** The two date lines the specification asks of a record that
    starts on [s] and ends on [e]. *)
Definition spec_date_lines (s e : date) : list string :=
  [DTSTART +:+ Calendar.yyyymmdd s;
   DTEND +:+ Calendar.yyyymmdd (Calendar.next_day e)].

(** The event of a record with both dates, under that reading. *)
Definition spec_event (stamp : string) (r : record) : string :=
  match ProjectStart r, ProjectEnd r with
  | Some s, Some e =>
      event stamp (Calendar.yyyymmdd s)
            (Calendar.yyyymmdd (Calendar.next_day e)) r
  | _, _ => EmptyString
  end.

Fixpoint spec_events (utcnow : nat -> string) (k : nat) (rs : list record) : string :=
  match rs with
  | [] => EmptyString
  | r :: rs' => spec_event (utcnow k) r +:+ spec_events utcnow (S k) rs'
  end.

End Ics.

(** ** Data IO *)

Section Script.

Local Open Scope eff_scope.

(** What is left of [projects.xlsx] when [to_excel] raises in the
    middle of writing a frame over a file with the given content:
    according to the pandas version the old content or a partly
    written sheet. *)
Variable after_refusal : option workbook -> DataFrame -> option workbook.

(** [df.to_excel(EXCEL_FILE, sheet_name=SHEET_NAME, index=False)] *)
Definition write_excel_file (df : DataFrame) : M unit :=
  fun w =>
    match Excel.to_excel df SHEET_NAME with
    | Ok wb => set_disk wb w
    | Raise e =>
        (Raise e,
         mkWorld (after_refusal (disk w) df) (remote w) (net_log w) (shown w))
    end.

(** [ensure_excel] *)
Definition ensure_excel : M unit :=
  fun w =>
    match disk w with
    | Some _ => (Ok tt, w)
    | None => write_excel_file [] w
    end.

(** [save_data] *)
Definition save_data (df : DataFrame) : M unit := write_excel_file df.

(** [load_data]: the outcome of the read, and the world
    [ensure_excel] leaves. *)
Definition load_data (w : world) : Excel.load_outcome * world :=
  match ensure_excel w with
  | (Raise e, w') => (Excel.LoadError e, w')
  | (Ok _, w') =>
      match disk w' with
      | Some wb => (Excel.read_excel wb SHEET_NAME, w')
      | None => (Excel.LoadError (Error "FileNotFoundError" EXCEL_FILE), w')
      end
  end.

(** ** GitHub commit *)

(** [st.secrets]: [None] when no secrets file exists, in which case
    every access raises. *)
Variable secrets : option (gmap string string).

(** The calls that fail for reasons outside the program (network,
    credentials, permissions). *)
Variable outage : net_call -> bool.

Definition no_secrets {A} : M A :=
  raise (Error "FileNotFoundError" "No secrets files found").

(** [key in st.secrets] *)
Definition secret_in (key : string) : M bool :=
  match secrets with
  | None => no_secrets
  | Some s => ret (bool_decide (is_Some (s !! key)))
  end.

(** [st.secrets[key]] *)
Definition secret (key : string) : M string :=
  match secrets with
  | None => no_secrets
  | Some s =>
      match s !! key with
      | Some v => ret v
      | None => raise (Error "KeyError" key)
      end
  end.

(** [st.secrets.get(key, fallback)] *)
Definition secret_get (key fallback : string) : M string :=
  match secrets with
  | None => no_secrets
  | Some s => ret (default fallback (s !! key))
  end.

(** [can_commit_to_github]: [and] evaluates its second operand only
    when the first holds. *)
Definition can_commit_to_github : M bool :=
  do has_token <- secret_in "GITHUB_TOKEN";
  if has_token then secret_in "GITHUB_REPO" else ret false.

Definition github_error {A} (what : string) : M A :=
  raise (Error "GithubException" what).

(** One API call: recorded, then failing when the outside says so. *)
Definition api (c : net_call) : M unit :=
  log_call c ;;
  if outage c then github_error "request failed" else ret tt.

(** [Github(token).get_repo(repo_name)] *)
Definition get_repo (token repo_name : string) : M unit :=
  api (GetRepo token repo_name).

(** [repo.get_contents(path, ref=branch)] *)
Definition get_contents (path branch : string) : M string :=
  api (GetContents path branch) ;;
  do w <- get_world;
  match remote w !! branch with
  | Some _ => ret path
  | None => github_error "404 Not Found"
  end.

(** [repo.update_file(path, message, content, sha, branch=branch)] *)
Definition update_file (path message : string) (content : workbook) (branch : string)
    : M unit :=
  api (UpdateFile path message content branch) ;;
  set_remote branch content.

(** [repo.create_file(path, message, content, branch=branch)] *)
Definition create_file (path message : string) (content : workbook) (branch : string)
    : M unit :=
  api (CreateFile path message content branch) ;;
  do w <- get_world;
  match remote w !! branch with
  | Some _ => github_error "422 file already exists"
  | None => set_remote branch content
  end.

(** [open(EXCEL_FILE, "rb").read()] *)
Definition read_excel_file : M workbook :=
  do w <- get_world;
  match disk w with
  | Some wb => ret wb
  | None => raise (Error "FileNotFoundError" EXCEL_FILE)
  end.

(** [commit_excel_to_github] *)
Definition commit_excel_to_github (message : string) : M unit :=
  try_except
    (do configured <- can_commit_to_github;
     if negb configured then show InfoGithubSkipped
     else
       do token <- secret "GITHUB_TOKEN";
       do repo_name <- secret "GITHUB_REPO";
       do branch <- secret_get "GITHUB_BRANCH" "main";
       get_repo token repo_name ;;
       do content_bytes <- read_excel_file;
       try_except
         (do remote_path <- get_contents EXCEL_FILE branch;
          update_file remote_path message content_bytes branch)
         (fun _ => create_file EXCEL_FILE "Create projects.xlsx" content_bytes branch) ;;
       show SuccessGithubPushed)
    (fun e => show (ErrorGithubFailed e)).

(** ** The add and edit/delete sections of the page *)

Variable session_state : gmap string string.

(** What the add form holds when it is submitted. *)
Record add_form := mkForm {
  f_year : Z;
  f_code : string;
  f_name : string;
  f_location : string;
  f_start : date;
  f_end : date;
  f_team : string
}.

Definition new_row (f : add_form) : record :=
  mkRecord (Some (f_year f))
           (Some (PyStr.strip (f_code f)))
           (Some (PyStr.strip (f_name f)))
           (Some (PyStr.strip (f_location f)))
           (Some (f_start f))
           (Some (f_end f))
           (Some (PyStr.strip (f_team f))).

(** [pd.concat([df, pd.DataFrame([row])], ignore_index=True)] *)
Definition concat_row (df : DataFrame) (r : record) : DataFrame :=
  range_index (rows df ++ [r]).

(** The section under "Add New Project"; [submitted] holds the form
    when its button was pressed.  Returns the frame the script goes
    on with. *)
Definition add_section (submitted : option add_form) (df : DataFrame) : M DataFrame :=
  if is_admin session_state then
    match submitted with
    | Some f =>
        let df' := concat_row df (new_row f) in
        save_data df' ;;
        commit_excel_to_github "Add project" ;;
        show SuccessProjectAdded ;;
        rerun
    | None => ret df
    end
  else show InfoAdminOnly ;; ret df.

(** The button pressed in the edit form. *)
Inductive edit_action :=
| DoUpdate (f : add_form)
| DoDelete.

(** [df.loc[row_idx, col] = value], column by column. *)
Definition set_row (row_idx : nat) (r : record) (df : DataFrame) : DataFrame :=
  map (fun p => if Nat.eqb (fst p) row_idx then (fst p, r) else p) df.

Definition key_error {A} : M A := raise (Error "KeyError" "row_idx").

(** [date.today()] *)
Variable today : date.

(** [st.number_input("Year", 2000, 2100, value)] accepts a default
    value within its bounds only. *)
Definition year_in_bounds (value : Z) : bool :=
  ((2000 <=? value) && (value <=? 2100))%Z.

(** The year the edit form starts from: the year of the row, the
    current year when it is missing. *)
Definition year_default (r : record) : Z := default (d_year today) (Year r).

Definition value_error {A} : M A :=
  raise (Error "StreamlitAPIException" "Year").

(** A computation that touches nothing. *)
Definition pure {A} (x : res A) : M A := fun w => (x, w).

(** The inputs of the edit form that can stop the script, in the
    order they are built: the year input, then the two date inputs,
    which convert the date of the row with [pd.to_datetime]. *)
Definition edit_form (r : record) : M unit :=
  (if year_in_bounds (year_default r) then ret tt else value_error) ;;
  pure (Ics.to_datetime (ProjectStart r)) ;;
  pure (Ics.to_datetime (ProjectEnd r)) ;;
  ret tt.

(** The section under "Edit / Delete Project".  The form is built
    before its buttons are looked at: when one of its inputs refuses
    the value of the row the script stops there. *)
Definition edit_section (row_idx : nat) (pressed : option edit_action) (df : DataFrame)
    : M DataFrame :=
  if Nat.eqb (length df) 0 then show InfoNoProjects ;; ret df
  else
    match loc df row_idx with
    | None => key_error
    | Some r =>
        if negb (can_edit session_state r) then show WarningNotAuthorized ;; ret df
        else
          edit_form r ;;
          match pressed with
          | Some (DoUpdate f) =>
              let df' := set_row row_idx (new_row f) df in
              save_data df' ;;
              commit_excel_to_github "Edit project" ;;
              show SuccessUpdated ;;
              rerun
          | Some DoDelete =>
              match do_delete row_idx df with
              | None => key_error
              | Some df' =>
                  save_data df' ;;
                  commit_excel_to_github "Delete project" ;;
                  show SuccessDeleted ;;
                  rerun
              end
          | None => ret df
          end
    end.

(** The two sections in the order of the script: the edit section
    is reached when the add section returns, with the frame as it
    was. *)
Definition mutation_sections (submitted : option add_form) (row_idx : nat)
    (pressed : option edit_action) (df : DataFrame) : M DataFrame :=
  do df' <- add_section submitted df;
  edit_section row_idx pressed df'.

End Script.

(** ** Credentials *)

Record account := mkAccount { acc_password : string; acc_role : string }.

(** One entry of [load_users_from_secrets]: the password defaults to
    the empty text and the role to viewer. *)
Definition account_of (cfg : gmap string string) : account :=
  mkAccount (default "" (cfg !! "password")) (default "viewer" (cfg !! "role")).

(** [load_users_from_secrets]; the argument is the table under "users"
    of the secrets (empty when the key is absent), [None] when reading
    the secrets raises, which the function swallows. *)
Definition load_users_from_secrets
    (users_section : option (gmap string (gmap string string))) : gmap string account :=
  match users_section with
  | None => ∅
  | Some table => account_of <$> table
  end.

Definition FALLBACK_USERS : gmap string account :=
  <["admin" := mkAccount "admin" "admin"]>
    (<["viewer" := mkAccount "viewer" "viewer"]> ∅).

(** [USERS]: the fallback replaces an empty table ([if not USERS]). *)
Definition USERS (users_section : option (gmap string (gmap string string)))
    : gmap string account :=
  let users := load_users_from_secrets users_section in
  if Nat.eqb (size users) 0 then FALLBACK_USERS else users.

(** How [login_ui] ends. *)
Inductive login_result :=
| SignedIn      (* session filled, rerun requested *)
| InvalidLogin  (* "Invalid username or password" *)
| NoSignIn.     (* the button was not pressed *)

(** [login_ui] with the two text inputs and the state of the button;
    returns the session it leaves. *)
Definition login_ui (users : gmap string account) (username password : string)
    (sign_in : bool) (session_state : gmap string string)
    : gmap string string * login_result :=
  if sign_in then
    match users !! username with
    | Some a =>
        if String.eqb (acc_password a) password
        then (<["auth_role" := acc_role a]> (<["auth_user" := username]> session_state),
              SignedIn)
        else (session_state, InvalidLogin)
    | None => (session_state, InvalidLogin)
    end
  else (session_state, NoSignIn).

(** The test of the auth gate: ["auth_user" in st.session_state]. *)
Definition signed_in (session_state : gmap string string) : bool :=
  bool_decide (is_Some (session_state !! "auth_user")).

(** The branch the commit addresses: [st.secrets.get("GITHUB_BRANCH",
    "main")]. *)
Definition target_branch (s : gmap string string) : string :=
  default "main" (s !! "GITHUB_BRANCH").

(** The values the edit form shows for a row before the user touches
    it, [today] being [date.today()].  (The number input takes a year
    from 2000 to 2100 only.) *)
Definition edit_defaults (today : date) (r : record) : add_form :=
  mkForm (default (d_year today) (Year r))
         (Cell.str (Cell.or_empty (Cell.of_text (ProjectCode r))))
         (Cell.str (Cell.or_empty (Cell.of_text (ProjectName r))))
         (Cell.str (Cell.or_empty (Cell.of_text (Location r))))
         (default today (ProjectStart r))
         (default today (ProjectEnd r))
         (Cell.str (Cell.or_empty (Cell.of_text (ProjectTeam r)))).

(** A text cell that holds a text without white space at its ends. *)
Definition trimmed_cell (c : text_cell) : Prop :=
  ∃ s, c = Some s ∧ PyStr.strip s = s.

(** ** Select boxes and downloads *)

(** [["All"] + sorted(df["Year"].dropna().unique().tolist())] *)
Definition year_options (df : DataFrame) : list year_choice :=
  YearAll :: map YearIs (merge_sort Z.le (remove_dups (omap Year (rows df)))).

(** [["All"] + sorted(df["Location"].dropna().unique().tolist())];
    texts are ordered by code points. *)
Definition location_options (df : DataFrame) : list string :=
  "All" :: merge_sort String.le (remove_dups (omap Location (rows df))).

(** [filtered.to_excel(buf_xls, index=False)]: the sheet gets the
    default name. *)
Definition download_filtered_excel (filtered_df : DataFrame) : res workbook :=
  Excel.to_excel filtered_df "Sheet1".

(** The nine lines of the event of a record that starts on [s] and
    ends on [e]. *)
Definition nine_lines (stamp : string) (s e : date) (r : record) : list string :=
  ["BEGIN:VEVENT";
   "UID:" +:+ Ics.fmt (ProjectCode r) +:+ "@project-tracker";
   "DTSTAMP:" +:+ stamp;
   Ics.DTSTART +:+ Calendar.yyyymmdd s;
   Ics.DTEND +:+ Calendar.yyyymmdd (Calendar.next_day e);
   "SUMMARY:" +:+ Ics.fmt (ProjectCode r) +:+ " - " +:+ Ics.fmt (ProjectName r);
   "LOCATION:" +:+ Ics.fmt (Location r);
   "DESCRIPTION:Team: " +:+ Ics.fmt (ProjectTeam r);
   "END:VEVENT"].

(** The lines of the events of a list of records, the k-th clock
    reading going to the first. *)
Fixpoint events_lines (utcnow : nat -> string) (k : nat) (rs : list record) : list string :=
  match rs with
  | [] => []
  | r :: rs' =>
      match ProjectStart r, ProjectEnd r with
      | Some s, Some e => nine_lines (utcnow k) s e r
      | _, _ => []
      end ++ events_lines utcnow (S k) rs'
  end.

(** No line break in the texts of a record, nor in a clock reading. *)
Definition one_line_record (r : record) : bool :=
  Ics.one_line (Ics.fmt (ProjectCode r)) && Ics.one_line (Ics.fmt (ProjectName r))
  && Ics.one_line (Ics.fmt (Location r)) && Ics.one_line (Ics.fmt (ProjectTeam r)).

(** A missing start or end date. *)
Definition lacks_date (r : record) : bool :=
  match ProjectStart r, ProjectEnd r with
  | Some _, Some _ => false
  | _, _ => true
  end.

(** No white space at either end of a text. *)
Definition trimmed (s : string) : Prop :=
  ∀ c rest, (s = String c rest ∨ s = rest +:+ String c EmptyString) →
            PyStr.is_space c = false.

(** A row whose values the inputs of the edit form accept: a year
    from 2000 to 2100, the current year standing for a missing one,
    and dates a timestamp holds. *)
Definition form_opens (today : date) (r : record) : bool :=
  year_in_bounds (year_default today r)
  && match ProjectStart r with Some d => Calendar.in_bounds d | None => true end
  && match ProjectEnd r with Some d => Calendar.in_bounds d | None => true end.

(** White space only. *)
Definition blank (s : string) : bool :=
  forallb PyStr.is_space (list_ascii_of_string s).

(** [s] is [t] without the white space at its ends, as the
    specification of trimming has it: [t] is [s] between two runs of
    white space, and [s] neither starts nor ends with white space. *)
Definition strips_to (t s : string) : Prop :=
  ∃ l r, t = l +:+ s +:+ r ∧ blank l = true ∧ blank r = true ∧ trimmed s.

(** ** Observations on computations *)

(** The file an API call carries, if any. *)
Definition carried (c : net_call) : option workbook :=
  match c with
  | UpdateFile _ _ content _ | CreateFile _ _ content _ => Some content
  | _ => None
  end.


(** A computation that terminates leaving the file and the notices as
    they were, and that raises nothing but an [Exception]. *)
Definition inert {A} (m : M A) : Prop :=
  ∀ w, ∃ r w', m w = (r, w') ∧ disk w' = disk w ∧ shown w' = shown w
    ∧ ∀ e, r = Raise e → ∃ kind what, e = Error kind what.

(** A computation that leaves the file as it was and either returns
    after showing one notice among [P], or raises an [Exception]
    having shown none. *)
Definition notifies (P : notice -> Prop) (m : M unit) : Prop :=
  ∀ w, ∃ r w', m w = (r, w') ∧ disk w' = disk w
    ∧ match r with
      | Ok _ => ∃ n, shown w' = (shown w ++ [n])%list ∧ P n
      | Raise e => shown w' = shown w ∧ ∃ kind what, e = Error kind what
      end.

(** One of the two configuration values is absent. *)
Definition unconfigured (secrets : option (gmap string string)) : Prop :=
  match secrets with
  | None => True
  | Some s => s !! "GITHUB_TOKEN" = None ∨ s !! "GITHUB_REPO" = None
  end.

(** The notices [commit_excel_to_github] can end with. *)
Definition commit_notice (n : notice) : Prop :=
  n = InfoGithubSkipped ∨ n = SuccessGithubPushed ∨ ∃ e, n = ErrorGithubFailed e.

(** A mutation handler that persists before it synchronises.  When
    the frame [df'] can be written, the handler ends in the rerun and
    its world is the one the commit leaves when started on the saved
    file, followed by the handler's own notice [finished]: the file
    holds [df'], every file sent to the repository is that file, and
    the repository changes only by one branch receiving it.  When the
    frame cannot be written the handler raises the error of the write
    and no API call is made. *)
Definition persists_then_syncs
    (after_refusal : option workbook → DataFrame → option workbook)
    (secrets : option (gmap string string)) (outage : net_call → bool)
    (handler : M DataFrame) (df' : DataFrame) (message : string)
    (finished : notice) (w : world) : Prop :=
  match Excel.to_excel df' SHEET_NAME with
  | Ok wb =>
      let saved := mkWorld (Some wb) (remote w) (net_log w) (shown w) in
      ∃ rem calls sn,
        save_data after_refusal df' w = (Ok tt, saved)
        ∧ commit_excel_to_github secrets outage message saved
          = (Ok tt, mkWorld (Some wb) rem (net_log w ++ calls) (shown w ++ [sn]))
        ∧ handler w
          = (Raise RerunException,
             mkWorld (Some wb) rem (net_log w ++ calls) (shown w ++ [sn; finished]))
        ∧ commit_notice sn
        ∧ (∀ c content, c ∈ calls → carried c = Some content → content = wb)
        ∧ (sn = SuccessGithubPushed → ∃ branch, rem = <[branch := wb]> (remote w))
        ∧ (sn ≠ SuccessGithubPushed → rem = remote w)
  | Raise e =>
      handler w
      = (Raise e,
         mkWorld (after_refusal (disk w) df') (remote w) (net_log w) (shown w))
  end.

(** ** Sample data *)

Module Sample.

(** The session [login_ui] leaves after a successful sign-in. *)
Definition session (username role : string) : gmap string string :=
  <["auth_role" := role]> (<["auth_user" := username]> ∅).

Definition project (code name location : string) (team : text_cell) : record :=
  mkRecord (Some 2024%Z) (Some code) (Some name) (Some location)
           (Some (mkDate 2024 1 10)) (Some (mkDate 2024 1 12)) team.

Definition bridge (team : text_cell) : record :=
  project "P-001" "Bridge" "NYC" team.

(** A project as the add form produces it when the location is left
    empty. *)
Definition no_location : record := project "P-001" "Bridge" "" (Some "alice").

(** A project whose end date is missing. *)
Definition undated : record :=
  mkRecord (Some 2024%Z) (Some "P-007") (Some "Quay") (Some "Ipoh")
           (Some (mkDate 2024 5 2)) None (Some "alice").

Definition stamp (k : nat) : string := "20240105T093000Z".

Definition empty_world : world := mkWorld None ∅ [] [].

Definition form : add_form :=
  mkForm 2025 " P-002 " "Tunnel" "Ipoh" (mkDate 2025 3 1) (mkDate 2025 3 31)
         "alice, bob".

(** Secrets with both values, and with the token alone. *)
Definition configured : option (gmap string string) :=
  Some (<["GITHUB_TOKEN" := "t0ken"]> (<["GITHUB_REPO" := "org/projects"]> ∅)).

Definition token_only : option (gmap string string) :=
  Some (<["GITHUB_TOKEN" := "t0ken"]> ∅).

(** Every API call fails. *)
Definition offline (c : net_call) : bool := true.

(** A refused write leaves the file as it was. *)
Definition keep_old (old : option workbook) (df : DataFrame) : option workbook := old.

(** Five projects over two years and two locations. *)
Definition in_year (y : Z) (code name location : string) : record :=
  mkRecord (Some y) (Some code) (Some name) (Some location)
           (Some (mkDate y 3 1)) (Some (mkDate y 3 31)) (Some "alice").

Definition five : DataFrame :=
  range_index [in_year 2024 "AA-1" "Bridge" "NYC";
               in_year 2023 "B-2" "Tunnel" "NYC";
               in_year 2024 "C-3" "Road" "Ipoh";
               in_year 2024 "D-4" "Plaza" "NYC";
               in_year 2023 "E-5" "Canaan" "Ipoh"].

(** A user table with one account that has neither password nor
    role. *)
Definition one_user : gmap string (gmap string string) := <["dana" := ∅]> ∅.


Definition three (a b c : string) : list record :=
  [bridge (Some a); bridge (Some b); bridge (Some c)].

(** Rows with short texts, a text beyond ASCII, a code made of
    digits beside one that is not, and the first and the last day
    the sheet and the timestamps share. *)
Definition wide : list record :=
  [mkRecord (Some 2024%Z) (Some "2024") (Some "tina") (Some "NY")
            (Some (mkDate 1900 1 1)) (Some (mkDate 2262 4 11)) (Some "A");
   mkRecord None (Some "P-2") (Some (String (ascii_of_N 233) "t" +:+ String (ascii_of_N 233) ""))
            None None None (Some "Ana, Tan");
   mkRecord (Some 2025%Z) None None (Some "Ipoh")
            (Some (mkDate 1900 3 1)) None None].

(** An engine that refuses every pattern it is asked about; the
    samples do not ask it. *)
Definition engine (p : string) : Re.compiled := Re.Refused "re.error" p.

(** The day the samples are run. *)
Definition today : date := mkDate 2026 11 3.

(** A project that ends after the last day a timestamp holds. *)
Definition far_project : record :=
  mkRecord (Some 2024%Z) (Some "P-100") (Some "Vault") (Some "NYC")
           (Some (mkDate 2024 1 10)) (Some (mkDate 2300 1 1)) (Some "alice").

(** A project of the year 1999, which the year input of the edit
    form refuses. *)
Definition old_project : record :=
  mkRecord (Some 1999%Z) (Some "P-099") (Some "Depot") (Some "NYC")
           (Some (mkDate 1999 6 1)) (Some (mkDate 1999 6 30)) (Some "alice").

End Sample.

(** * Properties *)

(** ** Text primitives *)

Module PyStrFacts.
Import PyStr.

Ltac by_cases_on c :=
  destruct c as [[|] [|] [|] [|] [|] [|] [|] [|]]; vm_compute; reflexivity.

Lemma is_space_lower_char c : is_space (lower_char c) = is_space c.
Proof. by_cases_on c. Qed.

Lemma lower_char_idem c : lower_char (lower_char c) = lower_char c.
Proof. by_cases_on c. Qed.

Lemma eqb_comma_lower_char c : Ascii.eqb (lower_char c) comma = Ascii.eqb c comma.
Proof. by_cases_on c. Qed.

Lemma lower_idem s : lower (lower s) = lower s.
Proof. induction s as [|c s IH]; simpl; [reflexivity|]. by rewrite lower_char_idem, IH. Qed.

Lemma lower_app a b : lower (a +:+ b) = lower a +:+ lower b.
Proof. induction a as [|c a IH]; simpl; [reflexivity|]. by rewrite IH. Qed.

Lemma lower_length s : String.length (lower s) = String.length s.
Proof. induction s as [|c s IH]; simpl; [reflexivity|]. by rewrite IH. Qed.

Lemma truthy_lower s : truthy (lower s) = truthy s.
Proof. by destruct s. Qed.

Lemma truthy_false s : truthy s = false ↔ s = "".
Proof. destruct s; simpl; split; congruence. Qed.

Lemma truthy_true s : truthy s = true ↔ s ≠ "".
Proof. destruct s; simpl; split; congruence. Qed.

Lemma lower_empty s : lower s = "" ↔ s = "".
Proof. destruct s; simpl; split; congruence. Qed.

Lemma lstrip_lower s : lstrip (lower s) = lower (lstrip s).
Proof.
  induction s as [|c s IH]; simpl; [reflexivity|].
  rewrite is_space_lower_char. by destruct (is_space c).
Qed.

Lemma rstrip_lower s : rstrip (lower s) = lower (rstrip s).
Proof.
  induction s as [|c s IH]; simpl; [reflexivity|].
  rewrite IH, is_space_lower_char.
  destruct (rstrip s); simpl; [by destruct (is_space c)|reflexivity].
Qed.

Lemma strip_lower s : strip (lower s) = lower (strip s).
Proof. unfold strip. by rewrite lstrip_lower, rstrip_lower. Qed.

Lemma split_nonempty sep s : split sep s ≠ [].
Proof.
  induction s as [|c s IH]; simpl; [discriminate|].
  destruct (Ascii.eqb c sep); [discriminate|].
  by destruct (split sep s).
Qed.

Lemma split_comma_lower s : split comma (lower s) = map lower (split comma s).
Proof.
  induction s as [|c s IH]; simpl; [reflexivity|].
  rewrite eqb_comma_lower_char, IH.
  destruct (Ascii.eqb c comma); [reflexivity|].
  pose proof (split_nonempty comma s).
  by destruct (split comma s).
Qed.

Lemma mem_In x xs : mem x xs = true ↔ In x xs.
Proof.
  unfold mem. rewrite existsb_exists. split.
  - intros (y & Hy & Heq). apply String.eqb_eq in Heq. by subst.
  - intros Hx. exists x. split; [done|]. apply String.eqb_refl.
Qed.

End PyStrFacts.

(** ** Authorization *)

Section AuthFacts.

Import PyStr PyStrFacts.

Variable ss : gmap string string.

Lemma is_admin_role : is_admin ss = true ↔ ss !! "auth_role" = Some "admin".
Proof. unfold is_admin. apply bool_decide_eq_true. Qed.

(** The members the script computes are the specification's tokens
    without the blank ones. *)
Lemma team_members_lower team :
  team_members (lower team) = List.filter truthy (spec_team_tokens team).
Proof.
  unfold team_members, spec_team_tokens.
  rewrite split_comma_lower.
  induction (split comma team) as [|t ts IH]; simpl; [reflexivity|].
  rewrite strip_lower, !truthy_lower.
  destruct (truthy (strip t)); simpl; rewrite ?strip_lower, ?lower_idem, IH; reflexivity.
Qed.

Lemma team_members_spec row_team :
  team_members row_team = List.filter truthy (spec_team_tokens row_team).
Proof.
  unfold team_members, spec_team_tokens.
  induction (split comma row_team) as [|t ts IH]; simpl; [reflexivity|].
  rewrite truthy_lower.
  destruct (truthy (strip t)); simpl; by rewrite IH.
Qed.

Lemma team_members_no_blank row_team : ¬ In "" (team_members row_team).
Proof.
  rewrite team_members_spec. intros H%filter_In. by destruct H.
Qed.

Lemma row_team_of_text r team :
  ProjectTeam r = Some team → row_team_of r = lower team.
Proof.
  unfold row_team_of. intros ->. simpl. by destruct team.
Qed.

Lemma can_edit_text r team :
  ProjectTeam r = Some team →
  can_edit ss r
  = is_admin ss
    || (truthy (current_user ss)
        && mem (lower (current_user ss)) (spec_team_tokens team)).
Proof.
  intros Hteam. unfold can_edit.
  rewrite (row_team_of_text _ _ Hteam), team_members_lower, truthy_lower.
  f_equal. destruct (truthy (current_user ss)) eqn:Hu; simpl; [|reflexivity].
  apply eq_true_iff_eq. rewrite !mem_In, filter_In.
  rewrite truthy_true, lower_empty, <- truthy_true, Hu. intuition.
Qed.

End AuthFacts.

(** C1 (as amended).  An admin is always authorized, whatever the team
    cell holds.  A non-admin whose username is empty is authorized on
    no record.  A non-admin whose username is not empty is authorized
    on a record whose team cell is a text exactly when the lower-cased
    username is among the tokens of that text split on commas, trimmed
    and lower-cased. *)
Theorem can_edit_authorization (ss : gmap string string) (r : record) :
  (is_admin ss = true → can_edit ss r = true)
  ∧ (is_admin ss = false → current_user ss = "" → can_edit ss r = false)
  ∧ (∀ team, is_admin ss = false → ProjectTeam r = Some team →
       current_user ss ≠ "" →
       (can_edit ss r = true
        ↔ In (PyStr.lower (current_user ss)) (spec_team_tokens team))).
Proof.
  split; [|split].
  - intros Ha. unfold can_edit. by rewrite Ha.
  - intros Hna Hu. unfold can_edit. by rewrite Hna, Hu.
  - intros team Hna Hteam Hu.
    rewrite (can_edit_text ss r team Hteam), Hna. simpl.
    apply PyStrFacts.truthy_true in Hu. rewrite Hu. simpl.
    apply PyStrFacts.mem_In.
Qed.

Lemma can_edit_authorization_witness :
  can_edit (Sample.session "root" "admin") (Sample.bridge None) = true
  ∧ can_edit (Sample.session "" "viewer") (Sample.bridge (Some "alice, ,bob")) = false
  ∧ (can_edit (Sample.session "Bob" "viewer") (Sample.bridge (Some "Alice, BOB ")) = true
     ↔ In (PyStr.lower (current_user (Sample.session "Bob" "viewer")))
          (spec_team_tokens "Alice, BOB ")).
Proof.
  split; [|split].
  - apply (proj1 (can_edit_authorization (Sample.session "root" "admin") (Sample.bridge None))).
    vm_compute. reflexivity.
  - apply (proj1 (proj2 (can_edit_authorization (Sample.session "" "viewer")
                           (Sample.bridge (Some "alice, ,bob"))))).
    + vm_compute. reflexivity.
    + vm_compute. reflexivity.
  - apply (proj2 (proj2 (can_edit_authorization (Sample.session "Bob" "viewer")
                           (Sample.bridge (Some "Alice, BOB "))))).
    + vm_compute. reflexivity.
    + reflexivity.
    + vm_compute. discriminate.
Defined.

(** C1 as stated fails for a blank username: the empty name is among
    the trimmed tokens of "alice, ,bob", yet the check denies it. *)
Lemma can_edit_blank_user_counterexample :
  is_admin (Sample.session "" "viewer") = false
  ∧ ¬ (can_edit (Sample.session "" "viewer") (Sample.bridge (Some "alice, ,bob")) = true
       ↔ In (PyStr.lower (current_user (Sample.session "" "viewer")))
            (spec_team_tokens "alice, ,bob")).
Proof.
  split; [vm_compute; reflexivity|].
  intros [_ H].
  assert (Hin : In (PyStr.lower (current_user (Sample.session "" "viewer")))
                   (spec_team_tokens "alice, ,bob")).
  { vm_compute. right. left. reflexivity. }
  specialize (H Hin). vm_compute in H. discriminate.
Qed.

(** A missing team cell reads as the text "nan": a non-admin of that
    name passes the check. *)
Example can_edit_missing_team :
  can_edit (Sample.session "nan" "viewer") (Sample.bridge None) = true.
Proof. vm_compute. reflexivity. Qed.

(** C10.  A non-admin whose username is empty is authorized on no
    record: the members tested are the tokens of the team text without
    the blank ones, so the empty name is not among them, and the empty
    username is refused before the membership test. *)
Theorem blank_user_never_authorized (ss : gmap string string) (r : record)
    (Hna : is_admin ss = false) (Huser : current_user ss = "") :
  can_edit ss r = false
  ∧ team_members (row_team_of r)
    = List.filter PyStr.truthy (spec_team_tokens (row_team_of r))
  ∧ ¬ In "" (team_members (row_team_of r))
  ∧ (∀ t, In t (PyStr.split PyStr.comma (row_team_of r)) →
       PyStr.strip t = "" → ¬ In t (List.filter (fun u => PyStr.truthy (PyStr.strip u))
                                     (PyStr.split PyStr.comma (row_team_of r)))).
Proof.
  split; [|split; [|split]].
  - unfold can_edit. by rewrite Hna, Huser.
  - apply team_members_spec.
  - apply team_members_no_blank.
  - intros t _ Hblank [_ Hkeep]%filter_In. rewrite Hblank in Hkeep. discriminate.
Qed.

Lemma blank_user_never_authorized_witness :
  can_edit (Sample.session "" "viewer") (Sample.bridge (Some "alice, ,bob")) = false.
Proof.
  refine (proj1 (blank_user_never_authorized (Sample.session "" "viewer")
                   (Sample.bridge (Some "alice, ,bob")) _ _)).
  - vm_compute. reflexivity.
  - vm_compute. reflexivity.
Defined.

(** ** Filters *)

Module ReFacts.
Import PyStr.

Lemma is_special_lower_char c : Re.is_special (lower_char c) = Re.is_special c.
Proof. PyStrFacts.by_cases_on c. Qed.

Lemma eqb_dot_lower_char c : Ascii.eqb (lower_char c) "."%char = Ascii.eqb c "."%char.
Proof. PyStrFacts.by_cases_on c. Qed.

Lemma dot_special c : Ascii.eqb c "."%char = true → Re.is_special c = true.
Proof. intros ->%Ascii.eqb_eq. reflexivity. Qed.

Lemma literal_lower q : Re.literal (lower q) = Re.literal q.
Proof.
  unfold Re.literal. induction q as [|c q IH]; simpl; [reflexivity|].
  by rewrite is_special_lower_char, IH.
Qed.

(** A pattern without special characters is made of its own
    characters. *)
Lemma plain_literal p :
  Re.literal p = true → Re.plain p = Some (map Re.Lit (list_ascii_of_string p)).
Proof.
  unfold Re.literal. induction p as [|c p IH]; simpl; [reflexivity|].
  intros [Hc Hp]%andb_true_iff. apply negb_true_iff in Hc.
  destruct (Ascii.eqb c ".") eqn:Hdot.
  - apply dot_special in Hdot. congruence.
  - rewrite Hc, (IH Hp). reflexivity.
Qed.

(** It compiles whatever the engine, which is not asked. *)
Lemma compile_literal engine p :
  Re.literal p = true →
  Re.compile engine p = Re.Searches (Re.search (map Re.Lit (list_ascii_of_string p))).
Proof. intros Hp. unfold Re.compile. by rewrite (plain_literal p Hp). Qed.

(** A pattern that starts with a repetition mark is refused whatever
    the engine. *)
Lemma compile_repeats_nothing engine p :
  Re.repeats_nothing p = true →
  Re.compile engine p = Re.Refused "re.error" Re.NOTHING_TO_REPEAT.
Proof.
  intros Hp. unfold Re.compile. destruct p as [|c p]; [discriminate|].
  simpl in Hp. simpl Re.plain.
  assert (Hdot : Ascii.eqb c "." = false).
  { destruct (Ascii.eqb_spec c "."%char) as [->|]; [discriminate|reflexivity]. }
  assert (Hsp : Re.is_special c = true).
  { apply orb_true_iff in Hp as [Hp|Hp]; [apply orb_true_iff in Hp as [Hp|Hp]|];
      apply Ascii.eqb_eq in Hp as ->; reflexivity. }
  rewrite Hdot, Hsp. simpl. by rewrite Hp.
Qed.

Lemma prefix_cons a q b s :
  String.prefix (String a q) (String b s) = Ascii.eqb a b && String.prefix q s.
Proof.
  simpl. destruct (ascii_dec a b) as [->|Hne].
  - by rewrite Ascii.eqb_refl.
  - apply Ascii.eqb_neq in Hne. by rewrite Hne.
Qed.

Lemma match_here_literal q s :
  Re.match_here (map Re.Lit (list_ascii_of_string q)) s = String.prefix q s.
Proof.
  revert s. induction q as [|a q IH]; intros s; [by destruct s|].
  destruct s as [|b s]; [reflexivity|].
  rewrite prefix_cons. simpl Re.match_here. by rewrite IH.
Qed.

(** Searching for it is the plain substring test. *)
Lemma search_literal q s :
  Re.search (map Re.Lit (list_ascii_of_string q)) s = contains q s.
Proof.
  induction s as [|b s IH].
  - simpl Re.search. by rewrite match_here_literal.
  - simpl Re.search. rewrite match_here_literal, IH. reflexivity.
Qed.

Lemma prefix_app q s : String.prefix q s = true ↔ ∃ post, s = q +:+ post.
Proof.
  revert s. induction q as [|a q IH]; intros s.
  - split; [intros _; by exists s|intros _; by destruct s].
  - destruct s as [|b s].
    + simpl. split; [discriminate|]. intros [post H]. discriminate.
    + rewrite prefix_cons, andb_true_iff, Ascii.eqb_eq, IH. split.
      * intros [-> [post ->]]. by exists post.
      * intros [post H]. simpl in H. injection H as -> ->. split; [done|by exists post].
Qed.

Lemma contains_nil q : contains q "" = String.prefix q "".
Proof. unfold contains. apply orb_false_r. Qed.

Lemma contains_cons q b s :
  contains q (String b s) = String.prefix q (String b s) || contains q s.
Proof. reflexivity. Qed.

Lemma contains_app q s :
  contains q s = true ↔ ∃ pre post, s = pre +:+ q +:+ post.
Proof.
  induction s as [|b s IH].
  - rewrite contains_nil, prefix_app. split.
    + intros [post H]. by exists "", post.
    + intros (pre & post & H). destruct pre; [by exists post|discriminate].
  - rewrite contains_cons, orb_true_iff, IH, prefix_app. split.
    + intros [[post H]|(pre & post & H)].
      * by exists "", post.
      * exists (String b pre), post. simpl. by rewrite H.
    + intros (pre & post & H). destruct pre as [|c pre].
      * left. by exists post.
      * right. simpl in H. injection H as -> ->. by exists pre, post.
Qed.

Lemma lower_split_app s a b :
  lower s = a +:+ b → ∃ a' b', s = a' +:+ b' ∧ lower a' = a ∧ lower b' = b.
Proof.
  revert s. induction a as [|c a IH]; intros s H.
  - by exists "", s.
  - destruct s as [|d s]; [discriminate|].
    simpl in H. injection H as Hc Hs.
    destruct (IH _ Hs) as (a' & b' & -> & <- & <-).
    exists (String d a'), b'. simpl. by rewrite Hc.
Qed.

(** Lower-casing both sides and testing for a substring is the
    case-insensitive substring match. *)
Lemma ci_substring_contains q field :
  spec_ci_substring q field ↔ contains (lower q) (lower field) = true.
Proof.
  rewrite contains_app. unfold spec_ci_substring. split.
  - intros (pre & mid & post & -> & Hmid).
    exists (lower pre), (lower post).
    by rewrite !PyStrFacts.lower_app, Hmid.
  - intros (pre & post & H).
    apply lower_split_app in H as (pre' & rest & -> & <- & H).
    apply lower_split_app in H as (mid & post' & -> & Hmid & <-).
    by exists pre', mid, post'.
Qed.

End ReFacts.

Section FilterFacts.

Import PyStr.



Lemma select_all (df : DataFrame) : select (fun _ => true) df = df.
Proof. unfold select. induction df as [|p df IH]; simpl; by rewrite ?IH. Qed.


Lemma elem_of_select (m : record → bool) (df : DataFrame) (p : nat * record) :
  p ∈ select m df ↔ p ∈ df ∧ m p.2 = true.
Proof. unfold select. rewrite !list_elem_of_In. apply filter_In. Qed.



(** The mask of a query without special characters: the plain
    substring test on the lower-cased texts. *)
Lemma query_mask_contains q r :
  query_mask (Re.search (map Re.Lit (list_ascii_of_string (lower q)))) r
  = contains (lower q) (lower (Cell.fillna (ProjectCode r)))
    || contains (lower q) (lower (Cell.fillna (ProjectName r)))
    || contains (lower q) (lower (Cell.fillna (Location r))).
Proof.
  unfold query_mask, field_contains. by rewrite !ReFacts.search_literal.
Qed.

Lemma query_mask_literal q r :
  query_mask (Re.search (map Re.Lit (list_ascii_of_string (lower q)))) r = true
  ↔ spec_ci_substring q (Cell.fillna (ProjectCode r))
    ∨ spec_ci_substring q (Cell.fillna (ProjectName r))
    ∨ spec_ci_substring q (Cell.fillna (Location r)).
Proof.
  rewrite query_mask_contains.
  rewrite !orb_true_iff, !ReFacts.ci_substring_contains.
  tauto.
Qed.

Variable engine : string → Re.compiled.

Lemma query_filter_select q df :
  query_filter engine q df
  = match query_pred engine q with
    | Ok qp => Ok (select qp df)
    | Raise e => Raise e
    end.
Proof.
  unfold query_filter, query_pred. destruct (truthy q); simpl.
  - by destruct (Re.compile engine (lower q)).
  - by rewrite select_all.
Qed.


Lemma query_pred_literal q :
  q ≠ "" → Re.literal q = true →
  query_pred engine q
  = Ok (query_mask (Re.search (map Re.Lit (list_ascii_of_string (lower q))))).
Proof.
  intros Hq Hlit. unfold query_pred.
  apply PyStrFacts.truthy_true in Hq. rewrite Hq.
  rewrite (ReFacts.compile_literal engine (lower q)); [reflexivity|].
  by rewrite ReFacts.literal_lower.
Qed.

End FilterFacts.

(** C6 (as amended).  An empty query leaves the frame as it is.  A
    non-empty query without regular-expression special characters,
    one made of blanks included, keeps exactly the rows in one of
    whose ProjectCode, ProjectName or Location, a missing value
    counting as the empty text, the lower-cased query occurs; for the
    texts followed here, those of Latin-1, that is to say the rows one
    of whose three fields contains the query as a substring up to
    case. *)
Theorem query_filter_rule (engine : string → Re.compiled) (code_query : string)
    (df : DataFrame) :
  (code_query = "" → query_filter engine code_query df = Ok df)
  ∧ (code_query ≠ "" → Re.literal code_query = true →
       ∃ mask, query_filter engine code_query df = Ok (select mask df)
         ∧ (∀ r, mask r
                 = PyStr.contains (PyStr.lower code_query)
                     (PyStr.lower (Cell.fillna (ProjectCode r)))
                   || PyStr.contains (PyStr.lower code_query)
                        (PyStr.lower (Cell.fillna (ProjectName r)))
                   || PyStr.contains (PyStr.lower code_query)
                        (PyStr.lower (Cell.fillna (Location r))))
         ∧ ∀ r, mask r = true
                ↔ spec_ci_substring code_query (Cell.fillna (ProjectCode r))
                  ∨ spec_ci_substring code_query (Cell.fillna (ProjectName r))
                  ∨ spec_ci_substring code_query (Cell.fillna (Location r))).
Proof.
  split.
  - intros ->. reflexivity.
  - intros Hq Hlit.
    exists (query_mask (Re.search (map Re.Lit (list_ascii_of_string (PyStr.lower code_query))))).
    split; [|split; [intros r; apply query_mask_contains
                    |intros r; apply query_mask_literal]].
    rewrite query_filter_select. by rewrite (query_pred_literal engine code_query Hq Hlit).
Qed.

Lemma query_filter_rule_witness :
  query_filter Sample.engine "" (range_index [Sample.bridge None])
  = Ok (range_index [Sample.bridge None])
  ∧ ∃ mask, query_filter Sample.engine "bRi" (range_index [Sample.bridge None])
            = Ok (select mask (range_index [Sample.bridge None]))
      ∧ (∀ r, mask r
              = PyStr.contains (PyStr.lower "bRi") (PyStr.lower (Cell.fillna (ProjectCode r)))
                || PyStr.contains (PyStr.lower "bRi")
                     (PyStr.lower (Cell.fillna (ProjectName r)))
                || PyStr.contains (PyStr.lower "bRi")
                     (PyStr.lower (Cell.fillna (Location r))))
      ∧ ∀ r, mask r = true
             ↔ spec_ci_substring "bRi" (Cell.fillna (ProjectCode r))
               ∨ spec_ci_substring "bRi" (Cell.fillna (ProjectName r))
               ∨ spec_ci_substring "bRi" (Cell.fillna (Location r)).
Proof.
  split.
  - apply (proj1 (query_filter_rule Sample.engine "" (range_index [Sample.bridge None]))).
    reflexivity.
  - apply (proj2 (query_filter_rule Sample.engine "bRi" (range_index [Sample.bridge None]))).
    + discriminate.
    + vm_compute. reflexivity.
Defined.

(** C6 as stated fails twice on the one-row frame of the sample
    project: the query of one blank is applied, and drops the row; the
    query of one dot is read as a pattern, and keeps the row although
    no field contains a dot. *)
Lemma query_filter_counterexample :
  query_filter Sample.engine " " (range_index [Sample.bridge None]) = Ok []
  ∧ query_filter Sample.engine "." (range_index [Sample.bridge None])
    = Ok (range_index [Sample.bridge None])
  ∧ ¬ (spec_ci_substring "." (Cell.fillna (ProjectCode (Sample.bridge None)))
       ∨ spec_ci_substring "." (Cell.fillna (ProjectName (Sample.bridge None)))
       ∨ spec_ci_substring "." (Cell.fillna (Location (Sample.bridge None)))).
Proof.
  split; [vm_compute; reflexivity|].
  split; [vm_compute; reflexivity|].
  rewrite !ReFacts.ci_substring_contains. vm_compute.
  intros [H|[H|H]]; discriminate.
Qed.




(** Year 2024 and location NYC with no query keep rows 0 and 3 in
    that order; the query "aa" matches "AA-1" and "Canaan". *)
Example filter_five :
  Ics.and_then (filtered Sample.engine (YearIs 2024) "NYC" "" Sample.five)
    (fun out => Ok (labels out)) = Ok [0; 3]
  ∧ Ics.and_then (filtered Sample.engine YearAll "All" "aa" Sample.five)
      (fun out => Ok (labels out)) = Ok [0; 4].
Proof. split; vm_compute; reflexivity. Qed.

(** ** Delete *)

Section DeleteFacts.

Lemma labels_range_index rs : labels (range_index rs) = seq 0 (length rs).
Proof.
  unfold labels, range_index.
  generalize 0. induction rs as [|r rs IH]; intros k; simpl; [reflexivity|].
  by rewrite IH.
Qed.

Lemma rows_range_index rs : rows (range_index rs) = rs.
Proof.
  unfold rows, range_index.
  generalize 0. induction rs as [|r rs IH]; intros k; simpl; [reflexivity|].
  by rewrite IH.
Qed.

Lemma length_range_index rs : length (range_index rs) = length rs.
Proof. unfold range_index. rewrite length_combine, length_seq. lia. Qed.

Lemma keep_later_labels (i k : nat) (rs : list record) :
  (i < k)%nat → List.filter (other_label i) (combine (seq k (length rs)) rs)
          = combine (seq k (length rs)) rs.
Proof.
  revert k. induction rs as [|r rs IH]; intros k Hik; simpl; [reflexivity|].
  unfold other_label at 1. simpl.
  destruct (Nat.eqb_spec k i) as [->|_]; [lia|]. simpl.
  by rewrite IH by lia.
Qed.

Lemma rows_combine_seq (k : nat) (rs : list record) : rows (combine (seq k (length rs)) rs) = rs.
Proof.
  unfold rows. revert k. induction rs as [|r rs IH]; intros k; simpl; [reflexivity|].
  by rewrite IH.
Qed.

Lemma rows_drop_label (i k : nat) (rs : list record) :
  (k ≤ i)%nat →
  rows (List.filter (other_label i) (combine (seq k (length rs)) rs))
  = (take (i - k) rs ++ drop (S (i - k)) rs)%list.
Proof.
  revert k. induction rs as [|r rs IH]; intros k Hki.
  - simpl. by rewrite take_nil.
  - simpl. unfold other_label at 1. simpl.
    destruct (Nat.eqb_spec k i) as [->|Hne]; simpl.
    + rewrite keep_later_labels by lia. rewrite rows_combine_seq.
      by rewrite Nat.sub_diag.
    + fold (rows (List.filter (other_label i) (combine (seq (S k) (length rs)) rs))).
      rewrite IH by lia.
      replace (i - k) with (S (i - S k)) by lia. reflexivity.
Qed.

Lemma has_label (i : nat) (rs : list record) :
  (i < length rs)%nat → existsb (Nat.eqb i) (labels (range_index rs)) = true.
Proof.
  intros Hi. rewrite labels_range_index. apply existsb_exists.
  exists i. split; [apply in_seq; lia|apply Nat.eqb_refl].
Qed.

Lemma do_delete_range (rs : list record) (i : nat) :
  (i < length rs)%nat →
  do_delete i (range_index rs) = Some (range_index (take i rs ++ drop (S i) rs)%list).
Proof.
  intros Hi. unfold do_delete, drop_index. rewrite (has_label _ _ Hi). simpl.
  unfold reset_index. do 2 f_equal.
  unfold range_index at 1.
  rewrite rows_drop_label by lia. by rewrite Nat.sub_0_r.
Qed.

End DeleteFacts.

(** C5.  Deleting the row at a valid position [i] of a frame of N rows
    indexed 0..N-1 gives the N-1 other rows in their order, indexed
    0..N-2; deleting position 1 of the three rows A, B, C gives A under
    0 and C under 1. *)
Theorem delete_repacks (rs : list record) (i : nat) (Hi : (i < length rs)%nat) :
  (∃ df', do_delete i (range_index rs) = Some df'
     ∧ rows df' = (take i rs ++ drop (S i) rs)%list
     ∧ labels df' = seq 0 (length rs - 1)
     ∧ length df' = length rs - 1)
  ∧ ∀ A B C, do_delete 1 (range_index [A; B; C]) = Some [(0, A); (1, C)].
Proof.
  split; [|reflexivity].
  exists (range_index (take i rs ++ drop (S i) rs)%list).
  assert (Hlen : length (take i rs ++ drop (S i) rs)%list = (length rs - 1)%nat).
  { rewrite length_app, length_take, length_drop. lia. }
  split; [by apply do_delete_range|].
  rewrite rows_range_index, labels_range_index, length_range_index, Hlen.
  done.
Qed.

Lemma delete_repacks_witness :
  ∃ df', do_delete 1 (range_index [Sample.bridge (Some "A"); Sample.bridge (Some "B");
                                   Sample.bridge (Some "C")]) = Some df'
    ∧ rows df' = [Sample.bridge (Some "A"); Sample.bridge (Some "C")]
    ∧ labels df' = [0; 1]
    ∧ length df' = 2.
Proof.
  refine (proj1 (delete_repacks [Sample.bridge (Some "A"); Sample.bridge (Some "B");
                                 Sample.bridge (Some "C")] 1 _)).
  simpl. lia.
Defined.

(** ** GitHub commit *)

Create HintDb inert.

Section SyncFacts.

Local Open Scope eff_scope.

Variable secrets : option (gmap string string).
Variable outage : net_call → bool.

Lemma inert_intro {A} (m : M A) :
  (∀ w, ∃ a, m w = (Ok a, mkWorld (disk w) (remote w) (net_log w) (shown w))) → inert m.
Proof.
  intros H w. destruct (H w) as [a ->]. eexists _, _.
  split; [reflexivity|]. split; [reflexivity|]. split; [reflexivity|].
  intros e He. discriminate.
Qed.

Lemma inert_ret {A} (a : A) : inert (ret a).
Proof.
  intros w. exists (Ok a), w.
  split; [reflexivity|]. split; [reflexivity|]. split; [reflexivity|].
  intros e He. discriminate.
Qed.

Lemma inert_error {A} kind what : inert (@raise A (Error kind what)).
Proof.
  intros w. exists (Raise (Error kind what)), w.
  split; [reflexivity|]. split; [reflexivity|]. split; [reflexivity|].
  intros e [= <-]. by eexists _, _.
Qed.

Lemma inert_bind {A B} (m : M A) (k : A → M B) :
  inert m → (∀ a, inert (k a)) → inert (bind m k).
Proof.
  intros Hm Hk w. unfold bind.
  destruct (Hm w) as (r & w1 & -> & Hd1 & Hs1 & He1).
  destruct r as [a|e].
  - destruct (Hk a w1) as (r2 & w2 & -> & Hd2 & Hs2 & He2).
    exists r2, w2.
    split; [reflexivity|]. split; [congruence|]. split; [congruence|]. exact He2.
  - exists (Raise e), w1.
    split; [reflexivity|]. split; [exact Hd1|]. split; [exact Hs1|].
    intros e' [= <-]. by apply He1.
Qed.

Lemma inert_try_except {A} (body : M A) (handler : exn → M A) :
  inert body → (∀ e, inert (handler e)) → inert (try_except body handler).
Proof.
  intros Hb Hh w. unfold try_except.
  destruct (Hb w) as (r & w1 & -> & Hd1 & Hs1 & He1).
  destruct r as [a|e].
  - exists (Ok a), w1.
    split; [reflexivity|]. split; [exact Hd1|]. split; [exact Hs1|].
    intros e He. discriminate.
  - destruct (He1 e eq_refl) as (kind & what & ->).
    destruct (Hh (Error kind what) w1) as (r2 & w2 & -> & Hd2 & Hs2 & He2).
    exists r2, w2.
    split; [reflexivity|]. split; [congruence|]. split; [congruence|]. exact He2.
Qed.

Lemma inert_log_call c : inert (log_call c).
Proof.
  intros w. eexists _, _.
  split; [reflexivity|]. split; [reflexivity|]. split; [reflexivity|].
  intros e He. discriminate.
Qed.

Lemma inert_set_remote branch wb : inert (set_remote branch wb).
Proof.
  intros w. eexists _, _.
  split; [reflexivity|]. split; [reflexivity|]. split; [reflexivity|].
  intros e He. discriminate.
Qed.

Lemma inert_get_world : inert get_world.
Proof.
  intros w. eexists _, _.
  split; [reflexivity|]. split; [reflexivity|]. split; [reflexivity|].
  intros e He. discriminate.
Qed.

#[local] Hint Resolve inert_ret inert_error inert_log_call inert_set_remote inert_get_world : inert.

Lemma inert_secret_in key : inert (secret_in secrets key).
Proof. unfold secret_in, no_secrets. destruct secrets; auto with inert. Qed.

Lemma inert_secret key : inert (secret secrets key).
Proof.
  unfold secret, no_secrets. destruct secrets as [s|]; [|auto with inert].
  destruct (s !! key); auto with inert.
Qed.

Lemma inert_secret_get key fallback : inert (secret_get secrets key fallback).
Proof. unfold secret_get, no_secrets. destruct secrets; auto with inert. Qed.

Lemma inert_can_commit : inert (can_commit_to_github secrets).
Proof.
  unfold can_commit_to_github. apply inert_bind; [apply inert_secret_in|].
  intros [|]; [apply inert_secret_in|auto with inert].
Qed.

Lemma inert_api c : inert (api outage c).
Proof.
  unfold api, github_error. apply inert_bind; [auto with inert|]. intros _.
  destruct (outage c); auto with inert.
Qed.

Lemma inert_get_contents path branch : inert (get_contents outage path branch).
Proof.
  unfold get_contents, github_error. apply inert_bind; [apply inert_api|]. intros _.
  apply inert_bind; [auto with inert|]. intros w.
  destruct (remote w !! branch); auto with inert.
Qed.

Lemma inert_update_file path message content branch :
  inert (update_file outage path message content branch).
Proof.
  unfold update_file. apply inert_bind; [apply inert_api|]. intros _. auto with inert.
Qed.

Lemma inert_create_file path message content branch :
  inert (create_file outage path message content branch).
Proof.
  unfold create_file, github_error. apply inert_bind; [apply inert_api|]. intros _.
  apply inert_bind; [auto with inert|]. intros w.
  destruct (remote w !! branch); auto with inert.
Qed.

Lemma inert_read_excel_file : inert read_excel_file.
Proof.
  unfold read_excel_file. apply inert_bind; [auto with inert|]. intros w.
  destruct (disk w); auto with inert.
Qed.

Lemma notifies_show (P : notice → Prop) n : P n → notifies P (show n).
Proof.
  intros Hn w. eexists (Ok tt), _.
  split; [reflexivity|]. split; [reflexivity|]. by exists n.
Qed.

Lemma notifies_bind {A} (P : notice → Prop) (m : M A) (k : A → M unit) :
  inert m → (∀ a, notifies P (k a)) → notifies P (bind m k).
Proof.
  intros Hm Hk w. unfold bind.
  destruct (Hm w) as (r & w1 & -> & Hd1 & Hs1 & He1).
  destruct r as [a|e].
  - destruct (Hk a w1) as (r2 & w2 & -> & Hd2 & Hr2).
    exists r2, w2. split; [reflexivity|]. split; [congruence|].
    rewrite <- Hs1. exact Hr2.
  - exists (Raise e), w1. split; [reflexivity|]. split; [exact Hd1|].
    split; [exact Hs1|]. by apply He1.
Qed.

(** The [try] block of the commit. *)
Lemma notifies_commit_body message :
  notifies (fun n => n = InfoGithubSkipped ∨ n = SuccessGithubPushed)
    (do configured <- can_commit_to_github secrets;
     if negb configured then show InfoGithubSkipped
     else
       do token <- secret secrets "GITHUB_TOKEN";
       do repo_name <- secret secrets "GITHUB_REPO";
       do branch <- secret_get secrets "GITHUB_BRANCH" "main";
       get_repo outage token repo_name ;;
       do content_bytes <- read_excel_file;
       try_except
         (do remote_path <- get_contents outage EXCEL_FILE branch;
          update_file outage remote_path message content_bytes branch)
         (fun _ => create_file outage EXCEL_FILE "Create projects.xlsx"
                     content_bytes branch) ;;
       show SuccessGithubPushed).
Proof.
  apply notifies_bind; [apply inert_can_commit|]. intros [|]; simpl.
  - apply notifies_bind; [apply inert_secret|]. intros token.
    apply notifies_bind; [apply inert_secret|]. intros repo_name.
    apply notifies_bind; [apply inert_secret_get|]. intros branch.
    apply notifies_bind; [apply inert_api|]. intros _.
    apply notifies_bind; [apply inert_read_excel_file|]. intros content.
    apply notifies_bind; [|intros _; apply notifies_show; by right].
    apply inert_try_except; [|intros _; apply inert_create_file].
    apply inert_bind; [apply inert_get_contents|]. intros p.
    apply inert_update_file.
  - apply notifies_show. by left.
Qed.

Lemma try_except_notifies (P : notice → Prop) (body : M unit) w :
  notifies P body →
  ∃ w' n, try_except body (fun e => show (ErrorGithubFailed e)) w = (Ok tt, w')
    ∧ disk w' = disk w ∧ shown w' = (shown w ++ [n])%list
    ∧ (P n ∨ ∃ e, n = ErrorGithubFailed e).
Proof.
  intros Hbody. unfold try_except.
  destruct (Hbody w) as (r & w1 & -> & Hd1 & Hr).
  destruct r as [[]|e].
  - destruct Hr as (n & Hs & Hn). exists w1, n.
    split; [reflexivity|]. split; [exact Hd1|]. split; [exact Hs|]. by left.
  - destruct Hr as (Hs & kind & what & ->).
    eexists _, (ErrorGithubFailed (Error kind what)). unfold show. simpl.
    split; [reflexivity|]. split; [exact Hd1|]. split; [by rewrite Hs|].
    right. by eexists.
Qed.

(** The commit always returns, leaves the file alone and shows one
    notice. *)
Lemma commit_returns message w :
  ∃ w' n, commit_excel_to_github secrets outage message w = (Ok tt, w')
    ∧ disk w' = disk w ∧ shown w' = (shown w ++ [n])%list ∧ commit_notice n.
Proof.
  unfold commit_excel_to_github.
  destruct (try_except_notifies _ _ w (notifies_commit_body message))
    as (w' & n & Heq & Hd & Hs & Hn).
  exists w', n. split; [exact Heq|]. split; [exact Hd|]. split; [exact Hs|].
  unfold commit_notice. tauto.
Qed.

(** Without the configuration the commit reaches no API call. *)
Lemma can_commit_unconfigured s w :
  secrets = Some s → unconfigured secrets →
  can_commit_to_github secrets w = (Ok false, w).
Proof.
  intros -> Hun. unfold can_commit_to_github, bind, secret_in, ret.
  destruct (bool_decide (is_Some (s !! "GITHUB_TOKEN"))) eqn:Ht; [|reflexivity].
  apply bool_decide_eq_true in Ht. destruct Ht as [t Ht].
  destruct Hun as [Hun|Hun]; [congruence|].
  rewrite Hun. rewrite bool_decide_eq_false_2; [reflexivity|].
  intros [? ?]. discriminate.
Qed.

Lemma commit_unconfigured message w :
  unconfigured secrets →
  ∃ n, commit_excel_to_github secrets outage message w
       = (Ok tt, mkWorld (disk w) (remote w) (net_log w) (shown w ++ [n]))
    ∧ (is_Some secrets → n = InfoGithubSkipped).
Proof.
  intros Hun. unfold commit_excel_to_github, try_except, bind at 1.
  destruct secrets as [s|] eqn:Hs.
  - rewrite <- Hs in Hun |- *.
    rewrite (can_commit_unconfigured s w Hs Hun). simpl.
    by exists InfoGithubSkipped.
  - eexists. split; [reflexivity|]. intros [? ?]. discriminate.
Qed.

End SyncFacts.

(** ** What the commit does to the repository *)

Section PushFacts.

Variable outage : net_call → bool.
Variable s : gmap string string.
Variable message : string.
Variable w : world.

Ltac run :=
  unfold commit_excel_to_github, try_except, can_commit_to_github, secret_in,
    secret, secret_get, get_repo, get_contents, update_file, create_file,
    read_excel_file, api, github_error, log_call, get_world, set_remote, show,
    bind, ret, raise; simpl.

Lemma commit_steps token repo_name :
  s !! "GITHUB_TOKEN" = Some token → s !! "GITHUB_REPO" = Some repo_name →
  commit_excel_to_github (Some s) outage message w
  = let log1 := (net_log w ++ [GetRepo token repo_name])%list in
    let failed e n := (Ok tt, mkWorld (disk w) (remote w) n
                                (shown w ++ [ErrorGithubFailed e])) in
    if outage (GetRepo token repo_name)
    then failed (Error "GithubException" "request failed") log1
    else
      match disk w with
      | None => failed (Error "FileNotFoundError" EXCEL_FILE) log1
      | Some wb =>
          let log2 := (log1 ++ [GetContents EXCEL_FILE (target_branch s)])%list in
          let pushed n := (Ok tt, mkWorld (disk w) (<[(target_branch s) := wb]> (remote w)) n
                                    (shown w ++ [SuccessGithubPushed])) in
          let create := CreateFile EXCEL_FILE "Create projects.xlsx" wb (target_branch s) in
          let try_create n :=
            if outage create
            then failed (Error "GithubException" "request failed") (n ++ [create])%list
            else match remote w !! (target_branch s) with
                 | Some _ => failed (Error "GithubException" "422 file already exists")
                               (n ++ [create])%list
                 | None => pushed (n ++ [create])%list
                 end in
          if outage (GetContents EXCEL_FILE (target_branch s)) then try_create log2
          else match remote w !! (target_branch s) with
               | None => try_create log2
               | Some _ =>
                   let update := UpdateFile EXCEL_FILE message wb (target_branch s) in
                   if outage update then try_create (log2 ++ [update])%list
                   else pushed (log2 ++ [update])%list
               end
      end.
Proof.
  intros Ht Hr. run. rewrite Ht, Hr. simpl.
  fold (target_branch s).
  destruct (outage (GetRepo token repo_name)); simpl; [reflexivity|].
  destruct (disk w) as [wb|]; simpl; [|reflexivity].
  destruct (outage (GetContents EXCEL_FILE (target_branch s))); simpl.
  - destruct (outage (CreateFile _ _ _ _)); simpl; [reflexivity|].
    destruct (remote w !! (target_branch s)); reflexivity.
  - destruct (remote w !! (target_branch s)) eqn:Hrem; simpl.
    + destruct (outage (UpdateFile _ _ _ _)); simpl; [|reflexivity].
      destruct (outage (CreateFile _ _ _ _)); simpl; [reflexivity|].
      by rewrite Hrem.
    + destruct (outage (CreateFile _ _ _ _)); simpl; [reflexivity|].
      by rewrite Hrem.
Qed.

End PushFacts.

(** What a commit does in every case: it returns, leaves the file
    alone, shows one notice, and every file it sends is the file on
    disk; the repository changes exactly with the success notice, by
    one branch receiving that file. *)
Lemma commit_effect (secrets : option (gmap string string)) (outage : net_call → bool)
    (message : string) (w : world) :
  ∃ rem calls n,
    commit_excel_to_github secrets outage message w
    = (Ok tt, mkWorld (disk w) rem (net_log w ++ calls) (shown w ++ [n]))
    ∧ commit_notice n
    ∧ (∀ c content, c ∈ calls → carried c = Some content → disk w = Some content)
    ∧ (n = SuccessGithubPushed →
       ∃ branch wb, disk w = Some wb ∧ rem = <[branch := wb]> (remote w))
    ∧ (n ≠ SuccessGithubPushed → rem = remote w).
Proof.
  assert (Hskip : unconfigured secrets →
    ∃ rem calls n,
      commit_excel_to_github secrets outage message w
      = (Ok tt, mkWorld (disk w) rem (net_log w ++ calls) (shown w ++ [n]))
      ∧ commit_notice n
      ∧ (∀ c content, c ∈ calls → carried c = Some content → disk w = Some content)
      ∧ (n = SuccessGithubPushed →
         ∃ branch wb, disk w = Some wb ∧ rem = <[branch := wb]> (remote w))
      ∧ (n ≠ SuccessGithubPushed → rem = remote w)).
  { intros Hun.
    destruct (commit_unconfigured secrets outage message w Hun) as (n & Heq & Hn).
    exists (remote w), [], n. rewrite app_nil_r.
    split; [exact Heq|].
    assert (Hnotice : commit_notice n ∧ n ≠ SuccessGithubPushed).
    { destruct secrets as [s|].
      - rewrite (Hn ltac:(by eexists)). split; [by left|discriminate].
      - unfold commit_excel_to_github, try_except, can_commit_to_github, secret_in,
          no_secrets, bind, raise, show in Heq. simpl in Heq.
        injection Heq as Heq. apply app_inv_head in Heq. injection Heq as <-.
        split; [right; right; by eexists|discriminate]. }
    destruct Hnotice as [Hc Hne].
    split; [exact Hc|].
    split; [intros c content Hin; by apply not_elem_of_nil in Hin|].
    split; [intros ->; done|done]. }
  destruct secrets as [s|]; [|by apply Hskip].
  destruct (s !! "GITHUB_TOKEN") as [token|] eqn:Ht; [|apply Hskip; by left].
  destruct (s !! "GITHUB_REPO") as [repo_name|] eqn:Hr; [|apply Hskip; by right].
  clear Hskip.
  rewrite (commit_steps outage s message w token repo_name Ht Hr). cbv beta zeta.
  repeat match goal with
         | |- context [if outage ?c then _ else _] => destruct (outage c)
         | |- context [match disk w with _ => _ end] => destruct (disk w) as [wb|]
         | |- context [match remote w !! ?b with _ => _ end] =>
             destruct (remote w !! b)
         end;
    eexists _, _, _; rewrite <- ?app_assoc; simpl;
    (split; [reflexivity|]);
    (split; [unfold commit_notice;
             first [by left | by right; left | by right; right; eexists]|]);
    (split; [intros c content Hc Hcar;
             repeat (apply elem_of_cons in Hc as [->|Hc]; [simpl in Hcar; congruence|]);
             by apply not_elem_of_nil in Hc|]);
    (split; [try discriminate; intros _; eexists _, _; done
            |try done; intros H; by destruct H]).
Qed.

Section PageFacts.

Local Open Scope eff_scope.

Variable after_refusal : option workbook → DataFrame → option workbook.
Variable secrets : option (gmap string string).
Variable outage : net_call → bool.
Variable ss : gmap string string.
Variable today : date.

Lemma save_data_ok df w w1 :
  save_data after_refusal df w = (Ok tt, w1) →
  ∃ wb, Excel.to_excel df SHEET_NAME = Ok wb
    ∧ w1 = mkWorld (Some wb) (remote w) (net_log w) (shown w).
Proof.
  unfold save_data, write_excel_file, set_disk. destruct (Excel.to_excel df SHEET_NAME) as [wb|e].
  - intros [= <-]. by exists wb.
  - discriminate.
Qed.

(** What every mutation handler does once its frame is ready: save,
    commit, announce, rerun. *)
Lemma persist_then_sync df message n w :
  persists_then_syncs after_refusal secrets outage
    (save_data after_refusal df ;; commit_excel_to_github secrets outage message ;;
     show n ;; @rerun DataFrame)
    df message n w.
Proof.
  unfold persists_then_syncs.
  destruct (Excel.to_excel df SHEET_NAME) as [wb|e] eqn:Hwb.
  - assert (Hsave : save_data after_refusal df w
              = (Ok tt, mkWorld (Some wb) (remote w) (net_log w) (shown w))).
    { unfold save_data, write_excel_file, set_disk. by rewrite Hwb. }
    destruct (commit_effect secrets outage message
                (mkWorld (Some wb) (remote w) (net_log w) (shown w)))
      as (rem & calls & sn & Hc & Hn & Hsent & Hpush & Hkeep).
    simpl in Hc, Hsent, Hpush, Hkeep.
    exists rem, calls, sn. split; [exact Hsave|]. split; [exact Hc|].
    split; [|split; [exact Hn|split; [|split; [|exact Hkeep]]]].
    + unfold bind at 1. rewrite Hsave. unfold bind at 1. rewrite Hc.
      unfold bind, show, rerun, raise. simpl. by rewrite <- app_assoc.
    + intros c content Hin Hcar. specialize (Hsent c content Hin Hcar). congruence.
    + intros Hs. destruct (Hpush Hs) as (branch & wb' & [= <-] & ->). by exists branch.
  - unfold bind at 1, save_data, write_excel_file. by rewrite Hwb.
Qed.

Lemma add_section_admin f df w :
  is_admin ss = true →
  persists_then_syncs after_refusal secrets outage
    (add_section after_refusal secrets outage ss (Some f) df)
    (concat_row df (new_row f)) "Add project" SuccessProjectAdded w.
Proof.
  intros Ha. unfold add_section. rewrite Ha. apply persist_then_sync.
Qed.

Lemma add_section_other submitted df w :
  is_admin ss = false →
  add_section after_refusal secrets outage ss submitted df w
  = (Ok df, mkWorld (disk w) (remote w) (net_log w) (shown w ++ [InfoAdminOnly])).
Proof. intros Hna. unfold add_section. rewrite Hna. reflexivity. Qed.

Lemma edit_form_opens r w :
  form_opens today r = true → edit_form today r w = (Ok tt, w).
Proof.
  unfold form_opens, edit_form. rewrite !andb_true_iff. intros [[Hy Hs] He].
  unfold bind, pure, ret. rewrite Hy.
  unfold Ics.to_datetime.
  destruct (ProjectStart r) as [s|]; [rewrite Hs|];
    (destruct (ProjectEnd r) as [e|]; [rewrite He|]); reflexivity.
Qed.

Lemma edit_form_year_refused r w :
  year_in_bounds (year_default today r) = false →
  edit_form today r w = (Raise (Error "StreamlitAPIException" "Year"), w).
Proof. intros Hy. unfold edit_form, bind. by rewrite Hy. Qed.

(** The edit section of an authorized user whose form opens runs
    the handler of the button pressed. *)
Lemma edit_section_open i r pressed df w :
  df ≠ [] → loc df i = Some r → can_edit ss r = true →
  form_opens today r = true →
  edit_section after_refusal secrets outage ss today i pressed df w
  = match pressed with
    | Some (DoUpdate f) =>
        (save_data after_refusal (set_row i (new_row f) df) ;;
         commit_excel_to_github secrets outage "Edit project" ;;
         show SuccessUpdated ;; rerun) w
    | Some DoDelete =>
        match do_delete i df with
        | None => key_error w
        | Some df' =>
            (save_data after_refusal df' ;;
             commit_excel_to_github secrets outage "Delete project" ;;
             show SuccessDeleted ;; rerun) w
        end
    | None => ret df w
    end.
Proof.
  intros Hne Hloc Hcan Hform. unfold edit_section.
  destruct df as [|p df]; [done|].
  change (Nat.eqb (length (p :: df)) 0) with false.
  rewrite Hloc, Hcan. change (negb true) with false. cbv beta iota.
  unfold bind at 1. rewrite (edit_form_opens r w Hform).
  destruct pressed as [[f|]|]; [reflexivity| |reflexivity].
  by destruct (do_delete i (p :: df)).
Qed.

Lemma edit_section_update i r f df w :
  df ≠ [] → loc df i = Some r → can_edit ss r = true →
  form_opens today r = true →
  persists_then_syncs after_refusal secrets outage
    (edit_section after_refusal secrets outage ss today i (Some (DoUpdate f)) df)
    (set_row i (new_row f) df) "Edit project" SuccessUpdated w.
Proof.
  intros Hne Hloc Hcan Hform.
  pose proof (persist_then_sync (set_row i (new_row f) df) "Edit project"
                SuccessUpdated w) as H.
  unfold persists_then_syncs in *.
  by rewrite (edit_section_open i r _ df w Hne Hloc Hcan Hform).
Qed.

Lemma edit_section_delete i r df df' w :
  df ≠ [] → loc df i = Some r → can_edit ss r = true →
  form_opens today r = true →
  do_delete i df = Some df' →
  persists_then_syncs after_refusal secrets outage
    (edit_section after_refusal secrets outage ss today i (Some DoDelete) df)
    df' "Delete project" SuccessDeleted w.
Proof.
  intros Hne Hloc Hcan Hform Hdel.
  pose proof (persist_then_sync df' "Delete project" SuccessDeleted w) as H.
  unfold persists_then_syncs in *.
  by rewrite (edit_section_open i r _ df w Hne Hloc Hcan Hform), Hdel.
Qed.

(** A handler that persists before it synchronises ends in the
    rerun with the file holding the frame, once the frame was
    saved. *)
Lemma persisted handler df' message n w w1 :
  persists_then_syncs after_refusal secrets outage handler df' message n w →
  save_data after_refusal df' w = (Ok tt, w1) →
  ∃ w' wb, handler w = (Raise RerunException, w')
    ∧ Excel.to_excel df' SHEET_NAME = Ok wb ∧ disk w' = Some wb.
Proof.
  unfold persists_then_syncs. intros H Hsave.
  destruct (save_data_ok _ _ _ Hsave) as (wb & Hwb & ->).
  rewrite Hwb in H. destruct H as (rem & calls & sn & _ & _ & Heq & _).
  eexists _, wb. split; [exact Heq|]. by split.
Qed.

End PageFacts.

(** C2.  The add section creates a record exactly under the admin
    role, which is the value "admin" of the session's role.  For any
    other role, whatever was submitted and whatever the teams of the
    records hold, the frame, the file, the repository and the API log
    stay as they were and only the admin-only notice is shown.  Under
    the admin role a submitted form whose save succeeds ends in the
    rerun with the file holding the frame extended by the new row. *)
Theorem add_gated_on_admin
    (after_refusal : option workbook → DataFrame → option workbook)
    (secrets : option (gmap string string)) (outage : net_call → bool)
    (ss : gmap string string) (df : DataFrame) (w : world) :
  (is_admin ss = true ↔ ss !! "auth_role" = Some "admin")
  ∧ (is_admin ss = false → ∀ submitted,
       add_section after_refusal secrets outage ss submitted df w
       = (Ok df, mkWorld (disk w) (remote w) (net_log w) (shown w ++ [InfoAdminOnly])))
  ∧ (is_admin ss = true → ∀ f w1,
       save_data after_refusal (concat_row df (new_row f)) w = (Ok tt, w1) →
       ∃ w' wb, add_section after_refusal secrets outage ss (Some f) df w = (Raise RerunException, w')
         ∧ Excel.to_excel (range_index (rows df ++ [new_row f])) SHEET_NAME = Ok wb
         ∧ disk w' = Some wb).
Proof.
  split; [apply is_admin_role|]. split.
  - intros Hna submitted. by apply add_section_other.
  - intros Ha f w1 Hsave.
    apply (persisted after_refusal secrets outage _ _ _ _ w w1
             (add_section_admin after_refusal secrets outage ss f df w Ha) Hsave).
Qed.

Lemma add_gated_on_admin_witness :
  (∀ submitted,
     add_section Sample.keep_old Sample.configured Sample.offline (Sample.session "bob" "viewer")
       submitted (range_index (Sample.three "bob" "bob" "bob")) Sample.empty_world
     = (Ok (range_index (Sample.three "bob" "bob" "bob")),
        mkWorld None ∅ [] [InfoAdminOnly]))
  ∧ ∃ w' wb,
      add_section Sample.keep_old Sample.configured Sample.offline (Sample.session "root" "admin")
        (Some Sample.form) [] Sample.empty_world = (Raise RerunException, w')
      ∧ Excel.to_excel (range_index [new_row Sample.form]) SHEET_NAME = Ok wb
      ∧ disk w' = Some wb.
Proof.
  split.
  - refine (proj1 (proj2 (add_gated_on_admin Sample.keep_old Sample.configured Sample.offline
              (Sample.session "bob" "viewer")
              (range_index (Sample.three "bob" "bob" "bob")) Sample.empty_world)) _).
    vm_compute. reflexivity.
  - refine (proj2 (proj2 (add_gated_on_admin Sample.keep_old Sample.configured Sample.offline
              (Sample.session "root" "admin") [] Sample.empty_world)) _
              Sample.form (save_data Sample.keep_old (concat_row [] (new_row Sample.form))
                             Sample.empty_world).2 _).
    + vm_compute. reflexivity.
    + vm_compute. reflexivity.
Defined.

(** C8.  When the token or the repository name is absent from the
    secrets, or there are no secrets at all, the commit returns without
    raising, makes no API call, and leaves the file and the repository
    as they were; it only shows one notice, the skip notice when the
    secrets exist. *)
Theorem commit_noop_when_unconfigured (secrets : option (gmap string string))
    (outage : net_call → bool) (message : string) (w : world)
    (Hun : unconfigured secrets) :
  ∃ n, commit_excel_to_github secrets outage message w
       = (Ok tt, mkWorld (disk w) (remote w) (net_log w) (shown w ++ [n]))
    ∧ (is_Some secrets → n = InfoGithubSkipped).
Proof. by apply commit_unconfigured. Qed.

Lemma commit_noop_when_unconfigured_witness :
  ∃ n, commit_excel_to_github Sample.token_only Sample.offline "Add project"
         Sample.empty_world
       = (Ok tt, mkWorld None ∅ [] [n])
    ∧ (is_Some Sample.token_only → n = InfoGithubSkipped).
Proof.
  apply (commit_noop_when_unconfigured Sample.token_only Sample.offline "Add project"
           Sample.empty_world).
  right. vm_compute. reflexivity.
Defined.

(** C9.  The commit never raises: whatever the secrets hold and
    whichever API calls fail, it returns, the file is the one it found,
    and one notice is shown, which is the failure notice when an error
    occurred.  The add, update and delete handlers persist before they
    synchronise: the frame is written first, the commit starts on the
    world in which the file already holds it, so that every file sent
    to the repository is the saved one, and the handler goes on to its
    own notice and the rerun with the file unchanged whatever the
    commit did; when the write raises, the handler raises with it and
    no API call is made.  (The update and delete handlers are reached
    when the edit form opens on the row.) *)
Theorem sync_failure_contained
    (after_refusal : option workbook → DataFrame → option workbook)
    (secrets : option (gmap string string)) (outage : net_call → bool)
    (ss : gmap string string) (today : date) (w : world) :
  (∀ message, ∃ w' n,
      commit_excel_to_github secrets outage message w = (Ok tt, w')
      ∧ disk w' = disk w ∧ shown w' = (shown w ++ [n])%list ∧ commit_notice n)
  ∧ (∀ f df, is_admin ss = true →
       persists_then_syncs after_refusal secrets outage
         (add_section after_refusal secrets outage ss (Some f) df)
         (concat_row df (new_row f)) "Add project" SuccessProjectAdded w)
  ∧ (∀ i r f df, df ≠ [] → loc df i = Some r → can_edit ss r = true →
       form_opens today r = true →
       persists_then_syncs after_refusal secrets outage
         (edit_section after_refusal secrets outage ss today i (Some (DoUpdate f)) df)
         (set_row i (new_row f) df) "Edit project" SuccessUpdated w)
  ∧ (∀ i r df df', df ≠ [] → loc df i = Some r → can_edit ss r = true →
       form_opens today r = true →
       do_delete i df = Some df' →
       persists_then_syncs after_refusal secrets outage
         (edit_section after_refusal secrets outage ss today i (Some DoDelete) df)
         df' "Delete project" SuccessDeleted w).
Proof.
  split; [intros message; apply commit_returns|].
  split; [intros f df; apply add_section_admin|].
  split; [intros i r f df; apply edit_section_update|].
  intros i r df df'; apply edit_section_delete.
Qed.

Lemma sync_failure_contained_witness :
  persists_then_syncs Sample.keep_old Sample.configured Sample.offline
    (add_section Sample.keep_old Sample.configured Sample.offline
       (Sample.session "root" "admin") (Some Sample.form) [])
    (concat_row [] (new_row Sample.form)) "Add project" SuccessProjectAdded
    Sample.empty_world
  ∧ persists_then_syncs Sample.keep_old Sample.configured Sample.offline
      (edit_section Sample.keep_old Sample.configured Sample.offline
         (Sample.session "bob" "viewer") Sample.today 1 (Some DoDelete)
         (range_index (Sample.three "alice" "bob" "alice")))
      (range_index [Sample.bridge (Some "alice"); Sample.bridge (Some "alice")])
      "Delete project" SuccessDeleted Sample.empty_world.
Proof.
  split.
  - refine (proj1 (proj2 (sync_failure_contained Sample.keep_old Sample.configured
              Sample.offline (Sample.session "root" "admin") Sample.today
              Sample.empty_world)) Sample.form [] _).
    vm_compute. reflexivity.
  - refine (proj2 (proj2 (proj2 (sync_failure_contained Sample.keep_old Sample.configured
              Sample.offline (Sample.session "bob" "viewer") Sample.today
              Sample.empty_world))) 1%nat (Sample.bridge (Some "bob"))
              (range_index (Sample.three "alice" "bob" "alice")) _ _ _ _ _ _);
      [discriminate|vm_compute; reflexivity..].
Defined.

(** With every API call failing the add handler shows the failure
    notice of the commit and then its own success notice, and the
    file holds the new frame; the one call made came after the
    save. *)
Example add_while_offline :
  add_section Sample.keep_old Sample.configured Sample.offline (Sample.session "root" "admin")
    (Some Sample.form) [] Sample.empty_world
  = (Raise RerunException,
     mkWorld (Some {[ SHEET_NAME := mkSheet COLUMNS
                        [[XNumber 2025; XText "P-002"; XText "Tunnel"; XText "Ipoh";
                          XDate (mkDate 2025 3 1); XDate (mkDate 2025 3 31);
                          XText "alice, bob"]] ]})
       ∅ [GetRepo "t0ken" "org/projects"]
       [ErrorGithubFailed (Error "GithubException" "request failed");
        SuccessProjectAdded]).
Proof. vm_compute. reflexivity. Qed.

(** When the frame cannot be written, here for a control character in
    the project name, the add handler raises before any API call. *)
Example add_refused_before_sync :
  add_section Sample.keep_old Sample.configured (fun _ => false)
    (Sample.session "root" "admin")
    (Some (mkForm 2025 "P-003" (String (ascii_of_N 7) "Bell") "Ipoh"
             (mkDate 2025 3 1) (mkDate 2025 3 31) "alice"))
    [] Sample.empty_world
  = (Raise (Error "IllegalCharacterError" (String (ascii_of_N 7) "Bell")),
     Sample.empty_world).
Proof. vm_compute. reflexivity. Qed.

(** ** Calendar *)

Module CalendarFacts.
Import Calendar.
Local Open Scope Z_scope.

Lemma days_in_month_bounds y m : 28 <= days_in_month y m <= 31.
Proof.
  unfold days_in_month.
  destruct (m =? 2); [destruct (is_leap y); lia|].
  destruct ((m =? 4) || (m =? 6) || (m =? 9) || (m =? 11))%bool; lia.
Qed.

Lemma valid_date_spec d :
  valid_date d = true
  ↔ 1 <= d_month d <= 12 ∧ 1 <= d_day d <= days_in_month (d_year d) (d_month d).
Proof. unfold valid_date. rewrite !andb_true_iff, !Z.leb_le. lia. Qed.

Lemma next_day_valid d : valid_date d = true → valid_date (next_day d) = true.
Proof.
  rewrite !valid_date_spec. intros [Hm Hd]. unfold next_day.
  destruct (Z.ltb_spec (d_day d) (days_in_month (d_year d) (d_month d))); simpl.
  - lia.
  - destruct (Z.ltb_spec (d_month d) 12); simpl.
    + pose proof (days_in_month_bounds (d_year d) (d_month d + 1)). lia.
    + pose proof (days_in_month_bounds (d_year d + 1) 1). lia.
Qed.

Lemma days_before_month_succ y m :
  1 <= m → days_before_month y (m + 1) = days_before_month y m + days_in_month y m.
Proof.
  intros Hm. unfold days_before_month.
  replace (Z.to_nat (m + 1 - 1)) with (S (Z.to_nat (m - 1))) by lia.
  simpl days_before_month_nat.
  replace (Z.of_nat (S (Z.to_nat (m - 1)))) with m by lia. reflexivity.
Qed.

Lemma days_before_december y :
  days_before_month y 12 = 334 + (if is_leap y then 1 else 0).
Proof.
  unfold days_before_month. change (Z.to_nat (12 - 1)) with 11%nat.
  cbn [days_before_month_nat]. unfold days_in_month.
  destruct (is_leap y); reflexivity.
Qed.

Lemma days_before_year_succ y :
  days_before_year (y + 1) = days_before_year y + 365 + (if is_leap y then 1 else 0).
Proof.
  unfold days_before_year, is_leap.
  replace (y + 1 - 1) with y by lia.
  destruct (Z.eqb_spec (y mod 4) 0); destruct (Z.eqb_spec (y mod 100) 0);
    destruct (Z.eqb_spec (y mod 400) 0); simpl;
    Z.div_mod_to_equations; lia.
Qed.

(** [next_day] is the successor in the day count. *)
Lemma next_day_ordinal d :
  valid_date d = true → ordinal (next_day d) = ordinal d + 1.
Proof.
  rewrite valid_date_spec. intros [Hm Hd]. unfold next_day, ordinal.
  destruct (Z.ltb_spec (d_day d) (days_in_month (d_year d) (d_month d))); simpl.
  - lia.
  - destruct (Z.ltb_spec (d_month d) 12); simpl.
    + rewrite days_before_month_succ by lia. lia.
    + replace (d_month d) with 12 in * by lia.
      rewrite days_before_year_succ, days_before_december.
      change (days_before_month (d_year d + 1) 1) with 0.
      assert (days_in_month (d_year d) 12 = 31) by reflexivity. lia.
Qed.

Lemma date_leb_earlier_year a b : d_year a < d_year b → date_leb a b = true.
Proof. intros H. unfold date_leb. apply Z.ltb_lt in H. by rewrite H. Qed.

Lemma well_formed_spec d :
  well_formed_date d = true ↔ valid_date d = true ∧ 1678 <= d_year d <= 2261.
Proof. unfold well_formed_date. rewrite !andb_true_iff, !Z.leb_le. tauto. Qed.

Lemma well_formed_in_bounds d : well_formed_date d = true → in_bounds d = true.
Proof.
  rewrite well_formed_spec. intros [Hv Hy]. unfold in_bounds.
  rewrite Hv, !date_leb_earlier_year; [reflexivity| |]; simpl; lia.
Qed.

Lemma next_day_year d :
  valid_date d = true → d_year d <= d_year (next_day d) <= d_year d + 1.
Proof.
  intros _. unfold next_day.
  destruct (d_day d <? days_in_month (d_year d) (d_month d)); simpl; [lia|].
  destruct (d_month d <? 12); simpl; lia.
Qed.

Lemma next_day_new_year d :
  d_year (next_day d) = d_year d + 1 → next_day d = mkDate (d_year d + 1) 1 1.
Proof.
  unfold next_day.
  destruct (d_day d <? days_in_month (d_year d) (d_month d)); simpl; [lia|].
  destruct (d_month d <? 12); simpl; [lia|reflexivity].
Qed.

Lemma well_formed_next_in_bounds d :
  well_formed_date d = true → in_bounds (next_day d) = true.
Proof.
  rewrite well_formed_spec. intros [Hv Hy]. unfold in_bounds.
  rewrite (next_day_valid d Hv).
  pose proof (next_day_year d Hv) as Hn.
  rewrite (date_leb_earlier_year TS_MIN) by (simpl; lia). simpl.
  destruct (Z.eq_dec (d_year (next_day d)) 2262) as [Heq|Hne].
  - rewrite (next_day_new_year d) by lia.
    replace (d_year d + 1) with 2262 by lia. reflexivity.
  - apply date_leb_earlier_year. simpl. lia.
Qed.

Lemma digit_code n : ∃ k, (48 <= k <= 57)%N ∧ digit n = ascii_of_N k.
Proof.
  unfold digit. exists (48 + Z.to_N (n mod 10))%N. split; [|reflexivity].
  pose proof (Z.mod_pos_bound n 10 ltac:(lia)). lia.
Qed.

Lemma digit_not_newline n : Ascii.eqb (digit n) PyStr.newline = false.
Proof.
  destruct (digit_code n) as (k & Hk & ->).
  assert (Hcases : (k = 48 ∨ k = 49 ∨ k = 50 ∨ k = 51 ∨ k = 52 ∨ k = 53 ∨ k = 54
                    ∨ k = 55 ∨ k = 56 ∨ k = 57)%N) by lia.
  repeat (destruct Hcases as [->|Hcases]; [reflexivity|]). subst. reflexivity.
Qed.

Example next_day_samples :
  next_day (mkDate 2024 2 28) = mkDate 2024 2 29
  ∧ next_day (mkDate 2023 2 28) = mkDate 2023 3 1
  ∧ next_day (mkDate 2100 2 28) = mkDate 2100 3 1
  ∧ next_day (mkDate 2024 12 31) = mkDate 2025 1 1
  ∧ ordinal (mkDate 2024 1 10) = 738895.
Proof. repeat split; reflexivity. Qed.

End CalendarFacts.

(** ** Calendar export *)

Module IcsFacts.
Import PyStr Ics.

Lemma app_cons x (a b : string) : String x a +:+ b = String x (a +:+ b).
Proof. reflexivity. Qed.

Lemma app_assoc (a b c : string) : (a +:+ b) +:+ c = a +:+ b +:+ c.
Proof.
  induction a as [|x a IH]; [reflexivity|]. by rewrite !app_cons, IH.
Qed.

Lemma app_empty_r (a : string) : a +:+ "" = a.
Proof. induction a as [|x a IH]; [reflexivity|]. by rewrite app_cons, IH. Qed.

(** Splitting at a separator splits the list of pieces. *)
Lemma split_app sep a b :
  split sep (a +:+ String sep b) = (split sep a ++ split sep b)%list.
Proof.
  induction a as [|x a IH].
  - change ("" +:+ String sep b) with (String sep b). simpl.
    by rewrite Ascii.eqb_refl.
  - rewrite app_cons. simpl. rewrite IH. destruct (Ascii.eqb x sep); [reflexivity|].
    pose proof (PyStrFacts.split_nonempty sep a).
    by destruct (split sep a).
Qed.

Lemma lines_one_line s : one_line s = true → lines s = [s].
Proof.
  unfold lines, one_line. induction s as [|x s IH]; simpl; [reflexivity|].
  intros [Hx Hs]%andb_true_iff. apply negb_true_iff in Hx.
  rewrite Hx, (IH Hs). reflexivity.
Qed.

(** The lines of a text that continues after a line break. *)
Lemma lines_line a rest : lines (line a +:+ rest) = (lines a ++ lines rest)%list.
Proof.
  unfold line, nl, lines. rewrite app_assoc.
  change (String newline "" +:+ rest) with (String newline rest).
  apply split_app.
Qed.

Lemma one_line_app a b : one_line (a +:+ b) = one_line a && one_line b.
Proof.
  unfold one_line. induction a as [|x a IH]; [reflexivity|].
  rewrite app_cons. simpl. by rewrite IH, andb_assoc.
Qed.

Lemma one_line_zero_pad w n : one_line (Calendar.zero_pad w n) = true.
Proof.
  revert n. induction w as [|w IH]; intros n; simpl; [reflexivity|].
  rewrite one_line_app, IH. unfold one_line. simpl.
  by rewrite CalendarFacts.digit_not_newline.
Qed.

Lemma one_line_yyyymmdd d : one_line (Calendar.yyyymmdd d) = true.
Proof.
  unfold Calendar.yyyymmdd. by rewrite !one_line_app, !one_line_zero_pad.
Qed.

Lemma one_line_dtstart d : one_line (DTSTART +:+ Calendar.yyyymmdd d) = true.
Proof. by rewrite one_line_app, one_line_yyyymmdd. Qed.

Lemma one_line_dtend d : one_line (DTEND +:+ Calendar.yyyymmdd d) = true.
Proof. by rewrite one_line_app, one_line_yyyymmdd. Qed.

(** A text made of whole lines up to the two date lines: these are
    adjacent lines of it. *)
Lemma date_lines_found pre s e post :
  lines (line pre +:+ line (DTSTART +:+ Calendar.yyyymmdd s)
         +:+ line (DTEND +:+ Calendar.yyyymmdd (Calendar.next_day e)) +:+ post)
  = (lines pre ++ spec_date_lines s e ++ lines post)%list.
Proof.
  rewrite !lines_line.
  rewrite (lines_one_line _ (one_line_dtstart s)).
  rewrite (lines_one_line _ (one_line_dtend (Calendar.next_day e))).
  reflexivity.
Qed.

(** The text of an event, cut before its last head line. *)
Lemma event_cut pre stamp start end_ r post :
  (pre +:+ event stamp start end_ r) +:+ post
  = line (pre +:+ line "BEGIN:VEVENT"
          +:+ line ("UID:" +:+ fmt (ProjectCode r) +:+ "@project-tracker")
          +:+ "DTSTAMP:" +:+ stamp)
    +:+ line (DTSTART +:+ start) +:+ line (DTEND +:+ end_)
    +:+ event_tail r +:+ post.
Proof. unfold event, event_head, line. by rewrite !app_assoc. Qed.

Lemma event_lines pre stamp s e r post :
  ∃ before after,
    lines ((pre +:+ event stamp (Calendar.yyyymmdd s)
                     (Calendar.yyyymmdd (Calendar.next_day e)) r) +:+ post)
    = (before ++ spec_date_lines s e ++ after)%list.
Proof.
  rewrite event_cut, date_lines_found. by eexists _, _.
Qed.

End IcsFacts.

Section IcsExport.
Import Ics IcsFacts.

Variable utcnow : nat → string.

Lemma date_to_ics_ok s :
  Calendar.well_formed_date s = true →
  date_to_ics (Some s) = Ok (Calendar.yyyymmdd s).
Proof.
  intros Hs. unfold date_to_ics, to_datetime.
  by rewrite (CalendarFacts.well_formed_in_bounds s Hs).
Qed.

Lemma end_to_ics_ok e :
  Calendar.well_formed_date e = true →
  end_to_ics (Some e) = Ok (Calendar.yyyymmdd (Calendar.next_day e)).
Proof.
  intros He. unfold end_to_ics, to_datetime, add_one_day.
  rewrite (CalendarFacts.well_formed_in_bounds e He). simpl.
  by rewrite (CalendarFacts.well_formed_next_in_bounds e He).
Qed.

Lemma well_formed_dates_inv r :
  well_formed_dates r = true →
  ∃ s e, ProjectStart r = Some s ∧ ProjectEnd r = Some e
    ∧ Calendar.well_formed_date s = true ∧ Calendar.well_formed_date e = true.
Proof.
  unfold well_formed_dates.
  destruct (ProjectStart r) as [s|], (ProjectEnd r) as [e|]; try discriminate.
  intros [Hs He]%andb_true_iff. by exists s, e.
Qed.

Lemma ics_text_for_row_ok r :
  well_formed_dates r = true →
  ics_text_for_row utcnow r
  = Ok (calendar_head +:+ spec_event (utcnow 0) r +:+ line "END:VCALENDAR").
Proof.
  intros (s & e & Hs & He & Hws & Hwe)%well_formed_dates_inv.
  unfold ics_text_for_row, spec_event. rewrite Hs, He.
  by rewrite (date_to_ics_ok s Hws), (end_to_ics_ok e Hwe).
Qed.

Lemma ics_events_ok rs k ics :
  forallb well_formed_dates rs = true →
  ics_events utcnow k ics rs = Ok (ics +:+ spec_events utcnow k rs).
Proof.
  revert k ics. induction rs as [|r rs IH]; intros k ics Hall.
  - simpl. by rewrite app_empty_r.
  - simpl in Hall. apply andb_true_iff in Hall as [Hr Hrs].
    destruct (well_formed_dates_inv r Hr) as (s & e & Hs & He & Hws & Hwe).
    simpl. unfold spec_event. rewrite Hs, He.
    rewrite (date_to_ics_ok s Hws), (end_to_ics_ok e Hwe). simpl.
    rewrite (IH _ _ Hrs). by rewrite app_assoc.
Qed.

Lemma spec_events_lines rs k pre post r s e :
  In r rs → ProjectStart r = Some s → ProjectEnd r = Some e →
  ∃ before after,
    lines ((pre +:+ spec_events utcnow k rs) +:+ post)
    = (before ++ spec_date_lines s e ++ after)%list.
Proof.
  revert k pre. induction rs as [|r0 rs IH]; intros k pre Hin Hs He; [done|].
  simpl spec_events. destruct Hin as [->|Hin].
  - unfold spec_event. rewrite Hs, He.
    rewrite <- (app_assoc pre), (app_assoc (pre +:+ _)).
    apply event_lines.
  - rewrite <- (app_assoc pre). by apply IH.
Qed.

End IcsExport.

(** C3.  For a record whose two dates are present and well formed the
    calendar text has, as adjacent lines, DTSTART with ProjectStart as
    YYYYMMDD and DTEND with the day after ProjectEnd as YYYYMMDD; the
    bulk export has them for every record of the frame.  The day after
    is the next date of the calendar.  For 2024-01-10 and 2024-01-12
    the lines read 20240110 and 20240113. *)
Theorem calendar_dates (utcnow : nat → string) :
  (∀ r s e, ProjectStart r = Some s → ProjectEnd r = Some e →
     Calendar.well_formed_date s = true → Calendar.well_formed_date e = true →
     ∃ ics before after,
       Ics.make_ics_for_row utcnow r = Ok (Ics.encode_utf8 ics)
       ∧ Ics.lines ics = (before ++ Ics.spec_date_lines s e ++ after)%list)
  ∧ (∀ df, forallb Ics.well_formed_dates (rows df) = true →
       ∃ ics, Ics.make_ics_for_dataframe utcnow df = Ok (Ics.encode_utf8 ics)
         ∧ ∀ r s e, In r (rows df) →
             ProjectStart r = Some s → ProjectEnd r = Some e →
             ∃ before after,
               Ics.lines ics = (before ++ Ics.spec_date_lines s e ++ after)%list)
  ∧ (∀ d, Calendar.valid_date d = true →
       Calendar.valid_date (Calendar.next_day d) = true
       ∧ Calendar.ordinal (Calendar.next_day d) = (Calendar.ordinal d + 1)%Z)
  ∧ Ics.spec_date_lines (mkDate 2024 1 10) (mkDate 2024 1 12)
    = ["DTSTART;VALUE=DATE:20240110"; "DTEND;VALUE=DATE:20240113"].
Proof.
  split; [|split; [|split]].
  - intros r s e Hs He Hws Hwe.
    assert (Hr : Ics.well_formed_dates r = true).
    { unfold Ics.well_formed_dates. by rewrite Hs, He, Hws, Hwe. }
    exists (Ics.calendar_head +:+ Ics.spec_event (utcnow 0) r
            +:+ Ics.line "END:VCALENDAR").
    unfold Ics.make_ics_for_row. rewrite (ics_text_for_row_ok utcnow r Hr).
    unfold Ics.spec_event. rewrite Hs, He.
    rewrite <- IcsFacts.app_assoc.
    destruct (IcsFacts.event_lines Ics.calendar_head (utcnow 0) s e r
                (Ics.line "END:VCALENDAR")) as (before & after & Hl).
    by exists before, after.
  - intros df Hall.
    exists (Ics.calendar_head +:+ Ics.spec_events utcnow 0 (rows df)
            +:+ Ics.line "END:VCALENDAR").
    unfold Ics.make_ics_for_dataframe, Ics.ics_text_for_dataframe.
    rewrite (ics_events_ok utcnow (rows df) 0 Ics.calendar_head Hall). simpl.
    rewrite IcsFacts.app_assoc. split; [reflexivity|].
    intros r s e Hin Hs He. rewrite <- IcsFacts.app_assoc.
    by apply spec_events_lines with (r := r).
  - intros d Hd. split.
    + by apply CalendarFacts.next_day_valid.
    + by apply CalendarFacts.next_day_ordinal.
  - reflexivity.
Qed.

Lemma calendar_dates_witness :
  ∃ ics before after,
    Ics.make_ics_for_row Sample.stamp (Sample.bridge None) = Ok (Ics.encode_utf8 ics)
    ∧ Ics.lines ics
      = (before ++ ["DTSTART;VALUE=DATE:20240110"; "DTEND;VALUE=DATE:20240113"]
         ++ after)%list.
Proof.
  refine (proj1 (calendar_dates Sample.stamp) (Sample.bridge None)
            (mkDate 2024 1 10) (mkDate 2024 1 12) _ _ _ _); reflexivity.
Defined.

(** The calendar text of the sample project, line by line. *)
Example bridge_calendar :
  Ics.and_then (Ics.ics_text_for_row Sample.stamp (Sample.bridge (Some "alice")))
    (fun ics => Ok (Ics.lines ics))
  = Ok ["BEGIN:VCALENDAR"; "VERSION:2.0"; "PRODID:-//Project Tracker Pro//EN";
        "BEGIN:VEVENT"; "UID:P-001@project-tracker"; "DTSTAMP:20240105T093000Z";
        "DTSTART;VALUE=DATE:20240110"; "DTEND;VALUE=DATE:20240113";
        "SUMMARY:P-001 - Bridge"; "LOCATION:NYC"; "DESCRIPTION:Team: alice";
        "END:VEVENT"; "END:VCALENDAR"; ""].
Proof. vm_compute. reflexivity. Qed.

(** ** The Excel store *)

Module ExcelFacts.
Import Excel.

Lemma kept_legal s : kept_chars s = true → has_illegal s = false.
Proof.
  unfold kept_chars, has_illegal. induction s as [|c s IH]; simpl; [reflexivity|].
  intros [Hc Hs]%andb_true_iff. rewrite (IH Hs), orb_false_r.
  unfold kept_char in Hc. apply andb_true_iff in Hc as [Hc _].
  by apply negb_true_iff in Hc.
Qed.

Lemma substring_all n s : (String.length s ≤ n)%nat → String.substring 0 n s = s.
Proof.
  revert n. induction s as [|c s IH]; intros n Hn.
  - by destruct n.
  - destruct n as [|n]; simpl in *; [lia|]. rewrite IH by lia. reflexivity.
Qed.

Lemma truncate_short s :
  (N.of_nat (String.length s) <=? MAX_TEXT)%N = true → truncate s = s.
Proof.
  intros H%N.leb_le. unfold truncate. apply substring_all. lia.
Qed.

Lemma truncate_empty : truncate "" = "".
Proof. reflexivity. Qed.

Lemma storable_text_inv c :
  storable_text c = true →
  truncate (text_of c) = text_of c
  ∧ has_illegal (text_of c) = false
  ∧ kept_chars (text_of c) = true
  ∧ PyStr.contains ESCAPE (text_of c) = false
  ∧ is_formula (text_of c) = false
  ∧ PyStr.mem (text_of c) ERROR_CODES = false
  ∧ (PyStr.truthy (text_of c) = true → is_na (text_of c) = false).
Proof.
  unfold storable_text. cbv zeta.
  rewrite !andb_true_iff, !negb_true_iff, orb_true_iff, !negb_true_iff.
  intros [[[[[Hlen Hkept] Hesc] Hform] Herr] Hna].
  split; [by apply truncate_short|]. split; [by apply kept_legal|].
  repeat split; try done.
  intros Ht. destruct Hna as [Hna|Hna]; congruence.
Qed.

(** A storable text cell is written without error as an empty cell
    or a text cell, and read as the text written. *)
Lemma write_read_text c :
  storable_text c = true →
  ∃ x, write_text c = Ok x ∧ read_text x = Some (text_of c)
    ∧ match x with XEmpty => true | _ => false end = negb (PyStr.truthy (text_of c)).
Proof.
  intros (Htr & Hill & Hkept & Hesc & Hform & Herr & _)%storable_text_inv.
  unfold write_text. fold (text_of c). cbv zeta. rewrite Htr, Hill.
  destruct (PyStr.truthy (text_of c)) eqn:Ht; cbn [negb].
  - rewrite Hform, Herr. exists (XText (text_of c)).
    split; [reflexivity|]. split; [|reflexivity].
    unfold read_text. by rewrite Hkept, Hesc.
  - exists XEmpty. apply PyStrFacts.truthy_false in Ht. rewrite Ht. by repeat split.
Qed.

(** After type inference the text read is the cell written, the
    empty text apart. *)
Lemma na_to_missing_written c :
  storable_text c = true → na_to_missing (text_of c) = blank_to_missing c.
Proof.
  intros (_ & _ & _ & _ & _ & _ & Hna)%storable_text_inv.
  destruct c as [s|]; [|reflexivity].
  unfold na_to_missing, blank_to_missing. simpl text_of in *.
  destruct (PyStr.truthy s) eqn:Ht; [by rewrite (Hna eq_refl)|].
  apply PyStrFacts.truthy_false in Ht as ->. reflexivity.
Qed.

Lemma write_read_year c :
  storable_year c = true → read_year (write_year c) = Some c.
Proof. destruct c as [z|]; simpl; [|reflexivity]. by intros ->. Qed.

Lemma write_read_date c :
  storable_date c = true → read_date (write_date c) = Some c.
Proof. destruct c as [d|]; simpl; [|reflexivity]. by intros ->. Qed.

Lemma write_read_row r :
  storable_row r = true →
  ∃ cells, write_row r = Ok cells ∧ read_row cells = Some (as_written r)
    ∧ empty_row cells = blank_row r.
Proof.
  unfold storable_row. rewrite !andb_true_iff.
  intros [[[[[[Hy Hc] Hn] Hl] Ht] Hs] He].
  destruct (write_read_text _ Hc) as (xc & Hwc & Hrc & Hec).
  destruct (write_read_text _ Hn) as (xn & Hwn & Hrn & Hen).
  destruct (write_read_text _ Hl) as (xl & Hwl & Hrl & Hel).
  destruct (write_read_text _ Ht) as (xt & Hwt & Hrt & Het).
  eexists. unfold write_row. rewrite Hwc, Hwn, Hwl, Hwt.
  split; [reflexivity|]. split.
  - unfold read_row, as_written.
    rewrite (write_read_year _ Hy), (write_read_date _ Hs), (write_read_date _ He).
    simpl. rewrite Hrc. simpl. rewrite Hrn. simpl. rewrite Hrl. simpl. by rewrite Hrt.
  - unfold empty_row, blank_row. simpl forallb.
    rewrite Hec, Hen, Hel, Het.
    destruct (Year r), (ProjectStart r), (ProjectEnd r),
      (PyStr.truthy (text_of (ProjectCode r))), (PyStr.truthy (text_of (ProjectName r))),
      (PyStr.truthy (text_of (Location r))), (PyStr.truthy (text_of (ProjectTeam r)));
      reflexivity.
Qed.

Lemma write_read_rows rs :
  forallb storable_row rs = true →
  ∃ body, write_rows rs = Ok body
    ∧ mapM read_row body = Some (map as_written rs)
    ∧ map empty_row body = map blank_row rs.
Proof.
  induction rs as [|r rs IH]; simpl.
  - intros _. by exists [].
  - intros [Hr Hrs]%andb_true_iff.
    destruct (write_read_row r Hr) as (cells & Hw & Hread & Hblank).
    destruct (IH Hrs) as (body & Hws & Hreads & Hblanks).
    exists (cells :: body). rewrite Hw, Hws. split; [reflexivity|]. split.
    + simpl. rewrite Hread. simpl. rewrite Hreads. reflexivity.
    + simpl. by rewrite Hblank, Hblanks.
Qed.

(** Nothing is trimmed from a sheet whose last row is not empty. *)
Lemma trim_trailing_keep body :
  match last body with Some cells => empty_row cells = false | None => True end →
  trim_trailing body = body.
Proof.
  induction body as [|cells body IH]; [reflexivity|].
  destruct body as [|cells' body].
  - simpl. by intros ->.
  - intros Hlast. change (trim_trailing (cells :: cells' :: body))
      with (match trim_trailing (cells' :: body) with
            | [] => if empty_row cells then [] else [cells]
            | kept => cells :: kept
            end).
    rewrite IH by exact Hlast. reflexivity.
Qed.

Lemma trim_written body rs :
  map empty_row body = map blank_row rs → ends_blank rs = false →
  trim_trailing body = body.
Proof.
  intros Hmap Hends. apply trim_trailing_keep.
  assert (Hl : empty_row <$> last body = blank_row <$> last rs).
  { rewrite <- !fmap_last. by f_equal. }
  unfold ends_blank in Hends.
  destruct (last body) as [cells|]; [|done].
  destruct (last rs) as [r|]; simpl in Hl; [|discriminate].
  injection Hl as ->. exact Hends.
Qed.

Lemma to_record_written r :
  storable_row r = true → to_record (as_written r) = reloaded r.
Proof.
  unfold storable_row. rewrite !andb_true_iff.
  intros [[[[[[_ Hc] Hn] Hl] Ht] _] _].
  unfold to_record, as_written, reloaded. simpl.
  by rewrite !na_to_missing_written.
Qed.

Lemma to_records_written rs :
  forallb storable_row rs = true → map to_record (map as_written rs) = map reloaded rs.
Proof.
  induction rs as [|r rs IH]; simpl; [reflexivity|].
  intros [Hr Hrs]%andb_true_iff. by rewrite (to_record_written r Hr), (IH Hrs).
Qed.

Lemma column_written (f : record → text_cell) (g : sheet_row → string) rs :
  (∀ r, g (as_written r) = text_of (f r)) →
  map g (map as_written rs) = column f rs.
Proof.
  intros H. unfold column. rewrite map_map. apply map_ext. intros r. apply H.
Qed.

(** Reading a sheet whose rows are read one by one, none trimmed,
    and whose text columns stay text. *)
Lemma read_written body xs :
  mapM read_row body = Some xs → trim_trailing body = body →
  stays_text (map sr_code xs) = true → stays_text (map sr_name xs) = true →
  stays_text (map sr_location xs) = true → stays_text (map sr_team xs) = true →
  read_excel {[ SHEET_NAME := mkSheet COLUMNS body ]} SHEET_NAME
  = Loaded (range_index (map to_record xs)).
Proof.
  intros Hread Htrim Hc Hn Hl Ht. unfold read_excel.
  rewrite lookup_singleton_eq. simpl ws_header.
  rewrite bool_decide_eq_true_2 by reflexivity.
  simpl ws_body. by rewrite Htrim, Hread, Hc, Hn, Hl, Ht.
Qed.

(** Storable rows are written without error to a sheet that reads
    back as those rows reloaded. *)
Lemma write_then_read rs :
  storable rs = true →
  ∃ body, write_rows rs = Ok body
    ∧ read_excel {[ SHEET_NAME := mkSheet COLUMNS body ]} SHEET_NAME
      = Loaded (range_index (map reloaded rs)).
Proof.
  unfold storable. rewrite !andb_true_iff, negb_true_iff.
  intros [[[[[Hrows Hc] Hn] Hl] Ht] Hends].
  destruct (write_read_rows rs Hrows) as (body & Hw & Hr & Hblank).
  exists body. split; [exact Hw|].
  rewrite (read_written body (map as_written rs) Hr (trim_written body rs Hblank Hends)).
  - by rewrite (to_records_written rs Hrows).
  - by rewrite (column_written ProjectCode sr_code).
  - by rewrite (column_written ProjectName sr_name).
  - by rewrite (column_written Location sr_location).
  - by rewrite (column_written ProjectTeam sr_team).
Qed.

Lemma reloaded_no_blank r : no_blank r = true → reloaded r = r.
Proof.
  unfold no_blank, reloaded. rewrite !andb_true_iff, !negb_true_iff.
  intros [[[Hc Hn] Hl] Ht].
  apply bool_decide_eq_false in Hc, Hn, Hl, Ht.
  destruct r as [y c n l s e t]; simpl in *.
  assert (Hb : ∀ x, x ≠ Some "" → blank_to_missing x = x).
  { intros [[|a x]|] Hx; simpl; congruence. }
  by rewrite !Hb.
Qed.

Lemma load_of_disk after_refusal w wb :
  disk w = Some wb → load_data after_refusal w = (read_excel wb SHEET_NAME, w).
Proof. intros Hd. unfold load_data, ensure_excel. rewrite Hd. cbv beta iota. by rewrite Hd. Qed.

End ExcelFacts.

(** C4 (as amended).  A frame whose rows are storable is saved without
    error, and loading then yields the same rows in the same order
    under the index 0..N-1, except that every empty text has become the
    missing value; when no text cell is empty and the frame was indexed
    0..N-1 the loaded frame is the saved one. *)
Theorem save_then_load
    (after_refusal : option workbook → DataFrame → option workbook)
    (df : DataFrame) (w : world)
    (Hst : Excel.storable (rows df) = true) :
  ∃ w', save_data after_refusal df w = (Ok tt, w')
    ∧ load_data after_refusal w'
      = (Excel.Loaded (range_index (map Excel.reloaded (rows df))), w')
    ∧ (forallb Excel.no_blank (rows df) = true → df = range_index (rows df) →
       load_data after_refusal w' = (Excel.Loaded df, w')).
Proof.
  destruct (ExcelFacts.write_then_read (rows df) Hst) as (body & Hw & Hr).
  assert (Hload : ∀ w', disk w' = Some {[ SHEET_NAME := mkSheet COLUMNS body ]} →
            load_data after_refusal w'
            = (Excel.Loaded (range_index (map Excel.reloaded (rows df))), w')).
  { intros w' Hd. by rewrite (ExcelFacts.load_of_disk after_refusal w' _ Hd), Hr. }
  eexists. unfold save_data, write_excel_file, Excel.to_excel. rewrite Hw.
  split; [reflexivity|]. split; [by apply Hload|].
  intros Hnb Hidx. rewrite Hload by reflexivity.
  do 2 f_equal. rewrite Hidx at 2. f_equal.
  clear -Hnb. induction (rows df) as [|r rs IH]; simpl in *; [reflexivity|].
  apply andb_true_iff in Hnb as [Hr Hrs].
  by rewrite (ExcelFacts.reloaded_no_blank r Hr), (IH Hrs).
Qed.

Lemma save_then_load_witness :
  ∃ w', save_data Sample.keep_old (range_index Sample.wide) Sample.empty_world = (Ok tt, w')
    ∧ load_data Sample.keep_old w' = (Excel.Loaded (range_index Sample.wide), w').
Proof.
  destruct (save_then_load Sample.keep_old (range_index Sample.wide) Sample.empty_world)
    as (w' & Hsave & _ & Hsame); [vm_compute; reflexivity|].
  exists w'. split; [exact Hsave|]. apply Hsame; vm_compute; reflexivity.
Defined.

(** C4 as stated fails on a record the add form can produce: a project
    saved with an empty location is loaded with a missing one. *)
Lemma save_then_load_counterexample :
  (save_data Sample.keep_old (range_index [Sample.no_location]) Sample.empty_world).1
  = Ok tt
  ∧ (load_data Sample.keep_old
       (save_data Sample.keep_old (range_index [Sample.no_location])
          Sample.empty_world).2).1
    = Excel.Loaded
        (range_index [mkRecord (Some 2024%Z) (Some "P-001") (Some "Bridge") None
                        (Some (mkDate 2024 1 10)) (Some (mkDate 2024 1 12))
                        (Some "alice")])
  ∧ (load_data Sample.keep_old
       (save_data Sample.keep_old (range_index [Sample.no_location])
          Sample.empty_world).2).1
    ≠ Excel.Loaded (range_index [Sample.no_location]).
Proof.
  assert (H : (load_data Sample.keep_old
                 (save_data Sample.keep_old (range_index [Sample.no_location])
                    Sample.empty_world).2).1
    = Excel.Loaded
        (range_index [mkRecord (Some 2024%Z) (Some "P-001") (Some "Bridge") None
                        (Some (mkDate 2024 1 10)) (Some (mkDate 2024 1 12))
                        (Some "alice")])) by (vm_compute; reflexivity).
  split; [vm_compute; reflexivity|].
  split; [exact H|]. rewrite H. vm_compute. discriminate.
Qed.

(** Texts made of letters that also spell numbers, a text beyond
    ASCII, a text of digits beside one that is none, and the first and
    the last day the sheet and the timestamps share come back as they
    were saved. *)
Example save_then_load_samples :
  Excel.storable Sample.wide = true
  ∧ (load_data Sample.keep_old
       (save_data Sample.keep_old (range_index Sample.wide) Sample.empty_world).2).1
    = Excel.Loaded (range_index Sample.wide).
Proof. split; vm_compute; reflexivity. Qed.

(** A column of texts that all read as numbers, or that are all
    boolean words, does not come back as text, and a blank last row
    does not come back at all. *)
Example storable_limits :
  Excel.storable [Sample.project "123" "Bridge" "NYC" (Some "alice")] = false
  ∧ Excel.storable [Sample.project "P-1" "Bridge" "NYC" (Some "TRUE")] = false
  ∧ Excel.storable [Sample.bridge (Some "alice");
                    mkRecord None None (Some "") None None None None] = false
  ∧ (load_data Sample.keep_old
       (save_data Sample.keep_old
          (range_index [Sample.bridge (Some "alice");
                        mkRecord None None (Some "") None None None None])
          Sample.empty_world).2).1
    = Excel.Loaded (range_index [Sample.bridge (Some "alice")]).
Proof. repeat split; vm_compute; reflexivity. Qed.

(** * Further properties of the script *)

(** ** Credentials and sign-in *)

Section CredentialFacts.

Lemma users_configured (table : gmap string (gmap string string)) :
  table ≠ ∅ → USERS (Some table) = account_of <$> table.
Proof.
  intros Hne. unfold USERS, load_users_from_secrets.
  rewrite map_size_fmap.
  destruct (Nat.eqb_spec (size table) 0) as [H0|_]; [|reflexivity].
  by apply map_size_empty_iff in H0.
Qed.

Lemma users_fallback users_section :
  users_section = None ∨ users_section = Some ∅ →
  USERS users_section = FALLBACK_USERS.
Proof. intros [-> | ->]; reflexivity. Qed.

Lemma login_signed_in users username password ss :
  (login_ui users username password true ss).2 = SignedIn
  ↔ ∃ a, users !! username = Some a ∧ acc_password a = password.
Proof.
  unfold login_ui. destruct (users !! username) as [a|]; simpl.
  - destruct (String.eqb_spec (acc_password a) password) as [Heq|Hne]; simpl.
    + split; [intros _; by exists a|done].
    + split; [discriminate|]. intros (a' & [= <-] & Hp). done.
  - split; [discriminate|]. intros (a & Ha & _). discriminate.
Qed.

Lemma login_session users username password ss a :
  users !! username = Some a → acc_password a = password →
  (login_ui users username password true ss).1
  = <["auth_role" := acc_role a]> (<["auth_user" := username]> ss).
Proof.
  intros Ha Hp. unfold login_ui. rewrite Ha.
  apply String.eqb_eq in Hp. by rewrite Hp.
Qed.

Lemma is_admin_after_login username role ss :
  is_admin (<["auth_role" := role]> (<["auth_user" := username]> ss)) = true
  ↔ role = "admin".
Proof.
  unfold is_admin. rewrite bool_decide_eq_true, lookup_insert_eq.
  split; [by intros [= ->]|by intros ->].
Qed.

End CredentialFacts.

(** X1.  Pressing the sign-in button signs in exactly when the name
    is a key of the user table and the password equals the stored one,
    letter case included.  The session then holds that name and the
    role of the account, the admin test holds exactly for the role
    "admin", and the other keys of the session are kept; a refused
    attempt leaves the session as it was, and so does a run without
    the button. *)
Theorem login_checks_credentials (users : gmap string account)
    (username password : string) (ss : gmap string string) :
  ((login_ui users username password true ss).2 = SignedIn
   ↔ ∃ a, users !! username = Some a ∧ acc_password a = password)
  ∧ (∀ a, users !! username = Some a → acc_password a = password →
       current_user (login_ui users username password true ss).1 = username
       ∧ signed_in (login_ui users username password true ss).1 = true
       ∧ (is_admin (login_ui users username password true ss).1 = true
          ↔ acc_role a = "admin")
       ∧ ∀ k, k ≠ "auth_user" → k ≠ "auth_role" →
           (login_ui users username password true ss).1 !! k = ss !! k)
  ∧ ((login_ui users username password true ss).2 ≠ SignedIn →
       (login_ui users username password true ss).1 = ss)
  ∧ login_ui users username password false ss = (ss, NoSignIn).
Proof.
  split; [apply login_signed_in|]. split; [|split; [|reflexivity]].
  - intros a Ha Hp. rewrite (login_session _ _ _ _ _ Ha Hp).
    split; [|split; [|split]].
    + unfold current_user. rewrite lookup_insert_ne by done.
      by rewrite lookup_insert_eq.
    + unfold signed_in. apply bool_decide_eq_true.
      rewrite lookup_insert_ne by done. rewrite lookup_insert_eq. by eexists.
    + apply is_admin_after_login.
    + intros k Hu Hr. by rewrite !lookup_insert_ne.
  - unfold login_ui. destruct (users !! username) as [a|]; [|reflexivity].
    destruct (String.eqb (acc_password a) password); [|reflexivity].
    simpl. intros H. by destruct H.
Qed.

Lemma login_checks_credentials_witness :
  current_user (login_ui FALLBACK_USERS "viewer" "viewer" true ∅).1 = "viewer"
  ∧ (login_ui FALLBACK_USERS "viewer" "Viewer" true ∅).1 = ∅.
Proof.
  split.
  - refine (proj1 (proj1 (proj2 (login_checks_credentials FALLBACK_USERS
              "viewer" "viewer" ∅)) (mkAccount "viewer" "viewer") _ _));
      vm_compute; reflexivity.
  - refine (proj1 (proj2 (proj2 (login_checks_credentials FALLBACK_USERS
              "viewer" "Viewer" ∅))) _).
    vm_compute. discriminate.
Defined.

(** X2.  For a name listed in a user table read from the secrets, the
    sign-in succeeds exactly with the configured password, the empty
    password when none is configured; the account is admin exactly
    when its configured role is "admin", so an account without a role
    is not.  A name the table does not list is refused whatever the
    password: the built-in accounts are not accepted beside a
    configured one. *)
Theorem configured_accounts (table : gmap string (gmap string string))
    (username : string) (cfg : gmap string string) (ss : gmap string string)
    (Hcfg : table !! username = Some cfg) :
  (∀ password,
     (login_ui (USERS (Some table)) username password true ss).2 = SignedIn
     ↔ password = default "" (cfg !! "password"))
  ∧ (is_admin (login_ui (USERS (Some table)) username
                 (default "" (cfg !! "password")) true ss).1 = true
     ↔ cfg !! "role" = Some "admin")
  ∧ (∀ other password, table !! other = None →
       login_ui (USERS (Some table)) other password true ss = (ss, InvalidLogin)).
Proof.
  assert (Hne : table ≠ ∅).
  { intros ->. by rewrite lookup_empty in Hcfg. }
  rewrite (users_configured table Hne).
  assert (Hacc : (account_of <$> table) !! username = Some (account_of cfg)).
  { by rewrite lookup_fmap, Hcfg. }
  split; [|split].
  - intros password. rewrite login_signed_in, Hacc. split.
    + by intros (a & [= <-] & <-).
    + intros ->. by eexists.
  - rewrite (login_session _ _ _ _ _ Hacc eq_refl), is_admin_after_login.
    unfold account_of. simpl. destruct (cfg !! "role") as [role|]; simpl.
    + split; [by intros ->|by intros [= ->]].
    + split; discriminate.
  - intros other password Hother. unfold login_ui.
    by rewrite lookup_fmap, Hother.
Qed.

Lemma configured_accounts_witness :
  (∀ password,
     (login_ui (USERS (Some Sample.one_user)) "dana" password true ∅).2 = SignedIn
     ↔ password = "")
  ∧ login_ui (USERS (Some Sample.one_user)) "admin" "admin" true ∅ = (∅, InvalidLogin).
Proof.
  pose proof (configured_accounts Sample.one_user "dana" ∅ ∅ eq_refl) as (H1 & _ & H3).
  split; [exact H1|]. apply H3. vm_compute. reflexivity.
Defined.

(** X3.  When reading the secrets raises, or they list no user, the
    sign-in accepts exactly admin/admin and viewer/viewer, and the
    first of the two is admin. *)
Theorem fallback_accounts (users_section : option (gmap string (gmap string string)))
    (username password : string) (ss : gmap string string)
    (Hnone : users_section = None ∨ users_section = Some ∅) :
  ((login_ui (USERS users_section) username password true ss).2 = SignedIn
   ↔ (username = "admin" ∧ password = "admin")
     ∨ (username = "viewer" ∧ password = "viewer"))
  ∧ ((login_ui (USERS users_section) username password true ss).2 = SignedIn →
     (is_admin (login_ui (USERS users_section) username password true ss).1 = true
      ↔ username = "admin")).
Proof.
  rewrite (users_fallback _ Hnone).
  assert (Hlook : ∀ a, FALLBACK_USERS !! username = Some a
            ↔ (username = "admin" ∧ a = mkAccount "admin" "admin")
              ∨ (username = "viewer" ∧ a = mkAccount "viewer" "viewer")).
  { intros a. unfold FALLBACK_USERS.
    destruct (decide (username = "admin")) as [->|Hna].
    - rewrite lookup_insert_eq. split.
      + intros [= <-]. by left.
      + intros [[_ ->]|[? _]]; [reflexivity|discriminate].
    - rewrite lookup_insert_ne by done.
      destruct (decide (username = "viewer")) as [->|Hnv].
      + rewrite lookup_insert_eq. split.
        * intros [= <-]. by right.
        * intros [[? _]|[_ ->]]; [discriminate|reflexivity].
      + rewrite lookup_insert_ne by done. rewrite lookup_empty. split; [discriminate|].
        intros [[? _]|[? _]]; done. }
  split.
  - rewrite login_signed_in. split.
    + intros (a & Ha & Hp). apply Hlook in Ha as [[-> ->]|[-> ->]]; simpl in Hp; subst; auto.
    + intros [[-> ->]|[-> ->]]; eexists; (split; [by apply Hlook; auto|reflexivity]).
  - intros (a & Ha & Hp)%login_signed_in.
    rewrite (login_session _ _ _ _ _ Ha Hp), is_admin_after_login.
    apply Hlook in Ha as [[-> ->]|[-> ->]]; simpl; split; done.
Qed.

Lemma fallback_accounts_witness :
  (login_ui (USERS None) "admin" "admin" true ∅).2 = SignedIn
  ↔ ("admin" = "admin" ∧ "admin" = "admin") ∨ ("admin" = "viewer" ∧ "admin" = "viewer").
Proof.
  refine (proj1 (fallback_accounts None "admin" "admin" ∅ _)). by left.
Defined.

(** ** The store on disk *)

Section StoreFacts.
Import Excel.

Lemma write_text_reloaded c : write_text (blank_to_missing c) = write_text c.
Proof. destruct c as [[|a s]|]; reflexivity. Qed.

Lemma write_row_reloaded r : write_row (reloaded r) = write_row r.
Proof. unfold write_row, reloaded. simpl. by rewrite !write_text_reloaded. Qed.

Lemma write_rows_reloaded rs : write_rows (map reloaded rs) = write_rows rs.
Proof.
  induction rs as [|r rs IH]; simpl; [reflexivity|].
  by rewrite write_row_reloaded, IH.
Qed.

Lemma blank_to_missing_idem c : blank_to_missing (blank_to_missing c) = blank_to_missing c.
Proof. destruct c as [[|a s]|]; reflexivity. Qed.

Lemma reloaded_idem r : reloaded (reloaded r) = reloaded r.
Proof. unfold reloaded. simpl. by rewrite !blank_to_missing_idem. Qed.

Lemma blank_to_missing_not_blank c : blank_to_missing c ≠ Some "".
Proof. destruct c as [[|a s]|]; simpl; congruence. Qed.

Lemma reloaded_no_blank_holds r : no_blank (reloaded r) = true.
Proof.
  unfold no_blank, reloaded. simpl.
  rewrite !bool_decide_eq_false_2 by apply blank_to_missing_not_blank.
  reflexivity.
Qed.

End StoreFacts.

(** X4.  When the file is absent, loading creates it with the sheet
    "Projects", the seven columns and no row, and yields the empty
    frame; when the file exists, [ensure_excel] leaves it alone and
    loading reads it.  [ensure_excel] never raises, and a second call
    changes nothing. *)
Theorem load_creates_empty_store
    (after_refusal : option workbook → DataFrame → option workbook) (w : world) :
  (disk w = None →
   load_data after_refusal w
   = (Excel.Loaded [],
      mkWorld (Some {[ SHEET_NAME := mkSheet COLUMNS [] ]})
              (remote w) (net_log w) (shown w)))
  ∧ (∀ wb, disk w = Some wb →
       ensure_excel after_refusal w = (Ok tt, w)
       ∧ load_data after_refusal w = (Excel.read_excel wb SHEET_NAME, w))
  ∧ (∀ r w1, ensure_excel after_refusal w = (r, w1) →
       r = Ok tt ∧ ensure_excel after_refusal w1 = (Ok tt, w1)).
Proof.
  split; [|split].
  - intros Hd. unfold load_data, ensure_excel. rewrite Hd.
    unfold write_excel_file, Excel.to_excel, set_disk. simpl.
    by rewrite (ExcelFacts.read_written [] []).
  - intros wb Hd. split; [|by apply ExcelFacts.load_of_disk].
    unfold ensure_excel. by rewrite Hd.
  - intros r w1. unfold ensure_excel. destruct (disk w) as [wb|] eqn:Hd.
    + intros [= <- <-]. split; [reflexivity|]. by rewrite Hd.
    + unfold write_excel_file, Excel.to_excel, set_disk. simpl.
      intros [= <- <-]. split; reflexivity.
Qed.

Lemma load_creates_empty_store_witness :
  load_data Sample.keep_old Sample.empty_world
  = (Excel.Loaded [],
     mkWorld (Some {[ SHEET_NAME := mkSheet COLUMNS [] ]}) ∅ [] []).
Proof.
  refine (proj1 (load_creates_empty_store Sample.keep_old Sample.empty_world) _).
  reflexivity.
Defined.

(** X5.  After one save and load of a storable frame the frame is
    stable: it holds no empty text, and saving it again writes the
    very file it was loaded from, so that a further load returns it
    unchanged. *)
Theorem reload_is_stable
    (after_refusal : option workbook → DataFrame → option workbook)
    (df : DataFrame) (w : world)
    (Hst : Excel.storable (rows df) = true) :
  ∃ w1 df1,
    save_data after_refusal df w = (Ok tt, w1)
    ∧ load_data after_refusal w1 = (Excel.Loaded df1, w1)
    ∧ forallb Excel.no_blank (rows df1) = true
    ∧ save_data after_refusal df1 w1 = (Ok tt, w1)
    ∧ rows df1 = map Excel.reloaded (rows df).
Proof.
  destruct (ExcelFacts.write_then_read (rows df) Hst) as (body & Hw & Hr).
  exists (mkWorld (Some {[ SHEET_NAME := mkSheet COLUMNS body ]})
                  (remote w) (net_log w) (shown w)),
         (range_index (map Excel.reloaded (rows df))).
  split; [|split; [|split; [|split]]].
  - unfold save_data, write_excel_file, Excel.to_excel, set_disk. by rewrite Hw.
  - rewrite (ExcelFacts.load_of_disk after_refusal _ {[ SHEET_NAME := mkSheet COLUMNS body ]})
      by reflexivity.
    by rewrite Hr.
  - rewrite rows_range_index. clear. induction (rows df) as [|r rs IH]; simpl; [done|].
    by rewrite reloaded_no_blank_holds, IH.
  - unfold save_data, write_excel_file, Excel.to_excel, set_disk.
    by rewrite rows_range_index, write_rows_reloaded, Hw.
  - apply rows_range_index.
Qed.

Lemma reload_is_stable_witness :
  ∃ w1 df1,
    save_data Sample.keep_old (range_index [Sample.no_location]) Sample.empty_world
    = (Ok tt, w1)
    ∧ load_data Sample.keep_old w1 = (Excel.Loaded df1, w1)
    ∧ forallb Excel.no_blank (rows df1) = true
    ∧ save_data Sample.keep_old df1 w1 = (Ok tt, w1)
    ∧ rows df1 = map Excel.reloaded (rows (range_index [Sample.no_location])).
Proof.
  apply (reload_is_stable Sample.keep_old (range_index [Sample.no_location])
           Sample.empty_world).
  vm_compute. reflexivity.
Defined.

(** X6.  The workbook of the "Download filtered Excel" button holds
    the sheet the store would hold, but under the name "Sheet1": put
    in the place of the store it is refused by [load_data] with a
    ValueError, whatever the frame. *)
Theorem filtered_download_is_no_store
    (after_refusal : option workbook → DataFrame → option workbook)
    (filtered_df : DataFrame) (wb : workbook) (w : world)
    (Hwb : download_filtered_excel filtered_df = Ok wb)
    (Hdisk : disk w = Some wb) :
  (∃ ws, wb = {[ "Sheet1" := ws ]}
     ∧ Excel.to_excel filtered_df SHEET_NAME = Ok {[ SHEET_NAME := ws ]})
  ∧ load_data after_refusal w
    = (Excel.LoadError (Error "ValueError" "Worksheet not found"), w).
Proof.
  unfold download_filtered_excel, Excel.to_excel in Hwb.
  destruct (Excel.write_rows (rows filtered_df)) as [body|e] eqn:Hw; [|discriminate].
  injection Hwb as <-. split.
  - eexists. split; [reflexivity|]. unfold Excel.to_excel. by rewrite Hw.
  - rewrite (ExcelFacts.load_of_disk after_refusal _ _ Hdisk).
    unfold Excel.read_excel. by rewrite lookup_singleton_ne.
Qed.

Lemma filtered_download_is_no_store_witness :
  load_data Sample.keep_old
    (mkWorld (Some {[ "Sheet1" := mkSheet COLUMNS [] ]}) ∅ [] [])
  = (Excel.LoadError (Error "ValueError" "Worksheet not found"),
     mkWorld (Some {[ "Sheet1" := mkSheet COLUMNS [] ]}) ∅ [] []).
Proof.
  refine (proj2 (filtered_download_is_no_store Sample.keep_old []
            {[ "Sheet1" := mkSheet COLUMNS [] ]}
            (mkWorld (Some {[ "Sheet1" := mkSheet COLUMNS [] ]}) ∅ [] []) _ _));
    reflexivity.
Defined.

(** X7.  With the token and the repository name configured, every
    API call succeeding and the file present, the commit puts the file
    on the configured branch, "main" when none is configured, leaves
    the file on disk alone and shows the success notice.  It makes
    three calls: the repository, the contents, then an update under
    the given message when the branch already holds the file and a
    creation under "Create projects.xlsx" when it does not. *)
Theorem commit_pushes_file (outage : net_call → bool) (s : gmap string string)
    (message token repo_name : string) (wb : workbook) (w : world)
    (Htoken : s !! "GITHUB_TOKEN" = Some token)
    (Hrepo : s !! "GITHUB_REPO" = Some repo_name)
    (Hup : ∀ c, outage c = false)
    (Hdisk : disk w = Some wb) :
  commit_excel_to_github (Some s) outage message w
  = (Ok tt,
     mkWorld (Some wb)
       (<[target_branch s := wb]> (remote w))
       (net_log w
        ++ [GetRepo token repo_name;
            GetContents EXCEL_FILE (target_branch s);
            match remote w !! target_branch s with
            | Some _ => UpdateFile EXCEL_FILE message wb (target_branch s)
            | None => CreateFile EXCEL_FILE "Create projects.xlsx" wb (target_branch s)
            end])
       (shown w ++ [SuccessGithubPushed])).
Proof.
  rewrite (commit_steps outage s message w token repo_name Htoken Hrepo).
  cbv beta zeta. rewrite Hdisk.
  destruct (remote w !! target_branch s); cbv beta iota zeta;
    rewrite !Hup; by rewrite <- !app_assoc.
Qed.

Lemma commit_pushes_file_witness :
  commit_excel_to_github Sample.configured (fun _ => false) "Add project"
    (mkWorld (Some ∅) ∅ [] [])
  = (Ok tt,
     mkWorld (Some ∅) (<["main" := ∅]> ∅)
       [GetRepo "t0ken" "org/projects"; GetContents EXCEL_FILE "main";
CreateFile EXCEL_FILE "Create projects.xlsx" ∅ "main"]
[SuccessGithubPushed]).
Proof.
  refine (commit_pushes_file (fun _ => false)
            (<["GITHUB_TOKEN" := "t0ken"]> (<["GITHUB_REPO" := "org/projects"]> ∅))
            "Add project" "t0ken" "org/projects" ∅ (mkWorld (Some ∅) ∅ [] []) _ _ _ _);
    reflexivity.
Defined.

(** X8.  Whatever the secrets hold and whichever calls fail, the
    commit makes at most four API calls and changes the repository in
    one way at most: by putting the file now on disk on the configured
    branch, which it does exactly when it shows the success notice.
    After the skip notice or a failure notice the repository is as it
    was. *)
Theorem commit_touches_one_branch (secrets : option (gmap string string))
    (outage : net_call → bool) (message : string) (w : world) :
  ∃ w' calls n,
    commit_excel_to_github secrets outage message w = (Ok tt, w')
    ∧ net_log w' = (net_log w ++ calls)%list ∧ (length calls ≤ 4)%nat
    ∧ shown w' = (shown w ++ [n])%list
    ∧ (n ≠ SuccessGithubPushed → remote w' = remote w)
    ∧ (n = SuccessGithubPushed →
       ∃ s wb, secrets = Some s ∧ disk w = Some wb
         ∧ remote w' = <[target_branch s := wb]> (remote w)).
Proof.
  destruct secrets as [s|] eqn:Hs.
  - destruct (s !! "GITHUB_TOKEN") as [token|] eqn:Ht;
      [destruct (s !! "GITHUB_REPO") as [repo_name|] eqn:Hr|].
    + rewrite (commit_steps outage s message w token repo_name Ht Hr). cbv beta zeta.
      repeat match goal with
             | |- context [if outage ?c then _ else _] => destruct (outage c)
             | |- context [match disk w with _ => _ end] => destruct (disk w) as [wb|]
             | |- context [match remote w !! ?b with _ => _ end] =>
                 destruct (remote w !! b)
             end;
        eexists _, _, _; (split; [reflexivity|]); simpl;
        rewrite <- ?app_assoc; simpl;
        (split; [reflexivity|]); (split; [simpl; lia|]);
        (split; [reflexivity|]);
        (split; [try done; intros H; by destruct H
                |try discriminate; intros _; eexists _, _; done]).
    + destruct (commit_unconfigured (Some s) outage message w) as (n & Heq & Hn);
        [by right|].
      rewrite Heq. eexists _, [], n. rewrite app_nil_r.
      split; [reflexivity|]. split; [reflexivity|]. split; [simpl; lia|].
      split; [reflexivity|]. rewrite (Hn ltac:(by eexists)).
      split; [done|discriminate].
    + destruct (commit_unconfigured (Some s) outage message w) as (n & Heq & Hn);
        [by left|].
      rewrite Heq. eexists _, [], n. rewrite app_nil_r.
      split; [reflexivity|]. split; [reflexivity|]. split; [simpl; lia|].
      split; [reflexivity|]. rewrite (Hn ltac:(by eexists)).
      split; [done|discriminate].
  - eexists _, [], _. rewrite app_nil_r. split; [reflexivity|].
    split; [reflexivity|]. split; [simpl; lia|]. split; [reflexivity|].
    split; [done|discriminate].
Qed.

Lemma commit_touches_one_branch_witness :
  ∃ w' calls n,
    commit_excel_to_github Sample.configured Sample.offline "Edit project"
      Sample.empty_world = (Ok tt, w')
    ∧ net_log w' = calls ∧ (length calls ≤ 4)%nat
    ∧ shown w' = [n]
    ∧ (n ≠ SuccessGithubPushed → remote w' = ∅)
    ∧ (n = SuccessGithubPushed →
       ∃ s wb, Sample.configured = Some s ∧ None = Some wb
         ∧ remote w' = <[target_branch s := wb]> ∅).
Proof.
  exact (commit_touches_one_branch Sample.configured Sample.offline "Edit project"
           Sample.empty_world).
Defined.

(** X9.  With the configuration present and the repository reached,
    a missing file on disk ends the commit after that one call, with
    the failure notice and the repository unchanged. *)
Theorem commit_without_file (outage : net_call → bool) (s : gmap string string)
    (message token repo_name : string) (w : world)
    (Htoken : s !! "GITHUB_TOKEN" = Some token)
    (Hrepo : s !! "GITHUB_REPO" = Some repo_name)
    (Hreached : outage (GetRepo token repo_name) = false)
    (Hdisk : disk w = None) :
  commit_excel_to_github (Some s) outage message w
  = (Ok tt,
     mkWorld None (remote w) (net_log w ++ [GetRepo token repo_name])
       (shown w ++ [ErrorGithubFailed (Error "FileNotFoundError" EXCEL_FILE)])).
Proof.
  rewrite (commit_steps outage s message w token repo_name Htoken Hrepo).
  cbv beta zeta. by rewrite Hreached, Hdisk.
Qed.

Lemma commit_without_file_witness :
  commit_excel_to_github Sample.configured (fun _ => false) "Add project"
    Sample.empty_world
  = (Ok tt,
     mkWorld None ∅ [GetRepo "t0ken" "org/projects"]
       [ErrorGithubFailed (Error "FileNotFoundError" EXCEL_FILE)]).
Proof.
  refine (commit_without_file (fun _ => false)
            (<["GITHUB_TOKEN" := "t0ken"]> (<["GITHUB_REPO" := "org/projects"]> ∅))
            "Add project" "t0ken" "org/projects" Sample.empty_world _ _ _ _);
    reflexivity.
Defined.

(** ** The calendar text as a whole *)

Section CalendarText.
Import Ics IcsFacts.

Variable utcnow : nat → string.

Lemma lines_cons x rest : one_line x = true → lines (line x +:+ rest) = x :: lines rest.
Proof. intros Hx. by rewrite lines_line, (lines_one_line x Hx). Qed.

Lemma lines_end : lines (line "END:VCALENDAR") = ["END:VCALENDAR"; ""].
Proof. reflexivity. Qed.

Lemma event_text_lines stamp s e r rest :
  one_line stamp = true → one_line_record r = true →
  lines (event stamp (Calendar.yyyymmdd s)
           (Calendar.yyyymmdd (Calendar.next_day e)) r +:+ rest)
  = (nine_lines stamp s e r ++ lines rest)%list.
Proof.
  intros Hstamp Hr. unfold one_line_record in Hr.
  apply andb_true_iff in Hr as [Hr Ht]. apply andb_true_iff in Hr as [Hr Hl].
  apply andb_true_iff in Hr as [Hc Hn].
  unfold event, event_head, event_tail. rewrite !app_assoc.
  rewrite !lines_cons; [reflexivity|..];
    rewrite ?one_line_app, ?Hc, ?Hn, ?Hl, ?Ht, ?Hstamp, ?one_line_yyyymmdd; reflexivity.
Qed.

Lemma spec_events_text_lines rs k rest :
  (∀ j, one_line (utcnow j) = true) →
  forallb well_formed_dates rs = true → forallb one_line_record rs = true →
  lines (spec_events utcnow k rs +:+ rest)
  = (events_lines utcnow k rs ++ lines rest)%list.
Proof.
  intros Hclock. revert k. induction rs as [|r rs IH]; intros k Hwf Hone; [reflexivity|].
  simpl in Hwf, Hone.
  apply andb_true_iff in Hwf as [Hr Hwf]. apply andb_true_iff in Hone as [Hor Hone].
  destruct (well_formed_dates_inv r Hr) as (s & e & Hs & He & _).
  simpl. unfold spec_event. rewrite Hs, He, app_assoc.
  rewrite (event_text_lines _ _ _ _ _ (Hclock k) Hor), (IH _ Hwf Hone).
  by rewrite <- List.app_assoc.
Qed.

Lemma events_lines_length rs k :
  forallb well_formed_dates rs = true →
  length (events_lines utcnow k rs) = (9 * length rs)%nat.
Proof.
  revert k. induction rs as [|r rs IH]; intros k Hwf; [reflexivity|].
  simpl in Hwf. apply andb_true_iff in Hwf as [Hr Hwf].
  destruct (well_formed_dates_inv r Hr) as (s & e & Hs & He & _).
  simpl. rewrite Hs, He, length_app, (IH _ Hwf). simpl. lia.
Qed.

Lemma row_export_raises r :
  lacks_date r = true →
  ∀ k ics rs, ∃ e, ics_events utcnow k ics (r :: rs) = Raise e.
Proof.
  unfold lacks_date. intros Hr k ics rs. simpl.
  destruct (ProjectStart r) as [s|]; [|by eexists].
  destruct (ProjectEnd r) as [e|]; [discriminate|].
  destruct (date_to_ics (Some s)); simpl; by eexists.
Qed.

Lemma events_raise rs r :
  In r rs → lacks_date r = true →
  ∀ k ics, ∃ e, ics_events utcnow k ics rs = Raise e.
Proof.
  intros Hin Hr. induction rs as [|r0 rs IH]; [done|]. intros k ics.
  destruct Hin as [->|Hin]; [by apply row_export_raises|].
  simpl. destruct (date_to_ics (ProjectStart r0)); simpl; [|by eexists].
  destruct (end_to_ics (ProjectEnd r0)); simpl; [|by eexists].
  by apply IH.
Qed.

Lemma single_is_bulk label r :
  make_ics_for_row utcnow r = make_ics_for_dataframe utcnow [(label, r)].
Proof.
  unfold make_ics_for_row, make_ics_for_dataframe, ics_text_for_row,
    ics_text_for_dataframe. simpl.
  destruct (date_to_ics (ProjectStart r)); simpl; [|reflexivity].
  destruct (end_to_ics (ProjectEnd r)); simpl; [|reflexivity].
  by rewrite app_assoc.
Qed.

End CalendarText.

(** X10.  The calendar of one record is the calendar of the frame
    made of that record alone, text or error alike: both variants
    build the same event between the same head and foot. *)
Theorem single_export_is_bulk_of_one (utcnow : nat → string) (label : nat) (r : record) :
  Ics.make_ics_for_row utcnow r = Ics.make_ics_for_dataframe utcnow [(label, r)].
Proof. apply single_is_bulk. Qed.

(** X11.  A record without a start or an end date makes the calendar
    export raise: the single export of that record, and the bulk
    export of any frame that holds it, which then yields no calendar
    at all. *)
Theorem missing_date_fails_export (utcnow : nat → string) (df : DataFrame) (r : record)
    (Hin : In r (rows df)) (Hr : lacks_date r = true) :
  (∃ e, Ics.make_ics_for_row utcnow r = Raise e)
  ∧ (∃ e, Ics.make_ics_for_dataframe utcnow df = Raise e).
Proof.
  split.
  - rewrite (single_is_bulk utcnow 0 r).
    destruct (row_export_raises utcnow r Hr 0 Ics.calendar_head []) as [e He].
    exists e. unfold Ics.make_ics_for_dataframe, Ics.ics_text_for_dataframe.
    simpl rows. by rewrite He.
  - destruct (events_raise utcnow (rows df) r Hin Hr 0 Ics.calendar_head) as [e He].
    exists e. unfold Ics.make_ics_for_dataframe, Ics.ics_text_for_dataframe.
    by rewrite He.
Qed.

Lemma missing_date_fails_export_witness :
  ∃ e, Ics.make_ics_for_dataframe Sample.stamp
         (range_index [Sample.bridge None; Sample.undated]) = Raise e.
Proof.
  refine (proj2 (missing_date_fails_export Sample.stamp
            (range_index [Sample.bridge None; Sample.undated]) Sample.undated _ _)).
  - right. left. reflexivity.
  - reflexivity.
Defined.

(** X12.  The script ends every line of the calendar with a line
    feed alone.  For a frame whose dates are well formed and whose
    texts and clock readings hold no line feed, the bulk calendar cut
    at its line feeds is made of the three head lines, nine lines for
    each record in the order of the frame, and the closing line:
    5 + 9 N pieces for N records, the empty text after the last line
    feed included.  An empty frame gives the head and the closing line
    alone. *)
Theorem calendar_has_nine_lines_per_record (utcnow : nat → string) (df : DataFrame)
    (Hclock : ∀ k, Ics.one_line (utcnow k) = true)
    (Hdates : forallb Ics.well_formed_dates (rows df) = true)
    (Htexts : forallb one_line_record (rows df) = true) :
  ∃ ics, Ics.make_ics_for_dataframe utcnow df = Ok (Ics.encode_utf8 ics)
    ∧ Ics.lines ics
      = (["BEGIN:VCALENDAR"; "VERSION:2.0"; "PRODID:-//Project Tracker Pro//EN"]
         ++ events_lines utcnow 0 (rows df)
         ++ ["END:VCALENDAR"; ""])%list
    ∧ length (Ics.lines ics) = (5 + 9 * length df)%nat.
Proof.
  exists (Ics.calendar_head +:+ Ics.spec_events utcnow 0 (rows df)
          +:+ Ics.line "END:VCALENDAR").
  assert (Hlines : Ics.lines (Ics.calendar_head +:+ Ics.spec_events utcnow 0 (rows df)
                              +:+ Ics.line "END:VCALENDAR")
    = (["BEGIN:VCALENDAR"; "VERSION:2.0"; "PRODID:-//Project Tracker Pro//EN"]
       ++ events_lines utcnow 0 (rows df) ++ ["END:VCALENDAR"; ""])%list).
  { unfold Ics.calendar_head. rewrite !IcsFacts.app_assoc.
    rewrite !lines_cons by reflexivity.
    by rewrite (spec_events_text_lines utcnow _ _ _ Hclock Hdates Htexts). }
  split; [|split; [exact Hlines|]].
  - unfold Ics.make_ics_for_dataframe, Ics.ics_text_for_dataframe.
    rewrite (ics_events_ok utcnow (rows df) 0 Ics.calendar_head Hdates). simpl.
    by rewrite IcsFacts.app_assoc.
  - rewrite Hlines. simpl. rewrite length_app, (events_lines_length utcnow _ _ Hdates).
    unfold rows. rewrite length_map. simpl. lia.
Qed.

Lemma calendar_has_nine_lines_per_record_witness :
  ∃ ics, Ics.make_ics_for_dataframe Sample.stamp Sample.five = Ok (Ics.encode_utf8 ics)
    ∧ Ics.lines ics
      = (["BEGIN:VCALENDAR"; "VERSION:2.0"; "PRODID:-//Project Tracker Pro//EN"]
         ++ events_lines Sample.stamp 0 (rows Sample.five)
         ++ ["END:VCALENDAR"; ""])%list
    ∧ length (Ics.lines ics) = 50%nat.
Proof.
  apply (calendar_has_nine_lines_per_record Sample.stamp Sample.five);
    [intros k|..]; reflexivity.
Defined.

(** Nothing is escaped: a line break in a name breaks the SUMMARY
    line in two. *)
Example line_break_in_name :
  Ics.and_then
    (Ics.ics_text_for_row Sample.stamp
       (Sample.project "P-9" ("Pier" +:+ Ics.nl +:+ "END:VEVENT") "NYC" None))
    (fun ics => Ok (length (Ics.lines ics)))
  = Ok 15%nat.
Proof. vm_compute. reflexivity. Qed.

(** ** The filters as a whole, and what the select boxes offer *)

Section FilterAlgebra.



Lemma select_nonempty (m : record → bool) (df : DataFrame) (p : nat * record) :
  p ∈ df → m p.2 = true → select m df ≠ [].
Proof.
  intros Hin Hm Hnil.
  assert (Hp : p ∈ select m df) by by apply elem_of_select.
  rewrite Hnil in Hp. by apply not_elem_of_nil in Hp.
Qed.

Lemma elem_of_rows (df : DataFrame) (r : record) :
  r ∈ rows df ↔ ∃ p, p ∈ df ∧ p.2 = r.
Proof.
  unfold rows. rewrite list_elem_of_fmap. split.
  - intros (p & -> & Hp). by exists p.
  - intros (p & Hp & <-). by exists p.
Qed.

Lemma location_mask_true l r : location_mask l r = true ↔ Location r = Some l.
Proof.
  unfold location_mask. destruct (Location r) as [v|]; [|split; discriminate].
  rewrite String.eqb_eq. split; [by intros ->|by intros [= ->]].
Qed.

Lemma year_mask_true y r : year_mask y r = true ↔ Year r = Some y.
Proof.
  unfold year_mask. destruct (Year r) as [v|]; [|split; discriminate].
  rewrite Z.eqb_eq. split; [by intros ->|by intros [= ->]].
Qed.

Lemma elem_of_sorted_values {A} `{EqDecision A} (R : relation A)
    `{∀ x y, Decision (R x y)} (f : record → option A) (df : DataFrame) (x : A) :
  x ∈ merge_sort R (remove_dups (omap f (rows df)))
  ↔ ∃ r, r ∈ rows df ∧ f r = Some x.
Proof.
  rewrite merge_sort_Permutation, elem_of_remove_dups, list_elem_of_omap.
  reflexivity.
Qed.

Lemma NoDup_sorted_values {A} `{EqDecision A} (R : relation A)
    `{∀ x y, Decision (R x y)} (f : record → option A) (df : DataFrame) :
  NoDup (merge_sort R (remove_dups (omap f (rows df)))).
Proof. rewrite merge_sort_Permutation. apply NoDup_remove_dups. Qed.

End FilterAlgebra.



(** X14.  Each select box offers "All" and then, once each and in
    ascending order, the values present in its column, missing values
    left out.  Choosing an offered location other than "All" keeps
    exactly the rows of that location, at least one; choosing an
    offered year keeps at least one row.  The choice "All" keeps every
    row, also when it is offered a second time because a record has
    the location "All". *)
Theorem select_boxes_offer_column_values (df : DataFrame) :
  (∃ ls, location_options df = "All" :: ls
     ∧ StronglySorted String.le ls ∧ NoDup ls
     ∧ ∀ l, l ∈ ls ↔ ∃ r, r ∈ rows df ∧ Location r = Some l)
  ∧ (∃ ys, year_options df = YearAll :: map YearIs ys
       ∧ StronglySorted Z.le ys ∧ NoDup ys
       ∧ ∀ y, y ∈ ys ↔ ∃ r, r ∈ rows df ∧ Year r = Some y)
  ∧ (∀ l, l ∈ location_options df → l ≠ "All" →
       location_filter_step l df ≠ []
       ∧ ∀ p, p ∈ location_filter_step l df ↔ p ∈ df ∧ Location p.2 = Some l)
  ∧ (∀ y, YearIs y ∈ year_options df →
       year_filter_step (YearIs y) df ≠ []
       ∧ ∀ p, p ∈ year_filter_step (YearIs y) df ↔ p ∈ df ∧ Year p.2 = Some y)
  ∧ location_filter_step "All" df = df
  ∧ year_filter_step YearAll df = df.
Proof.
  split; [|split; [|split; [|split; [|split]]]].
  - eexists. split; [reflexivity|]. split; [apply StronglySorted_merge_sort; apply _|].
    split; [apply NoDup_sorted_values|]. intros l. apply elem_of_sorted_values.
  - eexists. split; [reflexivity|]. split; [apply StronglySorted_merge_sort; apply _|].
    split; [apply NoDup_sorted_values|]. intros y. apply elem_of_sorted_values.
  - intros l Hl Hne. unfold location_options in Hl.
    apply elem_of_cons in Hl as [->|Hl]; [done|].
    apply elem_of_sorted_values in Hl as (r & Hr & Hloc).
    apply elem_of_rows in Hr as (p & Hp & <-).
    unfold location_filter_step. apply String.eqb_neq in Hne. rewrite Hne. split.
    + apply (select_nonempty _ _ p Hp). by apply location_mask_true.
    + intros p'. by rewrite elem_of_select, location_mask_true.
  - intros y Hy. unfold year_options in Hy.
    apply elem_of_cons in Hy as [?|Hy]; [discriminate|].
    apply list_elem_of_fmap in Hy as (y' & [= <-] & Hy).
    apply elem_of_sorted_values in Hy as (r & Hr & Hyear).
    apply elem_of_rows in Hr as (p & Hp & <-). simpl. split.
    + apply (select_nonempty _ _ p Hp). by apply year_mask_true.
    + intros p'. by rewrite elem_of_select, year_mask_true.
  - reflexivity.
  - reflexivity.
Qed.

Lemma select_boxes_offer_column_values_witness :
  location_filter_step "Ipoh" Sample.five ≠ []
  ∧ ∀ p, p ∈ location_filter_step "Ipoh" Sample.five
         ↔ p ∈ Sample.five ∧ Location p.2 = Some "Ipoh".
Proof.
  refine (proj1 (proj2 (proj2 (select_boxes_offer_column_values Sample.five)))
            "Ipoh" _ _).
  - vm_compute. right. left.
  - discriminate.
Defined.

Example options_of_five :
  location_options Sample.five = ["All"; "Ipoh"; "NYC"]
  ∧ year_options Sample.five = [YearAll; YearIs 2023; YearIs 2024].
Proof. split; vm_compute; reflexivity. Qed.

(** ** Trimming *)

Module StripFacts.
Import PyStr.

Lemma lstrip_head s c rest : lstrip s = String c rest → is_space c = false.
Proof.
  induction s as [|a s IH]; simpl; [discriminate|].
  destruct (is_space a) eqn:Ha; [exact IH|]. by intros [= <- _].
Qed.

Lemma lstrip_fixed s : (∀ c rest, s = String c rest → is_space c = false) → lstrip s = s.
Proof.
  destruct s as [|a s]; [reflexivity|]. intros H. simpl.
  by rewrite (H a s eq_refl).
Qed.

Lemma rstrip_head u c rest : rstrip u = String c rest → ∃ rest', u = String c rest'.
Proof.
  destruct u as [|a u]; simpl; [discriminate|].
  destruct (rstrip u); [destruct (is_space a); [discriminate|]|];
    intros [= <- _]; by eexists.
Qed.

Lemma snoc_inv (rest : string) c a b :
  rest +:+ String c "" = String a b
  → (rest = "" ∧ a = c ∧ b = "") ∨ ∃ rest', rest = String a rest' ∧ b = rest' +:+ String c "".
Proof.
  destruct rest as [|x rest].
  - intros [= -> <-]. by left.
  - rewrite IcsFacts.app_cons. intros [= -> <-]. right. by eexists.
Qed.

Lemma snoc_nonempty (rest : string) c : rest +:+ String c "" ≠ "".
Proof. by destruct rest. Qed.

Lemma rstrip_last u c rest : rstrip u = rest +:+ String c "" → is_space c = false.
Proof.
  revert rest. induction u as [|a u IH]; intros rest; simpl.
  - intros H. symmetry in H. by apply snoc_nonempty in H.
  - destruct (rstrip u) as [|b r] eqn:Hr.
    + destruct (is_space a) eqn:Ha.
      * intros H. symmetry in H. by apply snoc_nonempty in H.
      * intros H. symmetry in H.
        apply snoc_inv in H as [(_ & -> & _)|(rest' & _ & H)]; [exact Ha|].
        symmetry in H. by apply snoc_nonempty in H.
    + intros H. symmetry in H.
      apply snoc_inv in H as [(_ & _ & ?)|(rest' & _ & H)]; [discriminate|].
      symmetry in H. by apply (IH rest').
Qed.

Lemma rstrip_idem u : rstrip (rstrip u) = rstrip u.
Proof.
  induction u as [|a u IH]; simpl; [reflexivity|].
  destruct (rstrip u) as [|b r] eqn:Hr.
  - destruct (is_space a) eqn:Ha; simpl; [reflexivity|]. by rewrite Ha.
  - change (rstrip (String a (String b r))) with
      (match rstrip (String b r) with
       | "" => if is_space a then "" else String a ""
       | r' => String a r'
       end).
    by rewrite IH.
Qed.

(** A stripped text has no white space at either end, and stripping
    it again changes nothing. *)
Lemma strip_trimmed s : trimmed (strip s).
Proof.
  unfold trimmed, strip. intros c rest [H|H].
  - apply rstrip_head in H as [rest' H]. by apply lstrip_head in H.
  - by apply rstrip_last in H.
Qed.

Lemma strip_idem s : strip (strip s) = strip s.
Proof.
  unfold strip. rewrite (lstrip_fixed (rstrip (lstrip s))).
  - apply rstrip_idem.
  - intros c rest H. apply rstrip_head in H as [rest' H]. by apply lstrip_head in H.
Qed.

(** Trimming cuts white space and nothing else. *)
Lemma lstrip_decompose s : ∃ l, s = l +:+ lstrip s ∧ blank l = true.
Proof.
  induction s as [|a s (l & Hl & Hb)]; [by exists ""|]. simpl.
  destruct (is_space a) eqn:Ha.
  - exists (String a l). rewrite IcsFacts.app_cons, <- Hl. split; [reflexivity|].
    unfold blank in *. simpl. by rewrite Ha, Hb.
  - by exists "".
Qed.

Lemma rstrip_decompose s : ∃ r, s = rstrip s +:+ r ∧ blank r = true.
Proof.
  induction s as [|a s (r & Hr & Hb)]; [by exists ""|]. simpl.
  destruct (rstrip s) as [|b u] eqn:Hs.
  - change ("" +:+ r) with r in Hr. subst r. destruct (is_space a) eqn:Ha.
    + exists (String a s). split; [reflexivity|]. unfold blank in *. simpl. by rewrite Ha, Hb.
    + exists s. by split.
  - exists r. rewrite IcsFacts.app_cons, <- Hr. by split.
Qed.

Lemma strip_decompose t :
  ∃ l r, t = l +:+ strip t +:+ r ∧ blank l = true ∧ blank r = true.
Proof.
  destruct (lstrip_decompose t) as (l & Hl & Hbl).
  destruct (rstrip_decompose (lstrip t)) as (r & Hr & Hbr).
  exists l, r. unfold strip. by rewrite <- Hr, <- Hl.
Qed.

Lemma lstrip_blank_app l x : blank l = true → lstrip (l +:+ x) = lstrip x.
Proof.
  unfold blank. induction l as [|a l IH]; simpl; [done|].
  intros [Ha Hl]%andb_true_iff. rewrite Ha. by apply IH.
Qed.

Lemma lstrip_blank r : blank r = true → lstrip r = "".
Proof.
  intros Hr. rewrite <- (IcsFacts.app_empty_r r). by rewrite lstrip_blank_app.
Qed.

Lemma rstrip_blank r : blank r = true → rstrip r = "".
Proof.
  unfold blank. induction r as [|a r IH]; simpl; [done|].
  intros [Ha Hr]%andb_true_iff. by rewrite (IH Hr), Ha.
Qed.

Lemma rstrip_app_blank s r : blank r = true → rstrip (s +:+ r) = rstrip s.
Proof.
  intros Hr. induction s as [|a s IH]; [by apply rstrip_blank|].
  rewrite ?IcsFacts.app_cons. simpl. by rewrite IH.
Qed.

Lemma rstrip_fixed s :
  (∀ c rest, s = rest +:+ String c "" → is_space c = false) → rstrip s = s.
Proof.
  induction s as [|a s IH]; [reflexivity|]. intros H. simpl.
  destruct s as [|b s].
  - simpl. by rewrite (H a "" eq_refl).
  - rewrite IH; [reflexivity|].
    intros c rest Hs. apply (H c (String a rest)).
    by rewrite IcsFacts.app_cons, <- Hs.
Qed.

(** The specification of trimming singles out the text [strip]
    computes. *)
Lemma strips_to_strip t s : strips_to t s ↔ s = strip t.
Proof.
  split.
  - intros (l & r & -> & Hl & Hr & Hs). unfold strip.
    rewrite (lstrip_blank_app l _ Hl).
    destruct s as [|c s].
    + change ("" +:+ r) with r. by rewrite (lstrip_blank r Hr).
    + rewrite IcsFacts.app_cons. simpl.
      rewrite (Hs c s (or_introl eq_refl)).
      rewrite <- IcsFacts.app_cons, (rstrip_app_blank _ r Hr).
      symmetry. apply rstrip_fixed. intros c' rest Heq. apply (Hs c' rest). by right.
  - intros ->. destruct (strip_decompose t) as (l & r & Ht & Hl & Hr).
    exists l, r. split; [exact Ht|]. split; [exact Hl|]. split; [exact Hr|].
    apply strip_trimmed.
Qed.

End StripFacts.

(** ** The add and edit sections as a whole *)

Section SectionFacts.

Variable after_refusal : option workbook → DataFrame → option workbook.
Variable secrets : option (gmap string string).
Variable outage : net_call → bool.
Variable ss : gmap string string.

Lemma set_row_later (i k : nat) (r : record) (rs : list record) :
  (i < k)%nat →
  set_row i r (combine (seq k (length rs)) rs) = combine (seq k (length rs)) rs.
Proof.
  revert k. induction rs as [|x rs IH]; intros k Hik; simpl; [reflexivity|].
  destruct (Nat.eqb_spec k i) as [->|_]; [lia|].
  f_equal. apply IH. lia.
Qed.

Lemma set_row_combine (i k : nat) (r : record) (rs : list record) :
  (k ≤ i)%nat →
  set_row i r (combine (seq k (length rs)) rs)
  = combine (seq k (length rs)) (<[(i - k)%nat := r]> rs).
Proof.
  revert k. induction rs as [|x rs IH]; intros k Hki; simpl; [reflexivity|].
  destruct (Nat.eqb_spec k i) as [->|Hne].
  - rewrite Nat.sub_diag. simpl. f_equal.
    apply (set_row_later i (S i) r rs). lia.
  - replace (i - k)%nat with (S (i - S k)) by lia. simpl. f_equal.
    apply (IH (S k)). lia.
Qed.

Lemma set_row_range (i : nat) (r : record) (rs : list record) :
  set_row i r (range_index rs) = range_index (<[i := r]> rs).
Proof.
  unfold range_index. rewrite length_insert, (set_row_combine i 0) by lia.
  by rewrite Nat.sub_0_r.
Qed.

Lemma loc_range (rs : list record) (i : nat) : loc (range_index rs) i = rs !! i.
Proof.
  unfold loc, range_index.
  assert (H : ∀ k, (k ≤ i)%nat →
            snd <$> List.find (fun p : nat * record => Nat.eqb p.1 i)
                      (combine (seq k (length rs)) rs) = rs !! (i - k)%nat).
  { induction rs as [|x rs IH]; intros k Hk; simpl; [reflexivity|].
    destruct (Nat.eqb_spec k i) as [->|Hne].
    - by rewrite Nat.sub_diag.
    - replace (i - k)%nat with (S (i - S k)) by lia. simpl. apply IH. lia. }
  rewrite (H 0%nat) by lia. by rewrite Nat.sub_0_r.
Qed.

Lemma or_empty_text s : Cell.str (Cell.or_empty (Cell.of_text (Some s))) = s.
Proof. by destruct s. Qed.

End SectionFacts.

(** X15.  A run of the add and edit sections by a user who is not
    admin and whom the check refuses on the selected row changes
    neither the file, nor the repository, nor the API log, whatever
    was submitted and whichever button was pressed: it shows the
    admin-only notice and then the no-project notice, the
    not-authorized warning, or nothing when the row index is no label
    of the frame and the lookup raises. *)
Theorem outsider_changes_nothing
    (after_refusal : option workbook → DataFrame → option workbook)
    (secrets : option (gmap string string)) (outage : net_call → bool)
    (ss : gmap string string) (today : date) (submitted : option add_form)
    (row_idx : nat) (pressed : option edit_action) (df : DataFrame) (w : world)
    (Hna : is_admin ss = false)
    (Hrefused : ∀ r, loc df row_idx = Some r → can_edit ss r = false) :
  ∃ res notices,
    mutation_sections after_refusal secrets outage ss today submitted row_idx pressed df w
    = (res, mkWorld (disk w) (remote w) (net_log w) (shown w ++ InfoAdminOnly :: notices))
    ∧ ((res = Ok df ∧ (notices = [InfoNoProjects] ∨ notices = [WarningNotAuthorized]))
       ∨ (res = Raise (Error "KeyError" "row_idx") ∧ notices = [])).
Proof.
  unfold mutation_sections, bind.
  rewrite (add_section_other after_refusal secrets outage ss submitted df w Hna).
  unfold edit_section. destruct df as [|p df].
  - simpl. eexists _, _. split; [unfold bind, show, ret; simpl; by rewrite <- app_assoc|].
    left. split; [reflexivity|by left].
  - simpl length. simpl Nat.eqb. cbv iota.
    destruct (loc (p :: df) row_idx) as [r|] eqn:Hloc.
    + rewrite (Hrefused r eq_refl). simpl negb. cbv iota.
      eexists _, _. split; [unfold bind, show, ret; simpl; by rewrite <- app_assoc|].
      left. split; [reflexivity|by right].
    + eexists _, []. split; [reflexivity|]. right. by split.
Qed.

Lemma outsider_changes_nothing_witness :
  ∃ res notices,
    mutation_sections Sample.keep_old Sample.configured Sample.offline
      (Sample.session "carol" "viewer") Sample.today (Some Sample.form) 1 (Some DoDelete)
      (range_index (Sample.three "alice" "bob" "alice, bob")) Sample.empty_world
    = (res, mkWorld None ∅ [] ([] ++ InfoAdminOnly :: notices))
    ∧ ((res = Ok (range_index (Sample.three "alice" "bob" "alice, bob"))
        ∧ (notices = [InfoNoProjects] ∨ notices = [WarningNotAuthorized]))
       ∨ (res = Raise (Error "KeyError" "row_idx") ∧ notices = [])).
Proof.
  apply (outsider_changes_nothing Sample.keep_old Sample.configured Sample.offline
           (Sample.session "carol" "viewer") Sample.today (Some Sample.form) 1
           (Some DoDelete)
           (range_index (Sample.three "alice" "bob" "alice, bob")) Sample.empty_world).
  - vm_compute. reflexivity.
  - intros r Hr. vm_compute in Hr. injection Hr as <-. vm_compute. reflexivity.
Defined.

(** X16.  An update addresses the row by its label: on a frame
    indexed 0..N-1 it replaces the row at that position by the trimmed
    values of the form and keeps every other row, the order and the
    number of rows.  When the user is authorized on the row at
    [row_idx], the inputs of the edit form accept the year and the
    dates of that row and the save succeeds, that frame is what the
    file holds.  When the year input refuses the year of the row,
    which it does outside 2000..2100, or a date of the row is one no
    timestamp holds, the section raises whichever button was pressed,
    and nothing is changed. *)
Theorem update_replaces_one_row
    (after_refusal : option workbook → DataFrame → option workbook)
    (secrets : option (gmap string string)) (outage : net_call → bool)
    (ss : gmap string string) (today : date) (rs : list record) (row_idx : nat)
    (f : add_form) (w : world) :
  set_row row_idx (new_row f) (range_index rs) = range_index (<[row_idx := new_row f]> rs)
  ∧ (∀ r w1, rs !! row_idx = Some r → can_edit ss r = true →
       form_opens today r = true →
       save_data after_refusal (set_row row_idx (new_row f) (range_index rs)) w = (Ok tt, w1) →
       ∃ w' wb,
         edit_section after_refusal secrets outage ss today row_idx (Some (DoUpdate f))
           (range_index rs) w = (Raise RerunException, w')
         ∧ Excel.to_excel (range_index (<[row_idx := new_row f]> rs)) SHEET_NAME = Ok wb
         ∧ disk w' = Some wb)
  ∧ (∀ r pressed, rs !! row_idx = Some r → can_edit ss r = true →
       form_opens today r = false →
       ∃ kind what,
         edit_section after_refusal secrets outage ss today row_idx pressed (range_index rs) w
         = (Raise (Error kind what), w)
         ∧ (year_in_bounds (year_default today r) = false →
            kind = "StreamlitAPIException")
         ∧ (year_in_bounds (year_default today r) = true →
            kind = "OutOfBoundsDatetime")).
Proof.
  split; [apply set_row_range|]. split.
  - intros r w1 Hr Hcan Hform Hsave.
    assert (Hne : range_index rs ≠ []).
    { destruct rs; [by rewrite lookup_nil in Hr|done]. }
    rewrite <- loc_range in Hr.
    destruct (persisted after_refusal secrets outage _ _ _ _ w w1
                (edit_section_update after_refusal secrets outage ss today row_idx r f
                   (range_index rs) w Hne Hr Hcan Hform) Hsave)
      as (w' & wb & Heq & Hwb & Hd).
    exists w', wb. split; [exact Heq|]. split; [|exact Hd].
    by rewrite <- set_row_range.
  - intros r pressed Hr Hcan Hform.
    rewrite <- loc_range in Hr. unfold edit_section.
    destruct (range_index rs) as [|p df] eqn:Hdf; [discriminate|].
    simpl length. simpl Nat.eqb. rewrite Hr, Hcan. simpl negb. cbv iota.
    unfold bind at 1. unfold form_opens in Hform. unfold edit_form, bind, pure, ret.
    destruct (year_in_bounds (year_default today r)) eqn:Hy.
    + simpl in Hform. unfold Ics.to_datetime.
      destruct (ProjectStart r) as [s|]; [destruct (Calendar.in_bounds s)|];
        (destruct (ProjectEnd r) as [e|]; [destruct (Calendar.in_bounds e)|]);
        try discriminate; eexists _, _; (split; [reflexivity|]); split; done.
    + eexists _, _. split; [reflexivity|]. split; done.
Qed.

Lemma update_replaces_one_row_witness :
  (∃ w' wb,
     edit_section Sample.keep_old Sample.configured Sample.offline
       (Sample.session "bob" "viewer") Sample.today 1 (Some (DoUpdate Sample.form))
       (range_index (Sample.three "alice" "bob" "alice")) Sample.empty_world
     = (Raise RerunException, w')
     ∧ Excel.to_excel (range_index (<[1%nat := new_row Sample.form]>
                                      (Sample.three "alice" "bob" "alice")))
         SHEET_NAME = Ok wb
     ∧ disk w' = Some wb)
  ∧ ∃ kind what,
      edit_section Sample.keep_old Sample.configured Sample.offline
        (Sample.session "alice" "viewer") Sample.today 0 (Some DoDelete)
        (range_index [Sample.old_project]) Sample.empty_world
      = (Raise (Error kind what), Sample.empty_world)
      ∧ (year_in_bounds (year_default Sample.today Sample.old_project) = false →
         kind = "StreamlitAPIException")
      ∧ (year_in_bounds (year_default Sample.today Sample.old_project) = true →
         kind = "OutOfBoundsDatetime").
Proof.
  split.
  - refine (proj1 (proj2 (update_replaces_one_row Sample.keep_old Sample.configured
              Sample.offline (Sample.session "bob" "viewer") Sample.today
              (Sample.three "alice" "bob" "alice") 1 Sample.form Sample.empty_world))
              (Sample.bridge (Some "bob"))
              (save_data Sample.keep_old
                 (set_row 1 (new_row Sample.form)
                    (range_index (Sample.three "alice" "bob" "alice")))
                 Sample.empty_world).2 _ _ _ _);
      vm_compute; reflexivity.
  - refine (proj2 (proj2 (update_replaces_one_row Sample.keep_old Sample.configured
              Sample.offline (Sample.session "alice" "viewer") Sample.today
              [Sample.old_project] 0 Sample.form Sample.empty_world))
              Sample.old_project (Some DoDelete) _ _ _);
      vm_compute; reflexivity.
Defined.

(** The year input stops the section on a project of 1999, and the
    date input on a project that ends in 2300. *)
Example edit_form_refusals :
  edit_section Sample.keep_old Sample.configured Sample.offline
    (Sample.session "alice" "viewer") Sample.today 0 None
    (range_index [Sample.old_project]) Sample.empty_world
  = (Raise (Error "StreamlitAPIException" "Year"), Sample.empty_world)
  ∧ edit_section Sample.keep_old Sample.configured Sample.offline
      (Sample.session "alice" "viewer") Sample.today 0 None
      (range_index [Sample.far_project]) Sample.empty_world
    = (Raise (Error "OutOfBoundsDatetime" "23000101"), Sample.empty_world).
Proof. split; vm_compute; reflexivity. Qed.

(** X17.  The row the add handler appends is found under the label
    N, the number of rows so far, and the rows so far under 0..N-1 in
    their order, whatever their labels were.  Its code, name, location
    and team are the texts of the form without the white space at
    their ends and nothing else cut: the text of the form is the cell
    between two runs of white space, the cell neither starts nor ends
    with white space, and no other text is so. *)
Theorem added_row_is_last_and_trimmed (df : DataFrame) (f : add_form) :
  loc (concat_row df (new_row f)) (length df) = Some (new_row f)
  ∧ (∀ i, (i < length df)%nat → loc (concat_row df (new_row f)) i = rows df !! i)
  ∧ (∀ t c, (t, c) ∈ [(f_code f, ProjectCode (new_row f));
                      (f_name f, ProjectName (new_row f));
                      (f_location f, Location (new_row f));
                      (f_team f, ProjectTeam (new_row f))] →
       ∃ s, c = Some s ∧ strips_to t s ∧ ∀ s', strips_to t s' → s' = s).
Proof.
  unfold concat_row. split; [|split].
  - rewrite loc_range.
    replace (length df) with (length (rows df)) by (unfold rows; apply length_map).
    by rewrite list_lookup_middle.
  - intros i Hi. rewrite loc_range. apply lookup_app_l.
    unfold rows. by rewrite length_map.
  - intros t c Hin. unfold new_row in Hin. simpl in Hin.
    assert (Hstrip : ∃ s, Some (PyStr.strip t) = Some s ∧ strips_to t s
                       ∧ ∀ s', strips_to t s' → s' = s).
    { exists (PyStr.strip t). split; [reflexivity|].
      split; [by apply StripFacts.strips_to_strip|].
      intros s'. apply StripFacts.strips_to_strip. }
    repeat (apply elem_of_cons in Hin as [[= -> ->]|Hin]; [exact Hstrip|]).
    by apply not_elem_of_nil in Hin.
Qed.

Lemma added_row_is_last_and_trimmed_witness :
  loc (concat_row (range_index (Sample.three "alice" "bob" "alice")) (new_row Sample.form)) 1
  = Some (Sample.bridge (Some "bob"))
  ∧ ∃ s, ProjectCode (new_row Sample.form) = Some s ∧ strips_to " P-002 " s
      ∧ ∀ s', strips_to " P-002 " s' → s' = s.
Proof.
  split.
  - refine (proj1 (proj2 (added_row_is_last_and_trimmed
              (range_index (Sample.three "alice" "bob" "alice")) Sample.form)) 1%nat _).
    vm_compute. lia.
  - refine (proj2 (proj2 (added_row_is_last_and_trimmed [] Sample.form))
              " P-002 " (ProjectCode (new_row Sample.form)) _).
    left.
Defined.

(** X18.  On a record whose team cell is missing, the check
    authorizes a non-admin exactly when the username, lower-cased, is
    "nan".  In particular a record saved with an empty team, which no
    non-admin may edit, is editable by such a user once it has been
    loaded back. *)
Theorem missing_team_admits_nan (ss : gmap string string) (r : record)
    (Hna : is_admin ss = false) :
  (ProjectTeam r = None →
   (can_edit ss r = true ↔ PyStr.lower (current_user ss) = "nan"))
  ∧ (ProjectTeam r = Some "" → PyStr.lower (current_user ss) = "nan" →
     can_edit ss r = false ∧ can_edit ss (Excel.reloaded r) = true).
Proof.
  assert (Hnan : ∀ r', ProjectTeam r' = None →
            (can_edit ss r' = true ↔ PyStr.lower (current_user ss) = "nan")).
  { intros r' Hteam.
    assert (Hmem : ∀ u, PyStr.mem u (team_members (row_team_of r')) = String.eqb u "nan").
    { intros u. unfold row_team_of. rewrite Hteam.
      change (team_members _) with ["nan"]. simpl. apply orb_false_r. }
    unfold can_edit. cbv zeta. rewrite Hna, Hmem, PyStrFacts.truthy_lower. simpl.
    destruct (String.eqb_spec (PyStr.lower (current_user ss)) "nan") as [Heq|Hne].
    - rewrite andb_true_r. split; [done|]. intros _.
      apply PyStrFacts.truthy_true. intros Hu. rewrite Hu in Heq. discriminate.
    - rewrite andb_false_r. split; [discriminate|done]. }
  split; [apply Hnan|].
  intros Hteam Hu. split.
  - unfold can_edit, row_team_of. cbv zeta. rewrite Hna, Hteam, Hu. reflexivity.
  - apply Hnan; [|exact Hu]. unfold Excel.reloaded. simpl. by rewrite Hteam.
Qed.

Lemma missing_team_admits_nan_witness :
  can_edit (Sample.session "NaN" "viewer") (Sample.bridge (Some "")) = false
  ∧ can_edit (Sample.session "NaN" "viewer") (Excel.reloaded (Sample.bridge (Some "")))
    = true.
Proof.
  refine (proj2 (missing_team_admits_nan (Sample.session "NaN" "viewer")
            (Sample.bridge (Some "")) _) _ _); vm_compute; reflexivity.
Defined.

(** X19.  Pressing Update without touching the edit form writes the
    row back as it is when no cell is missing, the year is one the
    number input takes (2000 to 2100) and the texts carry no white
    space at their ends; a missing text cell, which the form
    shows as "nan", is written back as the text "nan", and a missing
    year or date as the year or date of today. *)
Theorem untouched_update (today : date) (r : record) :
  (∀ y s e, Year r = Some y → (2000 ≤ y ≤ 2100)%Z →
     ProjectStart r = Some s → ProjectEnd r = Some e →
     trimmed_cell (ProjectCode r) → trimmed_cell (ProjectName r) →
     trimmed_cell (Location r) → trimmed_cell (ProjectTeam r) →
     new_row (edit_defaults today r) = r)
  ∧ (ProjectCode r = None → ProjectCode (new_row (edit_defaults today r)) = Some "nan")
  ∧ (ProjectName r = None → ProjectName (new_row (edit_defaults today r)) = Some "nan")
  ∧ (Location r = None → Location (new_row (edit_defaults today r)) = Some "nan")
  ∧ (ProjectTeam r = None → ProjectTeam (new_row (edit_defaults today r)) = Some "nan")
  ∧ (Year r = None → Year (new_row (edit_defaults today r)) = Some (d_year today))
  ∧ (ProjectStart r = None → ProjectStart (new_row (edit_defaults today r)) = Some today)
  ∧ (ProjectEnd r = None → ProjectEnd (new_row (edit_defaults today r)) = Some today).
Proof.
  split.
  - intros y s e Hy _ Hs He (c & Hc & Hcs) (n & Hn & Hns) (l & Hl & Hls) (t & Ht & Hts).
    destruct r as [ry rc rn rl rs re rt].
    cbn [Year ProjectCode ProjectName Location ProjectStart ProjectEnd ProjectTeam] in *.
    subst. unfold new_row, edit_defaults.
    cbn [Year ProjectCode ProjectName Location ProjectStart ProjectEnd ProjectTeam
         f_year f_code f_name f_location f_start f_end f_team default].
    by rewrite !or_empty_text, Hcs, Hns, Hls, Hts.
  - unfold new_row, edit_defaults. simpl.
    repeat split; intros ->; reflexivity.
Qed.

Lemma untouched_update_witness :
  new_row (edit_defaults Sample.today (Sample.bridge (Some "alice, bob")))
  = Sample.bridge (Some "alice, bob")
  ∧ Location (new_row (edit_defaults Sample.today
                         (Excel.reloaded Sample.no_location))) = Some "nan".
Proof.
  split.
  - refine (proj1 (untouched_update Sample.today (Sample.bridge (Some "alice, bob")))
              2024%Z (mkDate 2024 1 10) (mkDate 2024 1 12) _ _ _ _ _ _ _ _);
      try reflexivity; try lia; eexists; (split; [reflexivity|vm_compute; reflexivity]).
  - refine (proj1 (proj2 (proj2 (proj2 (untouched_update Sample.today
              (Excel.reloaded Sample.no_location))))) _).
    reflexivity.
Defined.
